(** * ghastoolkit.octokit: the request execution engine

    A shallow embedding of [src/ghastoolkit/octokit/octokit.py] (route
    building, the paginated REST GET, [postJson], the [restGet] decorator
    and the GraphQL query call) and of the parts of
    [src/ghastoolkit/octokit/codescanning.py] that drive it, followed by
    the properties of the engine.

    Python objects are modelled as follows.
    - Values (call arguments, decoded JSON bodies) are the inductive
      [value]; numbers are integers.
    - Dictionaries with string keys that are mutated in place (the
      [parameters] argument of [RestRequest.get], the session headers)
      are [gmap string _]; parameter dictionaries live in a heap of
      objects so that aliasing is visible.
    - Exceptions, the HTTP traffic, the logger output and the heap are
      threaded through a state-and-exception monad [M].
    - [while True] is a fuel-indexed loop; running out of fuel is the
      outcome [OutOfFuel], kept apart from every Python outcome. *)

From Stdlib Require Import ZArith Ascii String.
From stdpp Require Import gmap strings list fin_maps pretty.

#[local] Set Warnings "-register-all".

Local Open Scope Z_scope.

(** ** Python values *)

Inductive value : Type :=
| VNone
| VBool (b : bool)
| VInt (z : Z)
| VStr (s : string)
| VList (l : list value)
| VDict (kvs : list (string * value)).

(** [bool(v)]. *)
Definition truthy (v : value) : bool :=
  match v with
  | VNone => false
  | VBool b => b
  | VInt z => negb (z =? 0)
  | VStr s => negb (String.eqb s "")
  | VList l => match l with [] => false | _ => true end
  | VDict kvs => match kvs with [] => false | _ => true end
  end.

(** [d.get(k)] on a decoded JSON object given by its members in document
    order: as in [json.loads], a repeated key keeps its last value. *)
Fixpoint dict_get (k : string) (kvs : list (string * value)) : option value :=
  match kvs with
  | [] => None
  | (k', v) :: rest =>
      match dict_get k rest with
      | Some v' => Some v'
      | None => if String.eqb k' k then Some v else None
      end
  end.

(** [x.get(k)] where a missing key gives [None]. *)
Definition get_or_none (k : string) (kvs : list (string * value)) : value :=
  match dict_get k kvs with Some v => v | None => VNone end.

(** ** Exceptions *)

Inductive exn : Type :=
| Exception (msg : string)
| KeyError (key : string)
| IndexError
| ValueError (msg : string)
| TypeError
| AttributeError
| JSONDecodeError
| OSError
| Unmodelled.
(** [Unmodelled] marks an input on which a Python library routine leaves
    the fragment that is modelled here (see [format_go] and [get_field]); it
    is not a Python exception and no theorem below treats it as one. *)

(** ** [str] and [repr] *)

(** A string is a sequence of characters with code points below 256, one
    [ascii] each. *)

Definition backslash : ascii := ascii_of_nat 92.
Definition single_quote : ascii := ascii_of_nat 39.
Definition double_quote : ascii := ascii_of_nat 34.

Definition is_digit (c : ascii) : bool :=
  let n := nat_of_ascii c in (48 <=? n)%nat && (n <=? 57)%nat.

Fixpoint all_digits (s : string) : bool :=
  match s with
  | EmptyString => true
  | String c rest => is_digit c && all_digits rest
  end.

Fixpoint string_any (p : ascii -> bool) (s : string) : bool :=
  match s with
  | EmptyString => false
  | String c rest => p c || string_any p rest
  end.

Definition hex_digit (n : nat) : ascii :=
  match String.get n "0123456789abcdef" with
  | Some c => c
  | None => "0"%char
  end.

(** [str.isprintable] on one character below 256: the ASCII characters
    from the space to the tilde, and the characters from 161 on except the
    soft hyphen. *)
Definition printable (c : ascii) : bool :=
  let n := nat_of_ascii c in
  ((32 <=? n) && (n <=? 126) || (161 <=? n) && negb (n =? 173))%nat.

(** One character of a string inside its [repr], between quotes
    [quote]. *)
Definition repr_char (quote c : ascii) : string :=
  let n := nat_of_ascii c in
  if Ascii.eqb c quote || Ascii.eqb c backslash then String backslash (String c "")
  else if (n =? 9)%nat then String backslash "t"
  else if (n =? 10)%nat then String backslash "n"
  else if (n =? 13)%nat then String backslash "r"
  else if printable c then String c ""
  else String backslash
         (String "x" (String (hex_digit (n / 16)) (String (hex_digit (n mod 16)) ""))).

Fixpoint repr_chars (quote : ascii) (s : string) : string :=
  match s with
  | EmptyString => ""
  | String c rest => repr_char quote c +:+ repr_chars quote rest
  end.

(** [repr(s)] of a string: in single quotes, unless the string has a
    single quote and no double quote. *)
Definition repr_str (s : string) : string :=
  let quote :=
    if string_any (Ascii.eqb single_quote) s
       && negb (string_any (Ascii.eqb double_quote) s)
    then double_quote else single_quote in
  String quote (repr_chars quote s +:+ String quote "").

(** [", ".join(l)]. *)
Fixpoint comma_join (l : list string) : string :=
  match l with
  | [] => ""
  | x :: rest =>
      match rest with
      | [] => x
      | _ :: _ => x +:+ ", " +:+ comma_join rest
      end
  end.

(** The last value given to [k]. *)
Fixpoint last_of {A} (k : string) (kvs : list (string * A)) : option A :=
  match kvs with
  | [] => None
  | (k', v) :: rest =>
      match last_of k rest with
      | Some v' => Some v'
      | None => if String.eqb k' k then Some v else None
      end
  end.

(** The items of a dictionary given by its members in document order:
    one for each key, at the place of the key's first member and with its
    last value. *)
Fixpoint items_from {A} (seen : list string) (kvs : list (string * A))
  : list (string * A) :=
  match kvs with
  | [] => []
  | (k, v) :: rest =>
      if existsb (String.eqb k) seen then items_from seen rest
      else (k, match last_of k rest with Some v' => v' | None => v end)
             :: items_from (k :: seen) rest
  end.

(** [repr(v)]. *)
Fixpoint py_repr (v : value) : string :=
  match v with
  | VNone => "None"
  | VBool b => if b then "True" else "False"
  | VInt z => pretty z
  | VStr s => repr_str s
  | VList l => "[" +:+ comma_join (map py_repr l) +:+ "]"
  | VDict kvs =>
      "{" +:+ comma_join
                (map (fun kr => repr_str (fst kr) +:+ ": " +:+ snd kr)
                   (items_from []
                      (map (fun kv => match kv with (k, x) => (k, py_repr x) end) kvs)))
          +:+ "}"
  end.

(** [str(v)]: a string is itself, anything else its [repr]. *)
Definition py_str (v : value) : string :=
  match v with
  | VStr s => s
  | _ => py_repr v
  end.

(** ** [str.format] with keyword arguments only *)

Definition starts_with_digit (s : string) : bool :=
  match s with
  | EmptyString => false
  | String c _ => is_digit c
  end.

(** Resolving one replacement field against the keyword arguments.  An
    empty name is automatic numbering, which fails on the empty tuple of
    positional arguments; a name that starts with a digit is read as a
    number as far as its digits go and is left unmodelled; any other name
    is looked up in [kwargs], and the field is replaced by [str] of the
    value. *)
Definition get_field (kwargs : gmap string value) (name : string) : exn + string :=
  if String.eqb name "" then inl IndexError
  else if starts_with_digit name then inl Unmodelled
  else match kwargs !! name with
       | Some v => inr (py_str v)
       | None => inl (KeyError name)
       end.

Inductive fmode : Type :=
| InLiteral
| InField (name : string).

Definition emit (c : ascii) (r : exn + string) : exn + string :=
  match r with
  | inl e => inl e
  | inr s => inr (String c s)
  end.

Definition emit_str (t : string) (r : exn + string) : exn + string :=
  match r with
  | inl e => inl e
  | inr s => inr (t +:+ s)
  end.

(** The characters that start attribute access, index access, a
    conversion or a format specification inside a field. *)
Definition field_special (c : ascii) : bool :=
  Ascii.eqb c "." || Ascii.eqb c "[" || Ascii.eqb c "!" || Ascii.eqb c ":".

(** The scanner of [str.format], left to right: literal text, the escapes
    [{{] and [}}], and fields [{name}].  A field is resolved as soon as its
    closing brace is read, so the first problem met in the string decides
    the exception.  Attribute and index access, conversions and format
    specifications (a [.], [[], [!] or [:] inside a field) are not
    modelled. *)
Fixpoint format_go (kwargs : gmap string value) (mode : fmode) (s : string)
  : exn + string :=
  match s with
  | EmptyString =>
      match mode with
      | InLiteral => inr ""
      | InField _ => inl (ValueError "expected '}' before end of string")
      end
  | String c rest =>
      match mode with
      | InLiteral =>
          if Ascii.eqb c "{" then
            match rest with
            | EmptyString =>
                inl (ValueError "Single '{' encountered in format string")
            | String c' rest' =>
                if Ascii.eqb c' "{" then emit "{" (format_go kwargs InLiteral rest')
                else format_go kwargs (InField "") rest
            end
          else if Ascii.eqb c "}" then
            match rest with
            | EmptyString =>
                inl (ValueError "Single '}' encountered in format string")
            | String c' rest' =>
                if Ascii.eqb c' "}" then emit "}" (format_go kwargs InLiteral rest')
                else inl (ValueError "Single '}' encountered in format string")
            end
          else emit c (format_go kwargs InLiteral rest)
      | InField name =>
          if Ascii.eqb c "}" then
            match get_field kwargs name with
            | inl e => inl e
            | inr t => emit_str t (format_go kwargs InLiteral rest)
            end
          else if Ascii.eqb c "{" then
            inl (ValueError "unexpected '{' in field name")
          else if field_special c then inl Unmodelled
          else format_go kwargs (InField (name +:+ String c "")) rest
      end
  end.

(** [template.format] applied to keyword arguments [kwargs]. *)
Definition format (template : string) (kwargs : gmap string value) : exn + string :=
  format_go kwargs InLiteral template.

(** ** Configuration and routes *)

(** The repository value object of [ghastoolkit.octokit.github]; the engine
    reads its [owner] and [repo] attributes only. *)
Record Repository : Type := mkRepository {
  owner : string;
  repo : string;
}.

(** The class attributes of [GitHub] that the engine reads.  They are set
    by the configuration code of [ghastoolkit.octokit.github] and are taken
    as given here. *)
Record GitHub : Type := mkGitHub {
  GitHub_token : option string;
  GitHub_repository : option Repository;
  GitHub_api_rest : string;
  GitHub_api_graphql : string;
}.

(** Passing [options] as keyword arguments to a callable whose own
    parameters are [names]: a key that repeats one of them is a
    [TypeError] raised by the call itself. *)
Definition kwargs_clash (names : list string) (options : gmap string value) : bool :=
  existsb (fun n => bool_decide (is_Some (options !! n))) names.

Definition startswith (s prefix : string) : bool := String.prefix prefix s.

Module Octokit.

Definition formatPath (path : string) (repo0 : Repository)
    (options : gmap string value) : exn + string :=
  if kwargs_clash ["owner"; "org"; "repo"] options then inl TypeError
  else format path
         (<["owner" := VStr (owner repo0)]>
            (<["org" := VStr (owner repo0)]>
               (<["repo" := VStr (repo repo0)]> options))).

(** [route(path, repository, rtype, **options)]: [options] are the further
    keyword arguments of the call.  One of them named as a parameter of
    [route] itself is refused by the call to [route], one named as a
    parameter of [formatPath] by the call to [formatPath]. *)
Definition route (G : GitHub) (path : string) (repository : Repository)
    (rtype : string) (options : gmap string value) : exn + string :=
  match
    (if kwargs_clash ["path"; "repository"; "rtype"] options then inl TypeError
     else if kwargs_clash ["path"; "repo"] options then inl TypeError
     else formatPath path repository options)
  with
  | inl e => inl e
  | inr formatted_path =>
      let formatted_path :=
        if startswith formatted_path "/" then formatted_path
        else "/" +:+ formatted_path in
      let url :=
        if String.eqb rtype "rest" then GitHub_api_rest G
        else GitHub_api_graphql G in
      inr (url +:+ formatted_path)
  end.

End Octokit.
(** ** The world: objects, HTTP traffic, log output *)

Inductive http_method : Type := GET | POST.

(** One call of [session.get] or [session.post]: the URL, a snapshot of
    the [params] dictionary and of the session headers at the time of the
    call, and the JSON payload of a POST. *)
Record request : Type := mkRequest {
  req_method : http_method;
  req_url : string;
  req_params : gmap string value;
  req_headers : gmap string string;
  req_json : option value;
}.

(** What the engine reads of a [requests] response: [status_code],
    [content], and the result of [json()], which is [None] here when the
    body is not a JSON document (the call then raises). *)
Record response : Type := mkResponse {
  status_code : Z;
  content : string;
  json : option value;
}.

(** The remote side: its answer may depend on everything sent before. *)
Definition server : Type := list request -> request -> response.

Inductive level : Type := DEBUG | WARNING | ERROR.

(** The interpolated part of a log message, kept as data. *)
Inductive log_arg : Type :=
| NoArg
| ArgStr (s : string)
| ArgInt (z : Z)
| ArgValue (v : value).

Record log_record : Type := mkLog {
  log_level : level;
  log_text : string;
  log_interp : log_arg;
}.

Definition loc : Type := positive.

Record world : Type := mkWorld {
  heap : gmap loc (gmap string value);
  sessions : gmap loc (gmap string string);
  traffic : list request;
  logged : list log_record;
  files : gmap string value;
}.

Definition set_heap (h : gmap loc (gmap string value)) (w : world) : world :=
  mkWorld h (sessions w) (traffic w) (logged w) (files w).
Definition set_sessions (s : gmap loc (gmap string string)) (w : world) : world :=
  mkWorld (heap w) s (traffic w) (logged w) (files w).
Definition set_traffic (t : list request) (w : world) : world :=
  mkWorld (heap w) (sessions w) t (logged w) (files w).
Definition set_logged (l : list log_record) (w : world) : world :=
  mkWorld (heap w) (sessions w) (traffic w) l (files w).
Definition set_files (f : gmap string value) (w : world) : world :=
  mkWorld (heap w) (sessions w) (traffic w) (logged w) f.

(** The dictionary stored at [l]. *)
Definition deref (w : world) (l : loc) : gmap string value :=
  default ∅ (heap w !! l).

(** The headers of session [s]. *)
Definition headers (w : world) (s : loc) : gmap string string :=
  default ∅ (sessions w !! s).

(** ** The monad of the engine *)

Inductive outcome (A : Type) : Type :=
| Ret (a : A)
| Raise (e : exn)
| OutOfFuel.
Arguments Ret {A} a.
Arguments Raise {A} e.
Arguments OutOfFuel {A}.

Definition M (A : Type) : Type := world -> outcome A * world.

Definition ret {A} (a : A) : M A := fun w => (Ret a, w).
Definition raise {A} (e : exn) : M A := fun w => (Raise e, w).
Definition bind {A B} (m : M A) (k : A -> M B) : M B :=
  fun w =>
    match m w with
    | (Ret a, w') => k a w'
    | (Raise e, w') => (Raise e, w')
    | (OutOfFuel, w') => (OutOfFuel, w')
    end.

Declare Scope eng_scope.
Delimit Scope eng_scope with eng.
Notation "x <- m ;; k" := (bind m (fun x => k))
  (at level 100, m at next level, right associativity) : eng_scope.
Notation "m ;;; k" := (bind m (fun _ => k))
  (at level 100, right associativity) : eng_scope.
Local Open Scope eng_scope.

Definition lift {A} (r : exn + A) : M A :=
  match r with
  | inl e => raise e
  | inr a => ret a
  end.

Definition getw : M world := fun w => (Ret w, w).
Definition modify (f : world -> world) : M unit := fun w => (Ret tt, f w).

(** [logger.debug], [logger.warning], [logger.error]. *)
Definition log (lv : level) (text : string) (arg : log_arg) : M unit :=
  modify (fun w => set_logged (logged w ++ [mkLog lv text arg]) w).

(** [d[k] = v] on the dictionary object at [l]. *)
Definition dict_set (l : loc) (k : string) (v : value) : M unit :=
  modify (fun w => set_heap (<[l := <[k := v]> (deref w l)]> (heap w)) w).

(** The dictionary object that is the default value of [parameters] in
    [RestRequest.get]: the display in the signature is evaluated once,
    when the function is defined, and every call that omits the argument
    receives this same object. *)
Definition get_defaults : loc := 1%positive.

(** A dictionary display evaluated in a function body: a new object. *)
Definition new_dict (d : gmap string value) : M loc :=
  fun w =>
    let l := fresh ({[get_defaults]} ∪ dom (heap w)) in
    (Ret l, set_heap (<[l := d]> (heap w)) w).

(** [session.headers[k] = v]. *)
Definition header_set (s : loc) (k v : string) : M unit :=
  modify (fun w => set_sessions (<[s := <[k := v]> (headers w s)]> (sessions w)) w).

(** [session.headers.pop(k)]. *)
Definition header_pop (s : loc) (k : string) : M string :=
  fun w =>
    match headers w s !! k with
    | None => (Raise (KeyError k), w)
    | Some v => (Ret v, set_sessions (<[s := delete k (headers w s)]> (sessions w)) w)
    end.

(** [Session()] followed by the assignment of its headers. *)
Definition new_session (h : gmap string string) : M loc :=
  fun w =>
    let s := fresh (dom (sessions w)) in
    (Ret s, set_sessions (<[s := h]> (sessions w)) w).

(** One exchange with the server, appended to the traffic.  Transport
    failures (no answer at all) are not modelled. *)
Definition send (srv : server) (req : request) : M response :=
  fun w => (Ret (srv (traffic w) req), set_traffic (traffic w ++ [req]) w).

(** [session.get(url, params=params)]. *)
Definition session_get (srv : server) (s : loc) (url : string) (params : loc)
  : M response :=
  w <- getw ;;
  send srv (mkRequest GET url (deref w params) (headers w s) None).

(** [session.post(url, json=data)]. *)
Definition session_post (srv : server) (s : loc) (url : string) (data : value)
  : M response :=
  w <- getw ;;
  send srv (mkRequest POST url ∅ (headers w s) (Some data)).

(** [response.json()]. *)
Definition response_json (r : response) : M value :=
  match json r with
  | Some v => ret v
  | None => raise JSONDecodeError
  end.

(** ** Sequences *)

Fixpoint chars (s : string) : list value :=
  match s with
  | EmptyString => []
  | String c rest => VStr (String c "") :: chars rest
  end.

(** The items produced by iterating over a value ([list.extend(v)],
    [for x in v]).  Strings are taken as ASCII. *)
Definition iterate (v : value) : exn + list value :=
  match v with
  | VList l => inr l
  | VStr s => inr (chars s)
  | VDict kvs => inr (map (fun kv => VStr (fst kv)) kvs)
  | VNone | VBool _ | VInt _ => inl TypeError
  end.

(** [len(v)]. *)
Definition py_len (v : value) : exn + Z :=
  match v with
  | VList l => inr (Z.of_nat (length l))
  | VStr s => inr (Z.of_nat (String.length s))
  | VDict kvs => inr (Z.of_nat (length kvs))
  | VNone | VBool _ | VInt _ => inl TypeError
  end.

(** [l[i]] on a tuple or list, with Python's negative indices. *)
Definition py_index (l : list value) (i : Z) : exn + value :=
  let n := Z.of_nat (length l) in
  let j := if i <? 0 then i + n else i in
  if (j <? 0) || (n <=? j) then inl IndexError
  else match l !! Z.to_nat j with
       | Some v => inr v
       | None => inl IndexError
       end.

(** ** octokit.py *)

Definition REST_MAX_CALLS : Z := 80.

Definition __OCTOKIT_ERRORS__ : gmap Z string := {[ 401 := "Authentication Issue" ]}.

(** A Python function as the decorator sees it: the [args] and [defaults]
    of [inspect.getfullargspec] (the receiver is the first of [args]),
    whether it takes [**kwargs], and its body run on the bound parameters
    and on the extra keyword arguments. *)
Record pyfunc : Type := mkFunc {
  func_args : list string;
  func_defaults : list value;
  func_varkw : bool;
  func_body : gmap string value -> gmap string value -> M value;
}.

(** The parameters of [names] that [kw] leaves unbound take their default;
    [i] is the position of the first of [names] among all parameters and
    [nreq] the number of parameters without a default. *)
Fixpoint bind_named (names : list string) (i nreq : nat) (defaults : list value)
    (kw : gmap string value) : exn + gmap string value :=
  match names with
  | [] => inr ∅
  | n :: rest =>
      match bind_named rest (S i) nreq defaults kw with
      | inl e => inl e
      | inr m =>
          match kw !! n with
          | Some v => inr (<[n := v]> m)
          | None =>
              match defaults !! (i - nreq)%nat with
              | Some v => if (nreq <=? i)%nat then inr (<[n := v]> m) else inl TypeError
              | None => inl TypeError
              end
          end
      end
  end.

(** The call [func(self, **kw)]: the receiver is bound by position, every
    keyword must name another declared parameter unless the function takes
    [**kwargs], and every parameter left unbound needs a default. *)
Definition call_method (func : pyfunc) (kw : gmap string value) : M value :=
  match func_args func with
  | [] => raise TypeError
  | self_name :: named =>
      let extra := filter (fun kv => kv.1 ∉ named) kw in
      if bool_decide (is_Some (kw !! self_name)) then raise TypeError
      else if bool_decide (extra ≠ ∅) && negb (func_varkw func) then raise TypeError
      else
        let nreq := (length (func_args func) - length (func_defaults func))%nat in
        locals <- lift (bind_named named 1 nreq (func_defaults func) kw) ;;
        func_body func locals extra
  end.

Module RestRequest.

Definition PER_PAGE : Z := 100.
Definition VERSION : string := "2022-11-28".

(** An instance: its [repository] and the location of its session's
    headers. *)
Record t : Type := mk {
  repository : option Repository;
  session : loc;
}.

(** [a or b] on optional repositories; a repository object is true. *)
Definition or_else (a b : option Repository) : option Repository :=
  match a with
  | Some r => Some r
  | None => b
  end.

(** The string that [token {GitHub.token}] interpolates to. *)
Definition authorization (G : GitHub) : string :=
  "token " +:+ match GitHub_token G with
               | Some tok => tok
               | None => "None"
               end.

Definition init (G : GitHub) (repository0 : option Repository) : M t :=
  s <- new_session
         (<["Accept" := "application/vnd.github.v3+json"]>
            (<["X-GitHub-Api-Version" := VERSION]>
               (<["Authorization" := authorization G]> ∅))) ;;
  ret (mk (or_else repository0 (GitHub_repository G)) s).

(** [not headers.get(k)]. *)
Definition header_missing (h : gmap string string) (k : string) : bool :=
  match h !! k with
  | None => true
  | Some v => String.eqb v ""
  end.

Definition out_of_fuel {A} : M A := fun w => (OutOfFuel, w).

(** The body of [while True] in [get]; [fuel] bounds the number of
    iterations. *)
Fixpoint get_loop (srv : server) (fuel : nat) (self : t) (url : string)
    (params : loc) (expected : Z) (page : Z) (result : list value) : M value :=
  match fuel with
  | O => out_of_fuel
  | S fuel' =>
      dict_set params "page" (VInt page) ;;;
      responce <- session_get srv (session self) url params ;;
      responce_json <- response_json responce ;;
      if negb (status_code responce =? expected) then
        log ERROR "Error code from server :: " (ArgInt (status_code responce)) ;;;
        log ERROR "Content :: " (ArgValue responce_json) ;;;
        match __OCTOKIT_ERRORS__ !! status_code responce with
        | Some known_error =>
            if negb (String.eqb known_error "") then raise (Exception known_error)
            else raise (Exception "REST Request failed :: non-expected server error")
        | None => raise (Exception "REST Request failed :: non-expected server error")
        end
      else
        match responce_json with
        | VDict kvs =>
            if truthy (get_or_none "errors" kvs) then
              log ERROR "" (ArgValue (get_or_none "message" kvs)) ;;;
              raise (Exception "REST Request failed :: error from server")
            else ret responce_json
        | _ =>
            items <- lift (iterate responce_json) ;;
            n <- lift (py_len responce_json) ;;
            if n <? PER_PAGE then ret (VList (result ++ items))
            else get_loop srv fuel' self url params expected (page + 1) (result ++ items)
        end
  end.

(** [get(self, path, parameters, expected, authenticated)];
    [parameters = None] is a call that omits the argument.  The
    decorators [sleep_and_retry] and [limits] only delay the call and
    are left out. *)
Definition get (G : GitHub) (srv : server) (fuel : nat) (self : t)
    (path : string) (parameters : option loc) (expected : Z)
    (authenticated : bool) : M value :=
  let parameters := default get_defaults parameters in
  match or_else (repository self) (GitHub_repository G) with
  | None => raise (Exception "Repository needs to be set")
  | Some repo0 =>
      w <- getw ;;
      url <- lift (if kwargs_clash ["path"; "repository"; "rtype"] (deref w parameters)
                   then inl TypeError
                   else Octokit.route G path repo0 "rest" (deref w parameters)) ;;
      log DEBUG "Fetching content from URL :: " (ArgStr url) ;;;
      if authenticated && header_missing (headers w (session self)) "Authorization"
      then raise (Exception "GitHub Token required for this request")
      else
        dict_set parameters "per_page" (VInt PER_PAGE) ;;;
        get_loop srv fuel self url parameters expected 1 []
  end.

Definition postJson (G : GitHub) (srv : server) (self : t) (path : string)
    (data : value) (expected : Z) : M value :=
  match or_else (repository self) (GitHub_repository G) with
  | None => raise (Exception "Repository needs to be set")
  | Some repo0 =>
      url <- lift (Octokit.route G path repo0 "rest" ∅) ;;
      log DEBUG "Posting content from URL :: " (ArgStr url) ;;;
      response0 <- session_post srv (session self) url data ;;
      if negb (status_code response0 =? expected) then
        log ERROR "Error code from server :: " (ArgInt (status_code response0)) ;;;
        match __OCTOKIT_ERRORS__ !! status_code response0 with
        | Some known_error =>
            if negb (String.eqb known_error "") then raise (Exception known_error)
            else raise (Exception "Failed to post data")
        | None => raise (Exception "Failed to post data")
        end
      else response_json response0
  end.

(** The [for argv in func_info.args] loop of the wrapper; it returns the
    final value of the flag [response]. *)
Fixpoint wrap_loop (fargs : list string) (args defaults : list value)
    (params : loc) (args_index : nat) (response0 : bool) : M bool :=
  match fargs with
  | [] => ret response0
  | argv :: rest =>
      if String.eqb argv "self" then
        wrap_loop rest args defaults params args_index response0
      else
        let response1 := if String.eqb argv "response" then true else response0 in
        let argv_value :=
          if (args_index <? length args)%nat
          then default VNone (args !! args_index)
          else VNone in
        argv_value <-
          (if negb (truthy argv_value) && (Z.of_nat (length defaults) <? 0)
           then lift (py_index defaults
                        (Z.of_nat (length defaults) - Z.of_nat args_index))
           else ret argv_value) ;;
        dict_set params argv argv_value ;;;
        wrap_loop rest args defaults params (S args_index) response1
  end.

(** [restGet(url, authenticated)(func)] applied to a receiver whose
    attribute [rest], when it has one, is [self_rest], to positional
    arguments [args] and keyword arguments [kwargs].  The wrapper names
    its receiver [self], so a keyword [self] is refused by the call. *)
Definition restGet (G : GitHub) (srv : server) (fuel : nat)
    (url : string) (authenticated : bool) (func : pyfunc)
    (self_rest : option t) (args : list value) (kwargs : gmap string value)
  : M value :=
  if kwargs_clash ["self"] kwargs then raise TypeError
  else
    rest <- match self_rest with
            | Some r => ret r
            | None => init G None
            end ;;
    params <- new_dict ∅ ;;
    response0 <- wrap_loop (func_args func) args (func_defaults func) params 0 false ;;
    result <- get G srv fuel rest url (Some params) 200 false ;;
    if response0 then
      if bool_decide (is_Some (kwargs !! "responce")) then raise TypeError
      else call_method func (<["responce" := result]> kwargs)
    else ret result.

End RestRequest.

Module GraphQLRequest.

(** An instance; [queries] is the mapping filled by [loadQueries] when
    the instance is built. *)
Record t : Type := mk {
  repository : option Repository;
  session : loc;
  queries : gmap string string;
}.

(** The [for err in ...] loop of [query]. *)
Fixpoint warn_all (errs : list value) : M unit :=
  match errs with
  | [] => ret tt
  | err :: rest =>
      match err with
      | VDict kvs =>
          log WARNING "GraphQL Query failed :: " (ArgValue (get_or_none "message" kvs)) ;;;
          warn_all rest
      | _ => raise AttributeError
      end
  end.

Section Query.

Variable G : GitHub.
Variable srv : server.
(** [Template(query).substitute] of the Python library, taken as
    given. *)
Variable substitute : string -> gmap string value -> exn + string.

(** [formatQuery(self, query, **options)]: an option named as one of the
    method's own parameters is refused by the call.  [substitute] takes
    its own parameters by position only. *)
Definition formatQuery (query0 : string) (options : gmap string value)
  : exn + string :=
  if kwargs_clash ["self"; "query"] options then inl TypeError
  else substitute query0 options.

Definition query (self : t) (name : string) (options : gmap string value)
  : M value :=
  match queries self !! name with
  | None => ret (VDict [])
  | Some query_content =>
      if String.eqb query_content "" then ret (VDict [])
      else
        query0 <- lift (formatQuery query_content options) ;;
        response0 <- session_post srv (session self) (GitHub_api_graphql G)
                       (VDict [("query", VStr query0)]) ;;
        if negb (status_code response0 =? 200) then
          log ERROR "GraphQL API Status :: " (ArgInt (status_code response0)) ;;;
          log ERROR "GraphQL Content :: " (ArgStr (content response0)) ;;;
          raise (Exception "Failed to get data from GraphQL API")
        else
          rjson <- response_json response0 ;;
          match rjson with
          | VDict kvs =>
              (if truthy (get_or_none "errors" kvs) then
                 errs <- lift (iterate (get_or_none "errors" kvs)) ;;
                 warn_all errs
               else ret tt) ;;;
              ret rjson
          | _ => raise AttributeError
          end
  end.

End Query.

(** *** Loading the query files *)

(** [os.path.join(path, file)] for a file name as [os.listdir] returns
    it, without a separator in it. *)
Definition endswith_slash (s : string) : bool :=
  match String.get (String.length s - 1) s with
  | Some c => Ascii.eqb c "/"
  | None => false
  end.

Definition join (path file : string) : string :=
  if String.eqb path "" then file
  else if endswith_slash path then path +:+ file
  else path +:+ "/" +:+ file.

(** The text before and after the last dot of [s]. *)
Fixpoint split_last_dot (s : string) : option (string * string) :=
  match s with
  | EmptyString => None
  | String c rest =>
      match split_last_dot rest with
      | Some (before, after) => Some (String c before, after)
      | None => if Ascii.eqb c "." then Some (EmptyString, rest) else None
      end
  end.

Fixpoint only_dots (s : string) : bool :=
  match s with
  | EmptyString => true
  | String c rest => Ascii.eqb c "." && only_dots rest
  end.

(** [os.path.splitext(file)] for a file name without a separator: the
    extension starts at the last dot, unless only dots come before it. *)
Definition splitext (file : string) : string * string :=
  match split_last_dot file with
  | None => (file, "")
  | Some (before, after) =>
      if only_dots before then (file, "") else (before, String "." after)
  end.

Section Files.

(** The file system operations that [loadQueries] uses, taken as given:
    [os.path.isdir], [os.listdir], and opening and reading a file. *)
Variable isdir : string -> bool.
Variable listdir : string -> exn + list string.
Variable read : string -> exn + string.

(** The [for file in os.listdir(path)] loop; [queries] is the mapping
    being filled. *)
Fixpoint load_files (path : string) (files0 : list string)
    (queries0 : gmap string string) : M (gmap string string) :=
  match files0 with
  | [] => ret queries0
  | file :: rest =>
      let root := join path file in
      let '(name, ext) := splitext file in
      if negb (String.eqb ext ".graphql") then load_files path rest queries0
      else
        data <- lift (read root) ;;
        log DEBUG "Loaded GraphQL Query :: " (ArgStr name) ;;;
        load_files path rest (<[name := data]> queries0)
  end.

(** [loadQueries(self, paths)], on the mapping [self.queries]. *)
Fixpoint loadQueries (queries0 : gmap string string) (paths : list string)
  : M (gmap string string) :=
  match paths with
  | [] => ret queries0
  | path :: rest =>
      if negb (isdir path) then loadQueries queries0 rest
      else
        files0 <- lift (listdir path) ;;
        queries1 <- load_files path files0 queries0 ;;
        loadQueries queries1 rest
  end.

(** [GraphQLRequest.__init__]; [octokit_path] is the directory of the
    module file, from which [DEFAULT_GRAPHQL_PATHS] is made. *)
Definition init (G : GitHub) (octokit_path : string)
    (repository0 : option Repository) : M t :=
  s <- new_session
         (<["Accept" := "application/vnd.github.hawkgirl-preview+json"]>
            (<["Authorization" := RestRequest.authorization G]> ∅)) ;;
  queries0 <- loadQueries ∅ [join octokit_path "graphql"] ;;
  ret (mk (RestRequest.or_else repository0 (GitHub_repository G)) s queries0).

End Files.

End GraphQLRequest.

Module CodeScanning.

(** An instance: [self.rest]. *)
Record t : Type := mk { rest : RestRequest.t }.

(** The declaration under [@RestRequest.restGet] at [getAlerts]. *)
Definition getAlerts_func : pyfunc :=
  mkFunc ["self"; "state"; "tool_name"; "ref"] [VStr "open"; VNone; VNone] false
    (fun _ _ => ret (VList [])).

(** The declaration under [@RestRequest.restGet] at [getAlert]. *)
Definition getAlert_func : pyfunc :=
  mkFunc ["self"; "alert_number"] [] false (fun _ _ => ret (VDict [])).

Section Calls.

Variable G : GitHub.
Variable srv : server.
(** Whether [open(output, "w")] succeeds. *)
Variable writable : string -> bool.

Definition getAlerts (fuel : nat) (self : t) (args : list value)
    (kwargs : gmap string value) : M value :=
  RestRequest.restGet G srv fuel "/repos/{owner}/{repo}/code-scanning/alerts"
    true getAlerts_func (Some (rest self)) args kwargs.

Definition getAlert (fuel : nat) (self : t) (args : list value)
    (kwargs : gmap string value) : M value :=
  RestRequest.restGet G srv fuel
    "/repos/{owner}/{repo}/code-scanning/alerts/{alert_number}"
    true getAlert_func (Some (rest self)) args kwargs.

(** [json.dump(result, handle)] after [open(output, "w")]; the file
    holds the value, its layout as text is not modelled. *)
Definition dump (output : string) (result : value) : M unit :=
  if writable output
  then modify (fun w => set_files (<[output := result]> (files w)) w)
  else raise OSError.

Definition downloadSARIF (fuel : nat) (self : t) (output : string)
    (sarif_id : Z) : M bool :=
  let s := RestRequest.session (rest self) in
  log DEBUG "Downloading SARIF file :: " (ArgInt sarif_id) ;;;
  og_accept <- header_pop s "Accept" ;;
  header_set s "Accept" "application/sarif+json" ;;;
  parameters <- new_dict (<["sarif_id" := VInt sarif_id]> ∅) ;;
  result <- RestRequest.get G srv fuel (rest self)
              "/repos/{org}/{repo}/code-scanning/analyses/{sarif_id}"
              (Some parameters) 200 false ;;
  header_set s "Accept" og_accept ;;;
  log DEBUG "Saving SARIF file to :: " (ArgStr output) ;;;
  dump output result ;;;
  log DEBUG "Saved SARIF file" NoArg ;;;
  ret true.

End Calls.

(** *** The other endpoints *)

(** [x in tools] and [tools.add(x)] need a hashable [x]. *)
Definition hashable (v : value) : bool :=
  match v with
  | VList _ | VDict _ => false
  | _ => true
  end.

(** Equality of hashable values as a set sees it: [True] is [1] and
    [False] is [0]. *)
Definition set_key (v : value) : value :=
  match v with
  | VBool true => VInt 1
  | VBool false => VInt 0
  | _ => v
  end.

Definition key_eqb (a b : value) : bool :=
  match set_key a, set_key b with
  | VNone, VNone => true
  | VInt x, VInt y => x =? y
  | VStr x, VStr y => String.eqb x y
  | _, _ => false
  end.

(** The [for analysis in ...] loop of [getLatestAnalyses]; [tools] holds
    the members of the set in the order they were added. *)
Fixpoint latest_loop (analyses tools results : list value) : exn + list value :=
  match analyses with
  | [] => inr results
  | analysis :: rest =>
      match analysis with
      | VDict kvs =>
          match default (VDict []) (dict_get "tool" kvs) with
          | VDict tool =>
              let name := get_or_none "name" tool in
              if negb (hashable name) then inl TypeError
              else if existsb (key_eqb name) tools then latest_loop rest tools results
              else latest_loop rest (tools ++ [name]) (results ++ [analysis])
          | _ => inl AttributeError
          end
      | _ => inl AttributeError
      end
  end.

(** The text after the last slash of [s], when there is a slash. *)
Fixpoint after_last_slash (s : string) : option string :=
  match s with
  | EmptyString => None
  | String c rest =>
      match after_last_slash rest with
      | Some t => Some t
      | None => if Ascii.eqb c "/" then Some rest else None
      end
  end.

Definition digit_value (c : ascii) : Z := Z.of_nat (nat_of_ascii c) - 48.

Fixpoint digits_value (acc : Z) (s : string) : Z :=
  match s with
  | EmptyString => acc
  | String c rest => digits_value (10 * acc + digit_value c) rest
  end.

(** The characters that may occur in a text that [int] accepts besides
    the ASCII digits: signs, the underscore, white space, and characters
    outside ASCII. *)
Definition int_extra_char (c : ascii) : bool :=
  let n := nat_of_ascii c in
  Ascii.eqb c "+" || Ascii.eqb c "-" || Ascii.eqb c "_"
  || ((9 <=? n)%nat && (n <=? 13)%nat) || ((28 <=? n)%nat && (n <=? 32)%nat)
  || (128 <=? n)%nat.

(** [int(s)]: a text of ASCII digits has its decimal value, a text with a
    character that no decimal literal can hold is a [ValueError].  Signs,
    underscores, white space, characters outside ASCII, and texts beyond
    the length limit of recent interpreters are not modelled. *)
Definition py_int (s : string) : exn + Z :=
  if String.eqb s "" then inl (ValueError "invalid literal for int() with base 10")
  else if all_digits s then
    if (String.length s <=? 4300)%nat then inr (digits_value 0 s) else inl Unmodelled
  else if string_any (fun c => negb (is_digit c) && negb (int_extra_char c)) s
  then inl (ValueError "invalid literal for int() with base 10")
  else inl Unmodelled.

Definition getSarifId (url : string) : exn + Z :=
  if negb (String.eqb url "") then
    match after_last_slash url with
    | Some t => py_int t
    | None => inr (-1)
    end
  else inr (-1).

Definition opt_value (o : option string) : value :=
  match o with
  | Some s => VStr s
  | None => VNone
  end.

Section Endpoints.

Variable G : GitHub.
Variable srv : server.
(** The attribute [reference] of a repository, set by
    [ghastoolkit.octokit.github] and taken as given. *)
Variable reference_of : Repository -> option string.

(** [CodeScanning.__init__]. *)
Definition init (repository0 : option Repository) : M t :=
  match RestRequest.or_else repository0 (GitHub_repository G) with
  | None => raise (Exception "CodeScanning requires Repository to be set")
  | Some r =>
      rest0 <- RestRequest.init G (Some r) ;;
      ret (mk rest0)
  end.

Definition getOrganizationAlerts (fuel : nat) (self : t) (state : value) : M value :=
  parameters <- new_dict (<["state" := state]> ∅) ;;
  results <- RestRequest.get G srv fuel (rest self) "/orgs/{org}/code-scanning/alerts"
               (Some parameters) 200 true ;;
  match results with
  | VList _ => ret results
  | _ => raise (Exception "Error getting alerts from Organization")
  end.

Definition getAlertInstances (fuel : nat) (self : t) (alert_number ref : value)
  : M value :=
  parameters <- new_dict (<["alert_number" := alert_number]> (<["ref" := ref]> ∅)) ;;
  RestRequest.get G srv fuel (rest self)
    "/repos/{owner}/{repo}/code-scanning/alerts/{alert_number}/instances"
    (Some parameters) 200 false.

(** [self.repository] is the repository of [self.rest]: [__init__] makes
    both from the same value. *)
Definition getAnalyses (fuel : nat) (self : t) (reference tool : value) : M value :=
  ref <- (if truthy reference then ret reference
          else match RestRequest.repository (rest self) with
               | Some r => ret (opt_value (reference_of r))
               | None => raise AttributeError
               end) ;;
  parameters <- new_dict (<["tool_name" := tool]> (<["ref" := ref]> ∅)) ;;
  results <- RestRequest.get G srv fuel (rest self)
               "/repos/{org}/{repo}/code-scanning/analyses" (Some parameters) 200 false ;;
  match results with
  | VList _ => ret results
  | _ => raise (Exception "")
  end.

Definition getLatestAnalyses (fuel : nat) (self : t) (reference tool : value)
  : M value :=
  analyses <- getAnalyses fuel self reference tool ;;
  items <- lift (iterate analyses) ;;
  results <- lift (latest_loop items [] []) ;;
  ret (VList results).

Definition getCodeQLDatabases (fuel : nat) (self : t) : M value :=
  RestRequest.get G srv fuel (rest self)
    "/repos/{owner}/{repo}/code-scanning/codeql/databases" None 200 false.

Definition getCodeQLDatabase (fuel : nat) (self : t) (language : value) : M value :=
  parameters <- new_dict (<["language" := language]> ∅) ;;
  RestRequest.get G srv fuel (rest self)
    "/repos/{owner}/{repo}/code-scanning/codeql/databases/{language}"
    (Some parameters) 200 false.

End Endpoints.

End CodeScanning.

(** * Vocabulary of the properties *)

(** ** Path templates *)

(** A path template as the specification describes it, in the syntax of
    [str.format]: literal text, a doubled brace that stands for one
    literal brace, and named placeholders. *)
Inductive segment : Type :=
| Text (s : string)
| Escaped (brace : ascii)
| Placeholder (name : string).

Definition is_brace (c : ascii) : bool := Ascii.eqb c "{" || Ascii.eqb c "}".

Fixpoint string_forall (p : ascii -> bool) (s : string) : bool :=
  match s with
  | EmptyString => true
  | String c rest => p c && string_forall p rest
  end.

(** Literal text has no brace; a placeholder name is a keyword name: not
    empty, not starting with a digit, free of braces and of the characters
    that start field syntax. *)
Definition plain_text (s : string) : bool := string_forall (fun c => negb (is_brace c)) s.

Definition plain_name (n : string) : bool :=
  negb (String.eqb n "") && negb (starts_with_digit n)
  && string_forall (fun c => negb (is_brace c) && negb (field_special c)) n.

Definition well_formed (segs : list segment) : bool :=
  forallb (fun sg => match sg with
                     | Text s => plain_text s
                     | Escaped c => is_brace c
                     | Placeholder n => plain_name n
                     end) segs.

(** The template as a string. *)
Fixpoint template_of (segs : list segment) : string :=
  match segs with
  | [] => ""
  | Text s :: rest => s +:+ template_of rest
  | Escaped c :: rest => String c (String c (template_of rest))
  | Placeholder n :: rest => "{" +:+ n +:+ "}" +:+ template_of rest
  end.

(** The values a placeholder is matched against: the repository context
    and the caller-supplied names. *)
Definition bindings (repo0 : Repository) (options : gmap string value)
  : gmap string value :=
  <["owner" := VStr (owner repo0)]>
    (<["org" := VStr (owner repo0)]> (<["repo" := VStr (repo repo0)]> options)).

(** [n] has a matching value, whose text is [t]. *)
Definition matched (kw : gmap string value) (n t : string) : Prop :=
  exists v, kw !! n = Some v /\ py_str v = t.

(** Every placeholder of the template has a matching value. *)
Definition all_matched (kw : gmap string value) (segs : list segment) : Prop :=
  forall n, Placeholder n ∈ segs -> is_Some (kw !! n).

(** The substituted path: every placeholder replaced by the text of its
    value, every doubled brace by one brace. *)
Inductive substituted (kw : gmap string value) : list segment -> string -> Prop :=
| subst_nil : substituted kw [] ""
| subst_text s rest out :
    substituted kw rest out -> substituted kw (Text s :: rest) (s +:+ out)
| subst_escaped c rest out :
    substituted kw rest out -> substituted kw (Escaped c :: rest) (String c out)
| subst_placeholder n t rest out :
    matched kw n t -> substituted kw rest out ->
    substituted kw (Placeholder n :: rest) (t +:+ out).

(** The names that a caller of [Octokit.route] cannot supply as further
    keyword arguments: the keywords that [formatPath] passes to
    [str.format] itself, and the parameters of [formatPath] and of
    [route]. *)
Definition reserved_names : list string :=
  ["owner"; "org"; "repo"; "path"; "repository"; "rtype"].

Definition with_slash (p : string) : string :=
  if startswith p "/" then p else "/" +:+ p.

Definition origin (G : GitHub) (rtype : string) : string :=
  if String.eqb rtype "rest" then GitHub_api_rest G else GitHub_api_graphql G.

(** The URL the specification's wording gives: the origin, then the
    substituted path [out], with a slash put in front when the template
    itself does not start with one. *)
Definition claimed_url (G : GitHub) (rtype template out : string) : string :=
  origin G rtype +:+ (if startswith template "/" then out else "/" +:+ out).

(** Data for the concrete cases below. *)
Definition example_github : GitHub :=
  mkGitHub None None "https://api.github.com" "https://api.github.com/graphql".

Definition example_repository : Repository := mkRepository "A" "B".

Definition alert_template : list segment :=
  [Text "/repos/"; Placeholder "owner"; Text "/"; Placeholder "repo";
   Text "/code-scanning/alerts/"; Placeholder "alert_number"].

(** ** Pages and requests *)

(** The request for page [page] when the parameters are [d]. *)
Definition page_request (url : string) (d : gmap string value)
    (hdrs : gmap string string) (page : Z) : request :=
  mkRequest GET url (<["page" := VInt page]> d) hdrs None.

(** The world after one iteration's assignment and request. *)
Definition after_request (s params : loc) (url : string) (page : Z) (w : world)
  : world :=
  set_traffic
    (traffic w ++ [page_request url (deref w params) (headers w s) page])
    (set_heap (<[params := <["page" := VInt page]> (deref w params)]> (heap w)) w).

(** The server's answer to that request. *)
Definition answer (srv : server) (s params : loc) (url : string) (page : Z)
    (w : world) : response :=
  srv (traffic w) (page_request url (deref w params) (headers w s) page).

(** Two dictionaries that differ at most at the key [page]. *)
Definition same_but_page (d1 d2 : gmap string value) : Prop :=
  delete "page" d1 = delete "page" d2.

(** The requests for [n] consecutive pages from [page] on. *)
Fixpoint page_requests (url : string) (d : gmap string value)
    (hdrs : gmap string string) (page : Z) (n : nat) : list request :=
  match n with
  | O => []
  | S n' => page_request url d hdrs page :: page_requests url d hdrs (page + 1) n'
  end.

(** The server answers the request for page [page + i] with the [i]-th of
    [pages], whatever was sent before. *)
Definition serves (srv : server) (url : string) (d : gmap string value)
    (hdrs : gmap string string) (expected page : Z) (pages : list (list value)) : Prop :=
  forall (i : nat) items hist,
    pages !! i = Some items ->
    status_code (srv hist (page_request url d hdrs (page + Z.of_nat i))) = expected
    /\ json (srv hist (page_request url d hdrs (page + Z.of_nat i))) = Some (VList items).

(** The world after the requests for [n] pages from [page] on. *)
Definition after_pages (params : loc) (url : string) (d : gmap string value)
    (hdrs : gmap string string) (page : Z) (n : nat) (w : world) : world :=
  mkWorld (<[params := <["page" := VInt (page + Z.of_nat n - 1)]> d]> (heap w))
    (sessions w) (traffic w ++ page_requests url d hdrs page n) (logged w) (files w).

(** The checks that precede the first request: a repository is available,
    the parameters can be passed on as keyword arguments and resolve the
    route to [url], and the credential check lets the call through. *)
Definition passes_checks (G : GitHub) (self : RestRequest.t) (path : string)
    (params : loc) (authenticated : bool) (w : world) (url : string) : Prop :=
  exists repo0,
    RestRequest.or_else (RestRequest.repository self) (GitHub_repository G) = Some repo0
    /\ kwargs_clash ["path"; "repository"; "rtype"] (deref w params) = false
    /\ Octokit.route G path repo0 "rest" (deref w params) = inr url
    /\ authenticated
       && RestRequest.header_missing (headers w (RestRequest.session self)) "Authorization"
       = false.

(** The world in which the loop starts. *)
Definition entered (params : loc) (url : string) (w : world) : world :=
  set_heap (<[params := <["per_page" := VInt RestRequest.PER_PAGE]> (deref w params)]> (heap w))
    (set_logged (logged w ++ [mkLog DEBUG "Fetching content from URL :: " (ArgStr url)]) w).

(** A world with one session, created as [RestRequest.__init__] does
    without a token, and the instance that owns it. *)
Definition example_headers : gmap string string :=
  <["Accept" := "application/vnd.github.v3+json"]>
    (<["X-GitHub-Api-Version" := RestRequest.VERSION]>
       (<["Authorization" := "token None"]> ∅)).

Definition example_world : world :=
  mkWorld (<[get_defaults := ∅]> ∅) (<[1%positive := example_headers]> ∅) [] [] ∅.

Definition example_rest : RestRequest.t :=
  RestRequest.mk (Some example_repository) 1%positive.

(** A server with one full page and a short second page. *)
Definition two_page_server : server :=
  fun _ req =>
    match req_params req !! "page" with
    | Some (VInt 1) => mkResponse 200 "" (Some (VList (replicate 100 (VInt 0))))
    | _ => mkResponse 200 "" (Some (VList [VInt 1; VInt 2]))
    end.

(** ** Error envelopes *)

Definition is_dict (v : value) : bool :=
  match v with
  | VDict _ => true
  | _ => false
  end.

(** The warning logged for one element of [errors]. *)
Definition warning_of (err : value) : log_record :=
  mkLog WARNING "GraphQL Query failed :: "
    (ArgValue (match err with
               | VDict kvs => get_or_none "message" kvs
               | _ => VNone
               end)).

(** The request that [GraphQLRequest.query] posts for the query text
    [q]. *)
Definition graphql_request (G : GitHub) (hdrs : gmap string string) (q : string)
  : request :=
  mkRequest POST (GitHub_api_graphql G) ∅ hdrs (Some (VDict [("query", VStr q)])).

(** A server that always answers with the same status and body. *)
Definition constant_server (status : Z) (body : option value) : server :=
  fun _ _ => mkResponse status "" body.

Definition example_graphql : GraphQLRequest.t :=
  GraphQLRequest.mk (Some example_repository) 1%positive
    (<["GetAlerts" := "query { repository }"]> ∅).

Definition error_body : list (string * value) :=
  [("data", VNone); ("errors", VList [VDict [("message", VStr "rate limited")]])].

(** ** Footprints *)

(** The footprint of the loop, whatever the server answers and however the
    loop ends: it has sent [n >= 1] requests, the parameters dictionary
    holds the index of the last page requested, and sessions, files and
    every other dictionary are as before. *)
Definition loop_footprint (params : loc) (page : Z) (w w' : world) : Prop :=
  exists n : nat,
    (1 <= n)%nat
    /\ heap w' = <[params := <["page" := VInt (page + Z.of_nat n - 1)]> (deref w params)]> (heap w)
    /\ sessions w' = sessions w
    /\ length (traffic w') = (length (traffic w) + n)%nat
    /\ files w' = files w.

(** A world that also holds a caller's dictionary, at location 2. *)
Definition caller_world : world :=
  mkWorld (<[2%positive := <["state" := VStr "open"]> ∅]> (<[get_defaults := ∅]> ∅))
    (<[1%positive := example_headers]> ∅) [] [] ∅.

Definition fresh_world : world :=
  mkWorld (<[get_defaults := ∅]> ∅) ∅ [] [] ∅.

(** ** Decorated methods *)

(** The parameter map that the wrapper builds for [func] called with the
    positional arguments [args]. *)
Definition built_parameters (func : pyfunc) (args : list value) : gmap string value :=
  let run := (params <- new_dict ∅ ;;
              RestRequest.wrap_loop (func_args func) args (func_defaults func) params 0 false ;;;
              ret params) fresh_world in
  match fst run with
  | Ret params => deref (snd run) params
  | _ => ∅
  end.

(** A method that reshapes the response: it returns the member [items] of
    what it is given as [response]. *)
Definition items_of (v : value) : value :=
  match v with
  | VDict kvs => get_or_none "items" kvs
  | _ => VNone
  end.

Definition reshaping_func : pyfunc :=
  mkFunc ["self"; "response"] [] false
    (fun locals _ => ret (items_of (default VNone (locals !! "response")))).

(** The same method with a default for [response] and with [**kwargs]. *)
Definition lenient_func : pyfunc :=
  mkFunc ["self"; "response"] [VNone] true
    (fun locals _ => ret (items_of (default VNone (locals !! "response")))).

Definition items_body : value := VDict [("items", VList [VInt 1; VInt 2])].

(** ** The SARIF download: its world *)

Definition sarif_accept : string := "application/sarif+json".

Definition sarif_path : string := "/repos/{org}/{repo}/code-scanning/analyses/{sarif_id}".

(** The world in which [downloadSARIF] calls [get], and the dictionary it
    passes. *)
Definition sarif_params (w : world) : loc := fresh ({[get_defaults]} ∪ dom (heap w)).

Definition sarif_world (s : loc) (sarif_id : Z) (w : world) : world :=
  mkWorld (<[sarif_params w := <["sarif_id" := VInt sarif_id]> ∅]> (heap w))
    (<[s := <["Accept" := sarif_accept]> (delete "Accept" (headers w s))]>
       (<[s := delete "Accept" (headers w s)]> (sessions w)))
    (traffic w)
    (logged w ++ [mkLog DEBUG "Downloading SARIF file :: " (ArgInt sarif_id)])
    (files w).

(** A server without the analysis, and one that has it. *)
Definition not_found_server : server :=
  constant_server 404 (Some (VDict [("message", VStr "Not Found")])).

Definition sarif_server : server :=
  constant_server 200 (Some (VDict [("version", VStr "2.1.0")])).

(** ** Outcomes of one response *)

(** A decoded body that is neither an object nor a sequence. *)
Definition is_atom (v : value) : bool :=
  match v with
  | VNone | VBool _ | VInt _ => true
  | _ => false
  end.

(** A call that one of the checks before the loop stops, with the
    exception it raises: no repository is available; the parameters cannot
    be passed on as keyword arguments or do not resolve the route, and
    [Octokit.route] raises; or the route resolves and the credential check
    fires.  A route that leaves the modelled fragment of [str.format] is
    not among them. *)
Inductive refused (G : GitHub) (self : RestRequest.t) (path : string)
    (params : loc) (authenticated : bool) (w : world) : exn -> Prop :=
| refused_repository :
    RestRequest.or_else (RestRequest.repository self) (GitHub_repository G) = None ->
    refused G self path params authenticated w (Exception "Repository needs to be set")
| refused_route repo0 e :
    RestRequest.or_else (RestRequest.repository self) (GitHub_repository G) = Some repo0 ->
    Octokit.route G path repo0 "rest" (deref w params) = inl e ->
    e <> Unmodelled ->
    refused G self path params authenticated w e
| refused_credentials repo0 url :
    RestRequest.or_else (RestRequest.repository self) (GitHub_repository G) = Some repo0 ->
    Octokit.route G path repo0 "rest" (deref w params) = inr url ->
    authenticated
    && RestRequest.header_missing (headers w (RestRequest.session self)) "Authorization"
    = true ->
    refused G self path params authenticated w
      (Exception "GitHub Token required for this request").

(** ** A file system for the concrete cases *)

Definition two_dirs_isdir (p : string) : bool :=
  String.eqb p "/a" || String.eqb p "/b".

Definition two_dirs_listdir (p : string) : exn + list string :=
  if String.eqb p "/a" then inr ["GetAlerts.graphql"; "Other.graphql"]
  else if String.eqb p "/b" then inr [".graphql"; "GetAlerts.graphql"; "notes.txt"]
  else inl OSError.

Definition two_dirs_read (p : string) : exn + string :=
  if String.eqb p "/a/GetAlerts.graphql" then inr "query A"
  else if String.eqb p "/a/Other.graphql" then inr "query O"
  else if String.eqb p "/b/GetAlerts.graphql" then inr "query B"
  else inl OSError.

(** ** Analyses *)

(** The name under which [getLatestAnalyses] files an analysis: the
    member [name] of its member [tool], as a set sees it. *)
Definition analysis_name (analysis : value) : value :=
  match analysis with
  | VDict kvs =>
      match default (VDict []) (dict_get "tool" kvs) with
      | VDict tool => CodeScanning.set_key (get_or_none "name" tool)
      | _ => VNone
      end
  | _ => VNone
  end.

Definition analysis_of (tool : string) (id : Z) : value :=
  VDict [("id", VInt id); ("tool", VDict [("name", VStr tool)])].

(** The path of the analyses endpoint, as a template. *)
Definition analyses_template : list segment :=
  [Text "/repos/"; Placeholder "org"; Text "/"; Placeholder "repo";
   Text "/code-scanning/analyses"].

(** A repository's reference, for the concrete cases: none. *)
Definition no_reference (r : Repository) : option string := None.

(** The path of the organization alerts endpoint, as a template. *)
Definition organization_template : list segment :=
  [Text "/orgs/"; Placeholder "org"; Text "/code-scanning/alerts"].

(** * Properties *)

(** ** Running the monad *)

Lemma bind_ret {A B} (a : A) (k : A -> M B) w : bind (ret a) k w = k a w.
Proof. reflexivity. Qed.

Lemma bind_lift_inr {A B} (a : A) (k : A -> M B) w : bind (lift (inr a)) k w = k a w.
Proof. reflexivity. Qed.

Lemma bind_log {B} lv text arg (k : unit -> M B) w :
  bind (log lv text arg) k w = k tt (set_logged (logged w ++ [mkLog lv text arg]) w).
Proof. reflexivity. Qed.

Lemma bind_bind {A B C} (m : M A) (k : A -> M B) (k' : B -> M C) w :
  bind (bind m k) k' w = bind m (fun a => bind (k a) k') w.
Proof. unfold bind. destruct (m w) as [[a| |] w']; reflexivity. Qed.

Lemma bind_session_post {B} srv s url data (k : response -> M B) w :
  bind (session_post srv s url data) k w
  = k (srv (traffic w) (mkRequest POST url ∅ (headers w s) (Some data)))
      (set_traffic (traffic w ++ [mkRequest POST url ∅ (headers w s) (Some data)]) w).
Proof. reflexivity. Qed.

Lemma bind_response_json {B} r (k : value -> M B) w :
  bind (response_json r) k w
  = match json r with
    | Some v => k v w
    | None => (Raise JSONDecodeError, w)
    end.
Proof. unfold response_json. destruct (json r); reflexivity. Qed.

(** ** Route building *)

Lemma append_cons c (a b : string) : String c a +:+ b = String c (a +:+ b).
Proof. reflexivity. Qed.

Lemma append_empty_r (a : string) : a +:+ "" = a.
Proof. induction a as [|x a IH]; [reflexivity | rewrite append_cons; now f_equal]. Qed.

Lemma append_assoc (a b c : string) : (a +:+ b) +:+ c = a +:+ (b +:+ c).
Proof.
  induction a as [|x a IH]; [reflexivity | rewrite !append_cons; now f_equal].
Qed.

Lemma emit_str_cons c t r : emit c (emit_str t r) = emit_str (String c t) r.
Proof. destruct r; reflexivity. Qed.

Lemma emit_str_empty r : emit_str "" r = r.
Proof. destruct r; reflexivity. Qed.

Lemma not_brace_inv c :
  negb (is_brace c) = true -> Ascii.eqb c "{" = false /\ Ascii.eqb c "}" = false.
Proof.
  unfold is_brace. intros H. apply negb_true_iff, orb_false_iff in H. exact H.
Qed.

(** Literal text without braces is copied. *)
Lemma format_go_text kw s rest :
  plain_text s = true ->
  format_go kw InLiteral (s +:+ rest) = emit_str s (format_go kw InLiteral rest).
Proof.
  induction s as [|c s IH]; intros H.
  - change ("" +:+ rest) with rest. now rewrite emit_str_empty.
  - apply andb_true_iff in H as [Hc Hs].
    apply not_brace_inv in Hc as [Hl Hr].
    rewrite append_cons. cbn [format_go]. rewrite Hl, Hr.
    rewrite (IH Hs). apply emit_str_cons.
Qed.

(** Inside a field, the characters of a plain name are collected up to
    the closing brace, where the field is resolved. *)
Lemma format_go_name kw acc n rest :
  string_forall (fun c => negb (is_brace c) && negb (field_special c)) n = true ->
  format_go kw (InField acc) (n +:+ String "}" rest) =
  match get_field kw (acc +:+ n) with
  | inl e => inl e
  | inr t => emit_str t (format_go kw InLiteral rest)
  end.
Proof.
  revert acc. induction n as [|c n IH]; intros acc H.
  - rewrite append_empty_r. reflexivity.
  - apply andb_true_iff in H as [Hc Hn]. apply andb_true_iff in Hc as [Hb Hsp].
    apply not_brace_inv in Hb as [Hl Hr]. apply negb_true_iff in Hsp.
    rewrite append_cons. cbn [format_go]. rewrite Hl, Hr, Hsp.
    rewrite (IH _ Hn), append_assoc. reflexivity.
Qed.

(** An opening brace that is not doubled starts a field. *)
Lemma format_go_open kw c rest :
  format_go kw InLiteral (String "{" (String c rest)) =
  if Ascii.eqb c "{" then emit "{" (format_go kw InLiteral rest)
  else format_go kw (InField "") (String c rest).
Proof. reflexivity. Qed.

(** A doubled brace is one literal brace. *)
Lemma format_go_escaped kw c rest :
  is_brace c = true ->
  format_go kw InLiteral (String c (String c rest)) = emit c (format_go kw InLiteral rest).
Proof.
  unfold is_brace. intros H. apply orb_true_iff in H as [H|H];
    apply Ascii.eqb_eq in H; subst c; reflexivity.
Qed.

(** A placeholder with a plain name is resolved by name. *)
Lemma format_go_placeholder kw n rest :
  plain_name n = true ->
  format_go kw InLiteral ("{" +:+ n +:+ "}" +:+ rest) =
  match kw !! n with
  | Some v => emit_str (py_str v) (format_go kw InLiteral rest)
  | None => inl (KeyError n)
  end.
Proof.
  unfold plain_name. intros H.
  apply andb_true_iff in H as [H Hn]. apply andb_true_iff in H as [Hne Hd].
  apply negb_true_iff in Hne, Hd.
  destruct n as [|c n]; [discriminate|].
  change ("{" +:+ String c n +:+ "}" +:+ rest)
    with (String "{" (String c (n +:+ String "}" rest))).
  assert (Hc : Ascii.eqb c "{" = false).
  { apply andb_true_iff in Hn as [Hc _].
    apply andb_true_iff in Hc as [Hb _]. now apply not_brace_inv in Hb as [-> _]. }
  rewrite format_go_open, Hc.
  rewrite <- append_cons, (format_go_name _ _ _ _ Hn).
  change ("" +:+ String c n) with (String c n).
  unfold get_field. rewrite Hne, Hd.
  destruct (kw !! String c n) as [v|]; reflexivity.
Qed.

(** [format] computes the substituted path of a well-formed template. *)
Lemma format_substituted kw segs out :
  well_formed segs = true ->
  substituted kw segs out ->
  format (template_of segs) kw = inr out.
Proof.
  unfold format. intros Hwf Hs.
  induction Hs as [|s rest out Hs IH|c rest out Hs IH|n t rest out Hm Hs IH];
    cbn [template_of].
  - reflexivity.
  - apply andb_true_iff in Hwf as [Ht Hr].
    rewrite (format_go_text _ _ _ Ht), (IH Hr). reflexivity.
  - apply andb_true_iff in Hwf as [Hc Hr].
    rewrite (format_go_escaped _ _ _ Hc), (IH Hr). reflexivity.
  - apply andb_true_iff in Hwf as [Hn Hr].
    rewrite (format_go_placeholder _ _ _ Hn).
    destruct Hm as (v & -> & <-). rewrite (IH Hr). reflexivity.
Qed.

(** The first placeholder without a value decides the outcome. *)
Lemma format_unmatched kw pre n post out :
  well_formed (pre ++ Placeholder n :: post) = true ->
  substituted kw pre out ->
  kw !! n = None ->
  format (template_of (pre ++ Placeholder n :: post)) kw = inl (KeyError n).
Proof.
  unfold format. intros Hwf Hs Hn.
  induction Hs as [|s rest out Hs IH|c rest out Hs IH|m t rest out Hm Hs IH];
    cbn [app template_of].
  - apply andb_true_iff in Hwf as [Hp _].
    rewrite (format_go_placeholder _ _ _ Hp), Hn. reflexivity.
  - apply andb_true_iff in Hwf as [Ht Hr].
    rewrite (format_go_text _ _ _ Ht), (IH Hr). reflexivity.
  - apply andb_true_iff in Hwf as [Hc Hr].
    rewrite (format_go_escaped _ _ _ Hc), (IH Hr). reflexivity.
  - apply andb_true_iff in Hwf as [Hp Hr].
    rewrite (format_go_placeholder _ _ _ Hp).
    destruct Hm as (v & -> & <-). rewrite (IH Hr). reflexivity.
Qed.

(** When every placeholder has a matching value, the template has a
    substituted path. *)
Lemma substituted_exists kw segs :
  all_matched kw segs -> exists out, substituted kw segs out.
Proof.
  induction segs as [|sg segs IH]; intros H.
  - exists "". constructor.
  - destruct IH as (out & Hout).
    { intros n Hn. apply H. now apply list_elem_of_further. }
    destruct sg as [s|c|n].
    + eexists. apply subst_text, Hout.
    + eexists. apply subst_escaped, Hout.
    + destruct (H n) as (v & Hv); [apply list_elem_of_here|].
      eexists. apply subst_placeholder; [|exact Hout]. exists v. split; [exact Hv|reflexivity].
Qed.

Lemma kwargs_clash_cons n names options :
  kwargs_clash (n :: names) options =
  bool_decide (is_Some (options !! n)) || kwargs_clash names options.
Proof. reflexivity. Qed.

Lemma route_unfold G path repo0 rtype options :
  kwargs_clash reserved_names options = false ->
  Octokit.route G path repo0 rtype options =
  match format path (bindings repo0 options) with
  | inl e => inl e
  | inr p => inr (origin G rtype +:+ with_slash p)
  end.
Proof.
  unfold reserved_names. intros H. rewrite !kwargs_clash_cons in H.
  apply orb_false_iff in H as [Ho H]. apply orb_false_iff in H as [Hg H].
  apply orb_false_iff in H as [Hr H]. apply orb_false_iff in H as [Hp H].
  apply orb_false_iff in H as [Hy H]. apply orb_false_iff in H as [Ht _].
  unfold Octokit.route, Octokit.formatPath. rewrite !kwargs_clash_cons.
  rewrite Ho, Hg, Hr, Hp, Hy, Ht. reflexivity.
Qed.

(** A caller-supplied name that repeats one of the reserved names is
    refused before the template is looked at. *)
Lemma route_clash G path repo0 rtype options :
  kwargs_clash reserved_names options = true ->
  Octokit.route G path repo0 rtype options = inl TypeError.
Proof.
  unfold reserved_names. intros H. rewrite !kwargs_clash_cons in H.
  unfold Octokit.route, Octokit.formatPath. rewrite !kwargs_clash_cons.
  destruct (bool_decide (is_Some (options !! "path"))); [reflexivity|].
  destruct (bool_decide (is_Some (options !! "repository"))); [reflexivity|].
  destruct (bool_decide (is_Some (options !! "rtype"))); [reflexivity|].
  destruct (bool_decide (is_Some (options !! "repo"))); [reflexivity|].
  destruct (bool_decide (is_Some (options !! "owner"))); [reflexivity|].
  destruct (bool_decide (is_Some (options !! "org"))); [reflexivity|].
  discriminate H.
Qed.

(** C6 (amended).  With caller-supplied names that repeat none of
    [owner], [org], [repo], [path], [repository] and [rtype]: whenever
    [str.format] substitutes the values into the template,
    [Octokit.route] returns the selected origin followed by the
    substituted path, with a slash put in front when the substituted path
    does not start with one; for a template of literal text, doubled
    braces and named placeholders in which every placeholder has a
    matching value, of whatever type, the substituted path exists and is
    the template with every placeholder replaced by the text of its
    value; and when a placeholder has no matching value the call fails
    with the [KeyError] of the first such placeholder.  A caller-supplied
    name that repeats one of the six names makes the call fail with
    [TypeError], whatever the template.  The alert template with owner
    [A], repository [B] and [alert_number = 7] gives the REST origin
    followed by [/repos/A/B/code-scanning/alerts/7]. *)
Theorem route_substitutes (G : GitHub) (repo0 : Repository) (rtype : string)
    (options : gmap string value) :
  (kwargs_clash reserved_names options = false ->
   (forall path p,
       format path (bindings repo0 options) = inr p ->
       Octokit.route G path repo0 rtype options
       = inr (origin G rtype +:+ with_slash p))
   /\ (forall segs,
          well_formed segs = true ->
          all_matched (bindings repo0 options) segs ->
          exists out, substituted (bindings repo0 options) segs out)
   /\ (forall segs out,
          well_formed segs = true ->
          substituted (bindings repo0 options) segs out ->
          Octokit.route G (template_of segs) repo0 rtype options
          = inr (origin G rtype +:+ with_slash out))
   /\ (forall pre n post out,
          well_formed (pre ++ Placeholder n :: post) = true ->
          substituted (bindings repo0 options) pre out ->
          bindings repo0 options !! n = None ->
          Octokit.route G (template_of (pre ++ Placeholder n :: post)) repo0 rtype options
          = inl (KeyError n)))
  /\ (kwargs_clash reserved_names options = true ->
      forall path, Octokit.route G path repo0 rtype options = inl TypeError)
  /\ Octokit.route G "/repos/{owner}/{repo}/code-scanning/alerts/{alert_number}"
       example_repository "rest" (<["alert_number" := VInt 7]> ∅)
     = inr (GitHub_api_rest G +:+ "/repos/A/B/code-scanning/alerts/7").
Proof.
  split; [|split].
  - intros Hclash. split; [|split; [|split]].
    + intros path p Hp. now rewrite (route_unfold _ _ _ _ _ Hclash), Hp.
    + intros segs _ Hall. now apply substituted_exists.
    + intros segs out Hwf Hs. rewrite (route_unfold _ _ _ _ _ Hclash).
      now rewrite (format_substituted _ _ _ Hwf Hs).
    + intros pre n post out Hwf Hs Hn. rewrite (route_unfold _ _ _ _ _ Hclash).
      now rewrite (format_unmatched _ _ _ _ _ Hwf Hs Hn).
  - intros Hclash path. now apply route_clash.
  - rewrite route_unfold by reflexivity.
    replace (format _ _) with (@inr exn string "/repos/A/B/code-scanning/alerts/7")
      by (vm_compute; reflexivity).
    reflexivity.
Qed.

Lemma alert_template_substituted :
  substituted (bindings example_repository (<["alert_number" := VInt 7]> ∅))
    alert_template "/repos/A/B/code-scanning/alerts/7".
Proof.
  unfold alert_template.
  change "/repos/A/B/code-scanning/alerts/7"
    with ("/repos/" +:+ "A" +:+ "/" +:+ "B" +:+ "/code-scanning/alerts/" +:+ "7" +:+ "").
  repeat first
    [ apply subst_nil
    | apply subst_text
    | apply subst_placeholder; [eexists; split; [vm_compute; reflexivity | reflexivity]|] ].
Qed.

Lemma route_substitutes_witness :
  Octokit.route example_github
    "/repos/{owner}/{repo}/code-scanning/alerts/{alert_number}"
    example_repository "rest" (<["alert_number" := VInt 7]> ∅)
  = inr "https://api.github.com/repos/A/B/code-scanning/alerts/7"
  /\ Octokit.route example_github "/search/{{{terms}}}" example_repository "graphql"
       (<["terms" := VList [VStr "a b"; VInt 1]]> ∅)
     = inr "https://api.github.com/graphql/search/{['a b', 1]}"
  /\ Octokit.route example_github "/orgs/{org}/{team}" example_repository "rest" ∅
     = inl (KeyError "team")
  /\ Octokit.route example_github "/repos/{owner}/{repo}" example_repository "rest"
       (<["rtype" := VStr "graphql"]> ∅)
     = inl TypeError.
Proof.
  split; [|split; [|split]].
  - exact (proj1 (proj2 (proj2
             (proj1 (route_substitutes example_github example_repository
                       "rest" (<["alert_number" := VInt 7]> ∅)) eq_refl)))
             alert_template _ eq_refl alert_template_substituted).
  - refine (proj1 (proj2 (proj2
              (proj1 (route_substitutes example_github example_repository "graphql"
                        (<["terms" := VList [VStr "a b"; VInt 1]]> ∅)) eq_refl)))
              [Text "/search/"; Escaped "{"; Placeholder "terms"; Escaped "}"]
              "/search/{['a b', 1]}" eq_refl _).
    change "/search/{['a b', 1]}"
      with ("/search/" +:+ String "{" ("['a b', 1]" +:+ String "}" "")).
    apply subst_text, subst_escaped.
    apply subst_placeholder; [eexists; split; [vm_compute; reflexivity | reflexivity]|].
    apply subst_escaped, subst_nil.
  - refine (proj2 (proj2 (proj2
              (proj1 (route_substitutes example_github example_repository "rest" ∅)
                 eq_refl)))
              [Text "/orgs/"; Placeholder "org"; Text "/"] "team" [] "/orgs/A/" eq_refl _ _).
    + change "/orgs/A/" with ("/orgs/" +:+ "A" +:+ "/" +:+ "").
      repeat first
        [ apply subst_nil
        | apply subst_text
        | apply subst_placeholder; [eexists; split; [vm_compute; reflexivity | reflexivity]|] ].
    + vm_compute; reflexivity.
  - exact (proj1 (proj2 (route_substitutes example_github example_repository "rest"
                           (<["rtype" := VStr "graphql"]> ∅)))
             eq_refl "/repos/{owner}/{repo}").
Defined.

(** C6 as stated fails in three ways.  A template that starts with a
    placeholder whose value starts with a slash gets no second slash, since
    the test is made on the substituted path.  A caller-supplied name that
    repeats [owner], or [rtype], makes the call fail although every
    placeholder has a value.  And a template without any placeholder
    fails when its text holds a single brace, which is why the templates
    above double their literal braces. *)
Lemma route_counterexample :
  (let segs := [Placeholder "base"; Text "/alerts"] in
   let options : gmap string value := <["base" := VStr "/x"]> ∅ in
   well_formed segs = true
   /\ substituted (bindings example_repository options) segs "/x/alerts"
   /\ Octokit.route example_github (template_of segs) example_repository "rest" options
      = inr "https://api.github.com/x/alerts"
   /\ Octokit.route example_github (template_of segs) example_repository "rest" options
      <> inr (claimed_url example_github "rest" (template_of segs) "/x/alerts"))
  /\ (let segs := [Text "/repos/"; Placeholder "owner"] in
      let options : gmap string value := <["owner" := VStr "X"]> ∅ in
      well_formed segs = true
      /\ substituted (bindings example_repository options) segs "/repos/A"
      /\ Octokit.route example_github (template_of segs) example_repository "rest" options
         = inl TypeError)
  /\ (let segs := [Text "/repos/"; Placeholder "owner"] in
      let options : gmap string value := <["rtype" := VStr "rest"]> ∅ in
      well_formed segs = true
      /\ substituted (bindings example_repository options) segs "/repos/A"
      /\ Octokit.route example_github (template_of segs) example_repository "rest" options
         = inl TypeError)
  /\ Octokit.route example_github "/repos/A/B}" example_repository "rest" ∅
     = inl (ValueError "Single '}' encountered in format string").
Proof.
  split; [|split; [|split]]; cbv zeta; repeat split; try (vm_compute; reflexivity).
  - change "/x/alerts" with ("/x" +:+ "/alerts" +:+ "").
    apply subst_placeholder; [eexists; split; [vm_compute; reflexivity | reflexivity]|].
    apply subst_text, subst_nil.
  - vm_compute. discriminate.
  - change "/repos/A" with ("/repos/" +:+ "A" +:+ "").
    apply subst_text.
    apply subst_placeholder; [eexists; split; [vm_compute; reflexivity | reflexivity]|].
    apply subst_nil.
  - change "/repos/A" with ("/repos/" +:+ "A" +:+ "").
    apply subst_text.
    apply subst_placeholder; [eexists; split; [vm_compute; reflexivity | reflexivity]|].
    apply subst_nil.
Qed.

(** ** The pagination loop *)

Lemma deref_after_request s params url page w :
  deref (after_request s params url page w) params
  = <["page" := VInt page]> (deref w params).
Proof. unfold deref at 1. cbn. now rewrite lookup_insert_eq. Qed.

Lemma traffic_after_request s params url page w :
  traffic (after_request s params url page w)
  = traffic w ++ [page_request url (deref w params) (headers w s) page].
Proof. reflexivity. Qed.

(** One iteration, by the shape of the answer. *)
Lemma get_loop_step srv fuel self url params expected page result w :
  RestRequest.get_loop srv (S fuel) self url params expected page result w =
  let r := answer srv (RestRequest.session self) params url page w in
  let w1 := after_request (RestRequest.session self) params url page w in
  match json r with
  | None => (Raise JSONDecodeError, w1)
  | Some responce_json =>
      if negb (status_code r =? expected) then
        (log ERROR "Error code from server :: " (ArgInt (status_code r)) ;;;
         log ERROR "Content :: " (ArgValue responce_json) ;;;
         match __OCTOKIT_ERRORS__ !! status_code r with
         | Some known_error =>
             if negb (String.eqb known_error "") then raise (Exception known_error)
             else raise (Exception "REST Request failed :: non-expected server error")
         | None => raise (Exception "REST Request failed :: non-expected server error")
         end) w1
      else
        match responce_json with
        | VDict kvs =>
            if truthy (get_or_none "errors" kvs) then
              (log ERROR "" (ArgValue (get_or_none "message" kvs)) ;;;
               raise (Exception "REST Request failed :: error from server")) w1
            else (Ret responce_json, w1)
        | _ =>
            (items <- lift (iterate responce_json) ;;
             n <- lift (py_len responce_json) ;;
             if n <? RestRequest.PER_PAGE then ret (VList (result ++ items))
             else RestRequest.get_loop srv fuel self url params expected (page + 1)
                    (result ++ items)) w1
        end
  end.
Proof.
  cbn [RestRequest.get_loop].
  unfold bind at 1. unfold dict_set, modify.
  unfold bind at 1. unfold session_get. unfold bind at 1. unfold getw, send.
  cbv zeta.
  set (w0 := set_heap _ w).
  assert (Hd : deref w0 params = <["page" := VInt page]> (deref w params)).
  { unfold deref at 1, w0. cbn. now rewrite lookup_insert_eq. }
  rewrite Hd.
  change (headers w0 (RestRequest.session self)) with (headers w (RestRequest.session self)).
  change (traffic w0) with (traffic w).
  fold (page_request url (deref w params) (headers w (RestRequest.session self)) page).
  fold (answer srv (RestRequest.session self) params url page w).
  change (set_traffic _ w0) with (after_request (RestRequest.session self) params url page w).
  unfold bind at 1. unfold response_json.
  destruct (json (answer srv (RestRequest.session self) params url page w)) as [j|];
    [|reflexivity].
  unfold ret at 1. cbv iota beta.
  destruct (negb (status_code _ =? expected)); [reflexivity|].
  destruct j as [| | | |l|kvs]; try reflexivity.
  destruct (truthy (get_or_none "errors" kvs)); reflexivity.
Qed.

Lemma insert_page_same d1 d2 v :
  same_but_page d1 d2 -> <["page" := v]> d1 = <["page" := v]> d2.
Proof.
  unfold same_but_page. intros H.
  rewrite <- (insert_delete_eq d1), <- (insert_delete_eq d2). now rewrite H.
Qed.

Lemma length_page_requests url d hdrs page n :
  length (page_requests url d hdrs page n) = n.
Proof. revert page. induction n as [|n IH]; intros page; cbn; [reflexivity | now rewrite IH]. Qed.

Lemma page_request_same url d1 d2 hdrs page :
  same_but_page d1 d2 -> page_request url d1 hdrs page = page_request url d2 hdrs page.
Proof. intros H. unfold page_request. now rewrite (insert_page_same _ _ _ H). Qed.

Lemma serves_head srv url d hdrs expected page items pages hist :
  serves srv url d hdrs expected page (items :: pages) ->
  status_code (srv hist (page_request url d hdrs page)) = expected
  /\ json (srv hist (page_request url d hdrs page)) = Some (VList items).
Proof.
  intros H. specialize (H 0%nat items hist eq_refl).
  now rewrite Z.add_0_r in H.
Qed.

Lemma serves_tail srv url d hdrs expected page items pages :
  serves srv url d hdrs expected page (items :: pages) ->
  serves srv url d hdrs expected (page + 1) pages.
Proof.
  intros H i its hist Hi. specialize (H (S i) its hist Hi).
  now replace (page + 1 + Z.of_nat i) with (page + Z.of_nat (S i)) by lia.
Qed.

(** A page of [PER_PAGE] elements or more: the loop goes on with the next
    page. *)
Lemma get_loop_full srv fuel self url params expected page result w items :
  status_code (answer srv (RestRequest.session self) params url page w) = expected ->
  json (answer srv (RestRequest.session self) params url page w) = Some (VList items) ->
  (100 <= length items)%nat ->
  RestRequest.get_loop srv (S fuel) self url params expected page result w
  = RestRequest.get_loop srv fuel self url params expected (page + 1) (result ++ items)
      (after_request (RestRequest.session self) params url page w).
Proof.
  intros Hs Hj Hl. rewrite get_loop_step. cbv zeta. rewrite Hj, Hs, Z.eqb_refl.
  cbn [negb]. unfold bind, lift, iterate, py_len, ret.
  replace (Z.of_nat (length items) <? RestRequest.PER_PAGE) with false; [reflexivity|].
  symmetry. apply Z.ltb_ge. unfold RestRequest.PER_PAGE. lia.
Qed.

(** A page of fewer than [PER_PAGE] elements ends the loop. *)
Lemma get_loop_short srv fuel self url params expected page result w items :
  status_code (answer srv (RestRequest.session self) params url page w) = expected ->
  json (answer srv (RestRequest.session self) params url page w) = Some (VList items) ->
  (length items < 100)%nat ->
  RestRequest.get_loop srv (S fuel) self url params expected page result w
  = (Ret (VList (result ++ items)),
     after_request (RestRequest.session self) params url page w).
Proof.
  intros Hs Hj Hl. rewrite get_loop_step. cbv zeta. rewrite Hj, Hs, Z.eqb_refl.
  cbn [negb]. unfold bind, lift, iterate, py_len, ret.
  replace (Z.of_nat (length items) <? RestRequest.PER_PAGE) with true; [reflexivity|].
  symmetry. apply Z.ltb_lt. unfold RestRequest.PER_PAGE. lia.
Qed.

Lemma after_request_pages s params url d hdrs page n w :
  same_but_page (deref w params) d ->
  headers w s = hdrs ->
  after_pages params url d hdrs (page + 1) n (after_request s params url page w)
  = after_pages params url d hdrs page (S n) w.
Proof.
  intros Hd Hh. unfold after_pages, after_request, set_traffic, set_heap.
  cbn [heap sessions traffic logged files page_requests].
  rewrite insert_insert_eq, Hh, (page_request_same _ _ _ _ _ Hd), <- app_assoc.
  replace (page + 1 + Z.of_nat n - 1) with (page + Z.of_nat (S n) - 1) by lia.
  reflexivity.
Qed.

Lemma after_request_one s params url d hdrs page w :
  same_but_page (deref w params) d ->
  headers w s = hdrs ->
  after_request s params url page w = after_pages params url d hdrs page 1 w.
Proof.
  intros Hd Hh. unfold after_pages, after_request, set_traffic, set_heap.
  cbn [heap sessions traffic logged files page_requests].
  rewrite Hh, (page_request_same _ _ _ _ _ Hd), (insert_page_same _ _ _ Hd).
  replace (page + Z.of_nat 1 - 1) with page by lia. reflexivity.
Qed.

(** Full pages followed by a short one: the loop returns their elements in
    order after one request per page. *)
Lemma get_loop_pages srv self url params expected d hdrs last pages :
  forall fuel page result w,
    Forall (fun p => length p = 100%nat) pages ->
    (length last < 100)%nat ->
    same_but_page (deref w params) d ->
    headers w (RestRequest.session self) = hdrs ->
    serves srv url d hdrs expected page (pages ++ [last]) ->
    (length pages < fuel)%nat ->
    RestRequest.get_loop srv fuel self url params expected page result w
    = (Ret (VList (result ++ concat pages ++ last)),
       after_pages params url d hdrs page (S (length pages)) w).
Proof.
  induction pages as [|items pages IH]; intros fuel page result w Hfull Hlast Hd Hh Hsrv Hfuel.
  - destruct fuel as [|fuel]; [cbn in Hfuel; lia|].
    destruct (serves_head _ _ _ _ _ _ _ _ (traffic w) Hsrv) as [Hs Hj].
    rewrite (get_loop_short _ _ _ _ _ _ _ _ _ last).
    + cbn [concat app length]. now rewrite (after_request_one _ _ _ d hdrs).
    + unfold answer. now rewrite Hh, (page_request_same _ _ _ _ _ Hd).
    + unfold answer. now rewrite Hh, (page_request_same _ _ _ _ _ Hd).
    + exact Hlast.
  - destruct fuel as [|fuel]; [cbn in Hfuel; lia|].
    cbn [app] in Hsrv.
    destruct (serves_head _ _ _ _ _ _ _ _ (traffic w) Hsrv) as [Hs Hj].
    apply Forall_cons in Hfull as [Hlen Hfull'].
    rewrite (get_loop_full _ _ _ _ _ _ _ _ _ items).
    + rewrite (IH fuel (page + 1) (result ++ items)).
      * cbn [concat length]. rewrite <- !app_assoc.
        now rewrite (after_request_pages _ _ _ d hdrs).
      * exact Hfull'.
      * exact Hlast.
      * rewrite deref_after_request. unfold same_but_page in *.
        now rewrite delete_insert_eq.
      * exact Hh.
      * exact (serves_tail _ _ _ _ _ _ _ _ Hsrv).
      * cbn in Hfuel. lia.
    + unfold answer. now rewrite Hh, (page_request_same _ _ _ _ _ Hd).
    + unfold answer. now rewrite Hh, (page_request_same _ _ _ _ _ Hd).
    + lia.
Qed.

(** Some full pages first: the loop reaches the page after them with their
    elements accumulated. *)
Lemma get_loop_prefix srv self url params expected d hdrs pages :
  forall fuel page result w,
    Forall (fun p => length p = 100%nat) pages ->
    same_but_page (deref w params) d ->
    headers w (RestRequest.session self) = hdrs ->
    serves srv url d hdrs expected page pages ->
    exists w',
      RestRequest.get_loop srv (length pages + fuel) self url params expected page result w
      = RestRequest.get_loop srv fuel self url params expected
          (page + Z.of_nat (length pages)) (result ++ concat pages) w'
      /\ same_but_page (deref w' params) d
      /\ headers w' (RestRequest.session self) = hdrs
      /\ traffic w' = traffic w ++ page_requests url d hdrs page (length pages)
      /\ logged w' = logged w.
Proof.
  induction pages as [|items pages IH]; intros fuel page result w Hfull Hd Hh Hsrv.
  - exists w. cbn [length concat Nat.add page_requests].
    rewrite Z.add_0_r, !app_nil_r. auto.
  - apply Forall_cons in Hfull as [Hlen Hfull'].
    destruct (serves_head _ _ _ _ _ _ _ _ (traffic w) Hsrv) as [Hs Hj].
    cbn [length Nat.add].
    rewrite (get_loop_full _ _ _ _ _ _ _ _ _ items);
      [| unfold answer; now rewrite Hh, (page_request_same _ _ _ _ _ Hd)
       | unfold answer; now rewrite Hh, (page_request_same _ _ _ _ _ Hd)
       | lia ].
    destruct (IH fuel (page + 1) (result ++ items)
                (after_request (RestRequest.session self) params url page w))
      as (w' & Heq & Hd' & Hh' & Ht & Hl).
    + exact Hfull'.
    + rewrite deref_after_request. unfold same_but_page in *.
      now rewrite delete_insert_eq.
    + exact Hh.
    + exact (serves_tail _ _ _ _ _ _ _ _ Hsrv).
    + exists w'. rewrite Heq. cbn [concat page_requests].
      rewrite <- !app_assoc.
      replace (page + 1 + Z.of_nat (length pages))
        with (page + Z.of_nat (S (length pages))) by lia.
      repeat split; try assumption.
      rewrite Ht, traffic_after_request, Hh, (page_request_same _ _ _ _ _ Hd).
      now rewrite <- app_assoc.
Qed.

(** ** [RestRequest.get] up to its loop *)

Lemma get_enters_loop G srv fuel self path parameters expected authenticated w url :
  passes_checks G self path (default get_defaults parameters) authenticated w url ->
  RestRequest.get G srv fuel self path parameters expected authenticated w
  = RestRequest.get_loop srv fuel self url (default get_defaults parameters) expected 1 []
      (entered (default get_defaults parameters) url w).
Proof.
  intros (repo0 & Hr & Hc & Hu & Ha). unfold RestRequest.get. cbv zeta.
  rewrite Hr. unfold bind at 1. unfold getw. rewrite Hc, Hu.
  unfold bind at 1. unfold lift, ret. unfold bind at 1. unfold log, modify.
  rewrite Ha. reflexivity.
Qed.

Lemma deref_entered params url w :
  deref (entered params url w) params
  = <["per_page" := VInt RestRequest.PER_PAGE]> (deref w params).
Proof. unfold deref at 1, entered. cbn. now rewrite lookup_insert_eq. Qed.

Lemma length_concat_full (pages : list (list value)) :
  Forall (fun p => length p = 100%nat) pages ->
  length (concat pages) = (100 * length pages)%nat.
Proof.
  induction 1 as [|p pages Hp _ IH]; [reflexivity|].
  cbn [concat length]. rewrite length_app, Hp, IH. lia.
Qed.

(** C1.  When the checks before the loop pass and the server answers the
    requests for pages 1, 2, ... with [k] arrays of exactly 100 elements
    followed by an array of [m < 100] elements, each with the expected
    status, [RestRequest.get] returns the elements of all pages in order,
    [100 k + m] of them, after exactly [k + 1] requests: those for pages 1
    to [k + 1]. *)
Theorem get_paginates (G : GitHub) (srv : server) (fuel : nat)
    (self : RestRequest.t) (path : string) (parameters : option loc)
    (expected : Z) (authenticated : bool) (w : world) (url : string)
    (pages : list (list value)) (last : list value) :
  let params := default get_defaults parameters in
  let d := <["per_page" := VInt 100]> (deref w params) in
  let hdrs := headers w (RestRequest.session self) in
  passes_checks G self path params authenticated w url ->
  Forall (fun p => length p = 100%nat) pages ->
  (length last < 100)%nat ->
  serves srv url d hdrs expected 1 (pages ++ [last]) ->
  (length pages < fuel)%nat ->
  exists w',
    RestRequest.get G srv fuel self path parameters expected authenticated w
    = (Ret (VList (concat pages ++ last)), w')
    /\ length (concat pages ++ last) = (100 * length pages + length last)%nat
    /\ traffic w' = traffic w ++ page_requests url d hdrs 1 (S (length pages))
    /\ length (traffic w') = (length (traffic w) + (length pages + 1))%nat.
Proof.
  intros params d hdrs Hchk Hfull Hlast Hsrv Hfuel.
  rewrite (get_enters_loop _ _ _ _ _ _ _ _ _ _ Hchk). fold params.
  rewrite (get_loop_pages srv self url params expected d hdrs last pages);
    try assumption.
  - eexists. split; [reflexivity|]. split; [|split].
    + rewrite length_app, (length_concat_full _ Hfull). reflexivity.
    + reflexivity.
    + cbn [traffic after_pages]. rewrite length_app, length_page_requests.
      cbn [traffic entered set_heap set_logged]. lia.
  - rewrite deref_entered. reflexivity.
  - reflexivity.
Qed.

Lemma example_passes_checks path authenticated url :
  Octokit.route example_github path example_repository "rest" ∅ = inr url ->
  passes_checks example_github example_rest path get_defaults authenticated
    example_world url.
Proof.
  intros H. exists example_repository. split; [reflexivity|].
  split; [vm_compute; reflexivity|]. split; [exact H|].
  destruct authenticated; vm_compute; reflexivity.
Qed.

Lemma get_paginates_witness :
  exists w',
    RestRequest.get example_github two_page_server 2 example_rest
      "/repos/{owner}/{repo}/code-scanning/alerts" None 200 false example_world
    = (Ret (VList (concat [replicate 100 (VInt 0)] ++ [VInt 1; VInt 2])), w')
    /\ length (concat [replicate 100 (VInt 0)] ++ [VInt 1; VInt 2])
       = (100 * 1 + 2)%nat
    /\ traffic w'
       = page_requests "https://api.github.com/repos/A/B/code-scanning/alerts"
           (<["per_page" := VInt 100]> ∅) example_headers 1 2
    /\ length (traffic w') = 2%nat.
Proof.
  refine (get_paginates example_github two_page_server 2 example_rest
            "/repos/{owner}/{repo}/code-scanning/alerts" None 200 false example_world
            "https://api.github.com/repos/A/B/code-scanning/alerts"
            [replicate 100 (VInt 0)] [VInt 1; VInt 2] _ _ _ _ _).
  - apply example_passes_checks. vm_compute; reflexivity.
  - repeat constructor.
  - cbn. lia.
  - intros [|[|i]] items hist Hi; cbn in Hi;
      [injection Hi as <- | injection Hi as <- | discriminate];
      split; vm_compute; reflexivity.
  - cbn. lia.
Defined.

(** After the checks and [k] full pages, [get] stands at the request for
    page [k + 1]. *)
Lemma get_after_prefix G srv fuel self path parameters expected authenticated w url pages :
  let params := default get_defaults parameters in
  let d := <["per_page" := VInt 100]> (deref w params) in
  let hdrs := headers w (RestRequest.session self) in
  passes_checks G self path params authenticated w url ->
  Forall (fun p => length p = 100%nat) pages ->
  serves srv url d hdrs expected 1 pages ->
  (length pages < fuel)%nat ->
  exists fuel' w1,
    RestRequest.get G srv fuel self path parameters expected authenticated w
    = RestRequest.get_loop srv (S fuel') self url params expected
        (1 + Z.of_nat (length pages)) (concat pages) w1
    /\ answer srv (RestRequest.session self) params url (1 + Z.of_nat (length pages)) w1
       = srv (traffic w1) (page_request url d hdrs (1 + Z.of_nat (length pages)))
    /\ traffic w1 = traffic w ++ page_requests url d hdrs 1 (length pages).
Proof.
  intros params d hdrs Hchk Hfull Hsrv Hfuel.
  rewrite (get_enters_loop _ _ _ _ _ _ _ _ _ _ Hchk). fold params.
  destruct (get_loop_prefix srv self url params expected d hdrs pages
              (S (fuel - length pages - 1)) 1 [] (entered params url w))
    as (w1 & Heq & Hd & Hh & Ht & _); try assumption.
  - rewrite deref_entered. reflexivity.
  - reflexivity.
  - exists (fuel - length pages - 1)%nat, w1.
    replace fuel with (length pages + S (fuel - length pages - 1))%nat at 1 by lia.
    rewrite Heq. cbn [app]. repeat split.
    + unfold answer. now rewrite Hh, (page_request_same _ _ _ _ _ Hd).
    + exact Ht.
Qed.

(** ** Error envelopes and statuses *)

Lemma warn_all_dicts errs w :
  forallb is_dict errs = true ->
  GraphQLRequest.warn_all errs w
  = (Ret tt, set_logged (logged w ++ map warning_of errs) w).
Proof.
  revert w. induction errs as [|err errs IH]; intros w H.
  - cbn. rewrite app_nil_r. now destruct w.
  - cbn [forallb] in H. apply andb_true_iff in H as [He Hr].
    destruct err; try discriminate.
    cbn [GraphQLRequest.warn_all]. unfold bind, log, modify.
    rewrite (IH _ Hr). cbn. now rewrite <- app_assoc.
Qed.

(** The options can be passed to [formatQuery] as keyword arguments and
    substitute into the query text [query_content], giving [q]. *)
Lemma formatQuery_substitutes substitute query_content options q :
  kwargs_clash ["self"; "query"] options = false ->
  substitute query_content options = inr q ->
  GraphQLRequest.formatQuery substitute query_content options = inr q.
Proof. intros Hc Hs. unfold GraphQLRequest.formatQuery. now rewrite Hc. Qed.

(** C2 (amended).  REST: when a response with status 200, expected status
    200, decodes to an object, [RestRequest.get] raises the
    error-from-server exception and returns no body if the [errors] member
    of the object is true in the Python sense (not absent, null, false,
    zero or empty), and returns the object as it is otherwise, so also
    when [errors] is present with a false value; this holds for the first
    response and after any number of full pages.  GraphQL: when the
    options name neither [self] nor [query] and substitute into a loaded
    query, and the 200 response decodes to an object whose [errors] member
    is an array of objects, [GraphQLRequest.query] does not raise: it logs
    one warning per element, in order, and returns the whole body. *)
Theorem errors_envelope (G : GitHub) (srv : server) :
  (forall fuel self path parameters authenticated w url pages kvs,
      let params := default get_defaults parameters in
      let d := <["per_page" := VInt 100]> (deref w params) in
      let hdrs := headers w (RestRequest.session self) in
      passes_checks G self path params authenticated w url ->
      Forall (fun p => length p = 100%nat) pages ->
      serves srv url d hdrs 200 1 pages ->
      (forall hist,
          status_code (srv hist (page_request url d hdrs (1 + Z.of_nat (length pages)))) = 200
          /\ json (srv hist (page_request url d hdrs (1 + Z.of_nat (length pages))))
             = Some (VDict kvs)) ->
      (length pages < fuel)%nat ->
      exists w',
        RestRequest.get G srv fuel self path parameters 200 authenticated w
        = (if truthy (get_or_none "errors" kvs)
           then Raise (Exception "REST Request failed :: error from server")
           else Ret (VDict kvs),
           w'))
  /\ (forall substitute self name options w query_content q kvs errs,
         let req := graphql_request G (headers w (GraphQLRequest.session self)) q in
         GraphQLRequest.queries self !! name = Some query_content ->
         query_content <> "" ->
         kwargs_clash ["self"; "query"] options = false ->
         substitute query_content options = inr q ->
         status_code (srv (traffic w) req) = 200 ->
         json (srv (traffic w) req) = Some (VDict kvs) ->
         get_or_none "errors" kvs = VList errs ->
         forallb is_dict errs = true ->
         GraphQLRequest.query G srv substitute self name options w
         = (Ret (VDict kvs),
            set_logged (logged w ++ map warning_of errs)
              (set_traffic (traffic w ++ [req]) w))).
Proof.
  split.
  - intros fuel self path parameters authenticated w url pages kvs params d hdrs
      Hchk Hfull Hsrv Hresp Hfuel.
    destruct (get_after_prefix G srv fuel self path parameters 200 authenticated w url
                pages Hchk Hfull Hsrv Hfuel) as (fuel' & w1 & -> & Ha & _).
    fold params d hdrs in Ha. fold params.
    destruct (Hresp (traffic w1)) as [Hs Hj].
    rewrite get_loop_step. cbv zeta. rewrite Ha, Hj, Hs. cbn [Z.eqb Pos.eqb negb].
    destruct (truthy (get_or_none "errors" kvs)); eexists; reflexivity.
  - intros substitute self name options w query_content q kvs errs req
      Hq Hne Hclash Hsub Hs Hj He Hd.
    unfold GraphQLRequest.query. rewrite Hq.
    apply String.eqb_neq in Hne. rewrite Hne.
    rewrite (formatQuery_substitutes _ _ _ _ Hclash Hsub).
    rewrite bind_lift_inr, bind_session_post.
    fold (graphql_request G (headers w (GraphQLRequest.session self)) q). fold req.
    rewrite Hs. cbn [Z.eqb Pos.eqb negb].
    rewrite bind_response_json, Hj, He.
    destruct errs as [|err errs].
    + cbn [truthy map]. rewrite bind_ret, app_nil_r. reflexivity.
    + cbn [truthy iterate]. rewrite bind_bind, bind_lift_inr.
      unfold bind. rewrite (warn_all_dicts _ _ Hd). reflexivity.
Qed.

Lemma serves_nil srv url d hdrs expected page : serves srv url d hdrs expected page [].
Proof. intros i items hist H. rewrite lookup_nil in H. discriminate. Qed.

Lemma errors_envelope_witness :
  (exists w',
      RestRequest.get example_github (constant_server 200 (Some (VDict error_body))) 1
        example_rest "/repos/{owner}/{repo}/code-scanning/alerts" None 200 false
        example_world
      = (Raise (Exception "REST Request failed :: error from server"), w'))
  /\ (exists w',
         RestRequest.get example_github
           (constant_server 200 (Some (VDict [("errors", VList [])]))) 1
           example_rest "/repos/{owner}/{repo}/code-scanning/alerts" None 200 false
           example_world
         = (Ret (VDict [("errors", VList [])]), w'))
  /\ GraphQLRequest.query example_github (constant_server 200 (Some (VDict error_body)))
       (fun q _ => inr q) example_graphql "GetAlerts" ∅ example_world
     = (Ret (VDict error_body),
        set_logged
          (logged example_world
           ++ map warning_of [VDict [("message", VStr "rate limited")]])
          (set_traffic
             (traffic example_world
              ++ [graphql_request example_github example_headers "query { repository }"])
             example_world)).
Proof.
  split; [|split].
  - refine (proj1 (errors_envelope example_github
                     (constant_server 200 (Some (VDict error_body))))
              1%nat example_rest "/repos/{owner}/{repo}/code-scanning/alerts" None false
              example_world "https://api.github.com/repos/A/B/code-scanning/alerts"
              [] error_body _ _ _ _ _).
    + apply example_passes_checks. vm_compute; reflexivity.
    + constructor.
    + apply serves_nil.
    + intros hist. split; reflexivity.
    + cbn. lia.
  - refine (proj1 (errors_envelope example_github
                     (constant_server 200 (Some (VDict [("errors", VList [])]))))
              1%nat example_rest "/repos/{owner}/{repo}/code-scanning/alerts" None false
              example_world "https://api.github.com/repos/A/B/code-scanning/alerts"
              [] [("errors", VList [])] _ _ _ _ _).
    + apply example_passes_checks. vm_compute; reflexivity.
    + constructor.
    + apply serves_nil.
    + intros hist. split; reflexivity.
    + cbn. lia.
  - refine (proj2 (errors_envelope example_github
                     (constant_server 200 (Some (VDict error_body))))
              (fun q _ => inr q) example_graphql "GetAlerts" ∅ example_world
              "query { repository }" "query { repository }" error_body
              [VDict [("message", VStr "rate limited")]] _ _ _ _ _ _ _ _).
    + vm_compute; reflexivity.
    + discriminate.
    + reflexivity.
    + reflexivity.
    + reflexivity.
    + reflexivity.
    + reflexivity.
    + reflexivity.
Defined.

(** C2 as stated fails in two ways.  For REST, an object whose [errors]
    member is present but empty is returned, not refused.  For GraphQL, an
    [errors] array with an element that is not an object makes the call
    raise: no body is returned. *)
Lemma errors_envelope_counterexample :
  (dict_get "errors" [("errors", VList [])] = Some (VList [])
   /\ fst (RestRequest.get example_github
             (constant_server 200 (Some (VDict [("errors", VList [])]))) 1
             example_rest "/repos/{owner}/{repo}/code-scanning/alerts" None 200 false
             example_world)
      = Ret (VDict [("errors", VList [])]))
  /\ fst (GraphQLRequest.query example_github
            (constant_server 200
               (Some (VDict [("data", VNone); ("errors", VList [VStr "rate limited"])])))
            (fun q _ => inr q) example_graphql "GetAlerts" ∅ example_world)
     = Raise AttributeError.
Proof. repeat split; vm_compute; reflexivity. Qed.

(** C7.  [RestRequest.get] decodes the body of a response before it looks
    at its status.  A response with status 401 whose body is not a JSON
    document therefore makes the call raise the decoding error, at the
    first response or after any number of full pages: the status table is
    not consulted and no [Authentication Issue] is raised.  When the body
    is a JSON document (and the expected status is not 401) the call
    raises [Authentication Issue] at once, whatever the body decodes to
    and whatever was accumulated; [postJson], which looks at the status
    first, raises it for every 401 response, decodable or not. *)
Theorem unauthorized_body_decoded_first (G : GitHub) (srv : server) (expected : Z) :
  (forall fuel self path parameters authenticated w url pages,
      let params := default get_defaults parameters in
      let d := <["per_page" := VInt 100]> (deref w params) in
      let hdrs := headers w (RestRequest.session self) in
      passes_checks G self path params authenticated w url ->
      Forall (fun p => length p = 100%nat) pages ->
      serves srv url d hdrs expected 1 pages ->
      (forall hist,
          status_code (srv hist (page_request url d hdrs (1 + Z.of_nat (length pages)))) = 401
          /\ json (srv hist (page_request url d hdrs (1 + Z.of_nat (length pages))))
             = None) ->
      (length pages < fuel)%nat ->
      exists w',
        RestRequest.get G srv fuel self path parameters expected authenticated w
        = (Raise JSONDecodeError, w')
        /\ logged w'
           = logged w ++ [mkLog DEBUG "Fetching content from URL :: " (ArgStr url)])
  /\ (expected <> 401 ->
      forall fuel self path parameters authenticated w url pages body,
        let params := default get_defaults parameters in
        let d := <["per_page" := VInt 100]> (deref w params) in
        let hdrs := headers w (RestRequest.session self) in
        passes_checks G self path params authenticated w url ->
        Forall (fun p => length p = 100%nat) pages ->
        serves srv url d hdrs expected 1 pages ->
        (forall hist,
            status_code (srv hist (page_request url d hdrs (1 + Z.of_nat (length pages)))) = 401
            /\ json (srv hist (page_request url d hdrs (1 + Z.of_nat (length pages))))
               = Some body) ->
        (length pages < fuel)%nat ->
        exists w',
          RestRequest.get G srv fuel self path parameters expected authenticated w
          = (Raise (Exception "Authentication Issue"), w'))
  /\ (expected <> 401 ->
      forall self path data w repo0 url,
        RestRequest.or_else (RestRequest.repository self) (GitHub_repository G)
        = Some repo0 ->
        Octokit.route G path repo0 "rest" ∅ = inr url ->
        status_code
          (srv (traffic w)
             (mkRequest POST url ∅ (headers w (RestRequest.session self)) (Some data)))
        = 401 ->
        exists w',
          RestRequest.postJson G srv self path data expected w
          = (Raise (Exception "Authentication Issue"), w')).
Proof.
  split; [|split].
  - intros fuel self path parameters authenticated w url pages params d hdrs
      Hchk Hfull Hsrv Hresp Hfuel.
    rewrite (get_enters_loop _ _ _ _ _ _ _ _ _ _ Hchk). fold params.
    destruct (get_loop_prefix srv self url params expected d hdrs pages
                (S (fuel - length pages - 1)) 1 [] (entered params url w))
      as (w1 & Heq & Hd & Hh & Ht & Hl); try assumption.
    { rewrite deref_entered. reflexivity. }
    { reflexivity. }
    assert (Ha : answer srv (RestRequest.session self) params url
                   (1 + Z.of_nat (length pages)) w1
                 = srv (traffic w1) (page_request url d hdrs (1 + Z.of_nat (length pages)))).
    { unfold answer. now rewrite Hh, (page_request_same _ _ _ _ _ Hd). }
    destruct (Hresp (traffic w1)) as [Hs Hj].
    exists (after_request (RestRequest.session self) params url
              (1 + Z.of_nat (length pages)) w1).
    split.
    + replace fuel with (length pages + S (fuel - length pages - 1))%nat at 1 by lia.
      rewrite Heq. cbn [app].
      rewrite get_loop_step. cbv zeta. rewrite Ha, Hj. reflexivity.
    + cbn [logged after_request set_traffic set_heap]. exact Hl.
  - intros Hexp fuel self path parameters authenticated w url pages body params d hdrs
      Hchk Hfull Hsrv Hresp Hfuel.
    assert (Hne : negb (401 =? expected) = true).
    { apply negb_true_iff, Z.eqb_neq. congruence. }
    destruct (get_after_prefix G srv fuel self path parameters expected authenticated
                w url pages Hchk Hfull Hsrv Hfuel) as (fuel' & w1 & -> & Ha & _).
    fold params d hdrs in Ha. fold params.
    destruct (Hresp (traffic w1)) as [Hs Hj].
    rewrite get_loop_step. cbv zeta. rewrite Ha, Hj, Hs, Hne.
    rewrite !bind_log. unfold __OCTOKIT_ERRORS__. rewrite lookup_singleton_eq.
    eexists. reflexivity.
  - intros Hexp self path data w repo0 url Hrepo Hroute Hs.
    assert (Hne : negb (401 =? expected) = true).
    { apply negb_true_iff, Z.eqb_neq. congruence. }
    unfold RestRequest.postJson. rewrite Hrepo, Hroute.
    rewrite bind_lift_inr, bind_log, bind_session_post.
    cbn [traffic headers sessions set_logged] in *.
    change (headers (set_logged _ w) (RestRequest.session self))
      with (headers w (RestRequest.session self)).
    rewrite Hs, Hne, bind_log.
    unfold __OCTOKIT_ERRORS__. rewrite lookup_singleton_eq.
    eexists. reflexivity.
Qed.

Lemma unauthorized_body_decoded_first_witness :
  (exists w',
      RestRequest.get example_github (constant_server 401 None) 1
        example_rest "/repos/{owner}/{repo}/code-scanning/alerts" None 200 false
        example_world
      = (Raise JSONDecodeError, w')
      /\ logged w'
         = logged example_world
           ++ [mkLog DEBUG "Fetching content from URL :: "
                 (ArgStr "https://api.github.com/repos/A/B/code-scanning/alerts")])
  /\ (exists w',
         RestRequest.get example_github
           (constant_server 401 (Some (VDict [("message", VStr "Bad credentials")]))) 1
           example_rest "/repos/{owner}/{repo}/code-scanning/alerts" None 200 false
           example_world
         = (Raise (Exception "Authentication Issue"), w'))
  /\ (exists w',
         RestRequest.postJson example_github (constant_server 401 None) example_rest
           "/repos/{owner}/{repo}/code-scanning/sarifs" (VDict []) 200 example_world
         = (Raise (Exception "Authentication Issue"), w')).
Proof.
  split; [|split].
  - refine (proj1 (unauthorized_body_decoded_first example_github
                     (constant_server 401 None) 200)
              1%nat example_rest "/repos/{owner}/{repo}/code-scanning/alerts" None false
              example_world "https://api.github.com/repos/A/B/code-scanning/alerts"
              [] _ _ _ _ _).
    + apply example_passes_checks. vm_compute; reflexivity.
    + constructor.
    + apply serves_nil.
    + intros hist. split; reflexivity.
    + cbn. lia.
  - refine (proj1 (proj2 (unauthorized_body_decoded_first example_github
                     (constant_server 401 (Some (VDict [("message", VStr "Bad credentials")])))
                     200)) _
              1%nat example_rest "/repos/{owner}/{repo}/code-scanning/alerts" None false
              example_world "https://api.github.com/repos/A/B/code-scanning/alerts"
              [] (VDict [("message", VStr "Bad credentials")]) _ _ _ _ _).
    + lia.
    + apply example_passes_checks. vm_compute; reflexivity.
    + constructor.
    + apply serves_nil.
    + intros hist. split; reflexivity.
    + cbn. lia.
  - refine (proj2 (proj2 (unauthorized_body_decoded_first example_github
                            (constant_server 401 None) 200)) _
              example_rest "/repos/{owner}/{repo}/code-scanning/sarifs" (VDict [])
              example_world example_repository
              "https://api.github.com/repos/A/B/code-scanning/sarifs" _ _ _).
    + lia.
    + reflexivity.
    + vm_compute; reflexivity.
    + reflexivity.
Defined.

(** ** What a call leaves behind *)

Lemma footprint_one s params url page w w' :
  heap w' = heap (after_request s params url page w) ->
  sessions w' = sessions w ->
  traffic w' = traffic (after_request s params url page w) ->
  files w' = files w ->
  loop_footprint params page w w'.
Proof.
  intros Hh Hs Ht Hf. exists 1%nat. split; [lia|].
  rewrite Hh, Ht. repeat split; try assumption.
  - cbn [after_request heap set_traffic set_heap].
    now replace (page + Z.of_nat 1 - 1) with page by lia.
  - rewrite traffic_after_request, length_app. reflexivity.
Qed.

Lemma footprint_more s params url page w w' :
  loop_footprint params (page + 1) (after_request s params url page w) w' ->
  loop_footprint params page w w'.
Proof.
  intros (n & Hn & Hh & Hs & Ht & Hf). exists (S n). split; [lia|].
  rewrite Hh, Hs, Ht, Hf, deref_after_request, traffic_after_request, length_app.
  cbn [after_request heap sessions files set_traffic set_heap length].
  rewrite !insert_insert_eq.
  replace (page + 1 + Z.of_nat n - 1) with (page + Z.of_nat (S n) - 1) by lia.
  repeat split; try reflexivity. lia.
Qed.

Lemma get_loop_footprint srv self url params expected fuel :
  forall page result w,
    (0 < fuel)%nat ->
    loop_footprint params page w
      (snd (RestRequest.get_loop srv fuel self url params expected page result w)).
Proof.
  induction fuel as [|fuel IH]; intros page result w Hfuel; [lia|].
  rewrite get_loop_step. cbv zeta.
  set (s := RestRequest.session self).
  set (w1 := after_request s params url page w).
  assert (Hone : forall w', heap w' = heap w1 -> sessions w' = sessions w ->
                            traffic w' = traffic w1 -> files w' = files w ->
                            loop_footprint params page w w').
  { intros w'. apply (footprint_one s params url). }
  assert (Hrec : forall result',
             loop_footprint params page w
               (snd (RestRequest.get_loop srv fuel self url params expected (page + 1)
                       result' w1))).
  { intros result'. destruct fuel as [|fuel'].
    - apply Hone; reflexivity.
    - apply (footprint_more s params url), IH. lia. }
  destruct (json (answer srv s params url page w)) as [j|]; [|now apply Hone].
  destruct (negb (status_code _ =? expected)).
  - rewrite !bind_log.
    destruct (__OCTOKIT_ERRORS__ !! _) as [known|]; [destruct (negb _)|];
      now apply Hone.
  - destruct j as [| b | z | str | l | kvs].
    + now apply Hone.
    + now apply Hone.
    + now apply Hone.
    + cbn [iterate py_len]. rewrite !bind_lift_inr.
      destruct (_ <? _); [now apply Hone | apply Hrec].
    + cbn [iterate py_len]. rewrite !bind_lift_inr.
      destruct (_ <? _); [now apply Hone | apply Hrec].
    + destruct (truthy _); [rewrite bind_log|]; now apply Hone.
Qed.

(** C10 (amended).  For every call of [RestRequest.get] that passes the
    checks before the loop (a repository is set, the route resolves, the
    credential check lets it through), however the call then ends: the
    dictionary passed as [parameters] has been changed in place and holds
    [per_page = 100] and [page = last], the index of the last page
    requested, on top of its former content; no other dictionary has
    changed.  A call that omits [parameters] does this to the one default
    dictionary of the function, so the two keys are there when the next
    such call starts. *)
Theorem get_mutates_parameters (G : GitHub) (srv : server) (fuel : nat)
    (self : RestRequest.t) (path : string) (parameters : option loc)
    (expected : Z) (authenticated : bool) (w : world) (url : string) :
  let params := default get_defaults parameters in
  let w' := snd (RestRequest.get G srv fuel self path parameters expected authenticated w) in
  passes_checks G self path params authenticated w url ->
  (0 < fuel)%nat ->
  exists last : Z,
    1 <= last
    /\ Z.of_nat (length (traffic w')) = Z.of_nat (length (traffic w)) + last
    /\ deref w' params
       = <["page" := VInt last]> (<["per_page" := VInt 100]> (deref w params))
    /\ (forall l, l <> params -> heap w' !! l = heap w !! l)
    /\ (parameters = None ->
        deref w' get_defaults !! "per_page" = Some (VInt 100)
        /\ deref w' get_defaults !! "page" = Some (VInt last)).
Proof.
  intros params w' Hchk Hfuel. subst w'.
  rewrite (get_enters_loop _ _ _ _ _ _ _ _ _ _ Hchk). fold params.
  destruct (get_loop_footprint srv self url params expected fuel 1 []
              (entered params url w) Hfuel) as (n & Hn & Hh & _ & Ht & _).
  set (w' := snd _) in *.
  assert (Hd : deref w' params
               = <["page" := VInt (Z.of_nat n)]>
                   (<["per_page" := VInt 100]> (deref w params))).
  { unfold deref at 1. rewrite Hh, lookup_insert_eq. cbn [default].
    rewrite deref_entered. now replace (1 + Z.of_nat n - 1) with (Z.of_nat n) by lia. }
  exists (Z.of_nat n). split; [lia|]. split; [|split; [exact Hd|split]].
  - rewrite Ht. cbn [entered traffic set_heap set_logged]. lia.
  - intros l Hl. rewrite Hh, lookup_insert_ne by congruence.
    cbn [entered heap set_heap]. now rewrite lookup_insert_ne by congruence.
  - intros ->. cbn [default] in params. subst params. rewrite Hd.
    rewrite lookup_insert_eq, lookup_insert_ne, lookup_insert_eq by discriminate.
    split; reflexivity.
Qed.

Lemma get_mutates_parameters_witness :
  exists last : Z,
    1 <= last
    /\ Z.of_nat (length (traffic (snd (RestRequest.get example_github two_page_server 5
                                         example_rest "/orgs/{org}/code-scanning/alerts"
                                         (Some 2%positive) 200 true caller_world))))
       = Z.of_nat (length (traffic caller_world)) + last
    /\ deref (snd (RestRequest.get example_github two_page_server 5 example_rest
                     "/orgs/{org}/code-scanning/alerts" (Some 2%positive) 200 true
                     caller_world)) 2%positive
       = <["page" := VInt last]>
           (<["per_page" := VInt 100]> (deref caller_world 2%positive))
    /\ (forall l, l <> 2%positive ->
                  heap (snd (RestRequest.get example_github two_page_server 5 example_rest
                               "/orgs/{org}/code-scanning/alerts" (Some 2%positive) 200
                               true caller_world)) !! l
                  = heap caller_world !! l)
    /\ (Some 2%positive = None ->
        deref (snd (RestRequest.get example_github two_page_server 5 example_rest
                      "/orgs/{org}/code-scanning/alerts" (Some 2%positive) 200 true
                      caller_world)) get_defaults !! "per_page" = Some (VInt 100)
        /\ deref (snd (RestRequest.get example_github two_page_server 5 example_rest
                         "/orgs/{org}/code-scanning/alerts" (Some 2%positive) 200 true
                         caller_world)) get_defaults !! "page" = Some (VInt last)).
Proof.
  refine (get_mutates_parameters example_github two_page_server 5 example_rest
            "/orgs/{org}/code-scanning/alerts" (Some 2%positive) 200 true caller_world
            "https://api.github.com/orgs/A/code-scanning/alerts" _ _).
  - exists example_repository. repeat split; vm_compute; reflexivity.
  - lia.
Defined.

(** C10 as stated fails for a call that is refused before the loop: here
    the route has a placeholder without a value, the call raises, and the
    caller's dictionary has neither key. *)
Lemma get_mutates_parameters_counterexample :
  fst (RestRequest.get example_github two_page_server 5 example_rest
         "/repos/{owner}/{repo}/code-scanning/alerts/{alert_number}"
         (Some 2%positive) 200 false caller_world)
  = Raise (KeyError "alert_number")
  /\ deref (snd (RestRequest.get example_github two_page_server 5 example_rest
                   "/repos/{owner}/{repo}/code-scanning/alerts/{alert_number}"
                   (Some 2%positive) 200 false caller_world)) 2%positive !! "per_page"
     = None
  /\ deref (snd (RestRequest.get example_github two_page_server 5 example_rest
                   "/repos/{owner}/{repo}/code-scanning/alerts/{alert_number}"
                   (Some 2%positive) 200 false caller_world)) 2%positive !! "page"
     = None.
Proof. repeat split; vm_compute; reflexivity. Qed.

(** The default dictionary at work: a template with the placeholder
    [{page}] cannot be resolved by a first call without parameters, but it
    is resolved, from the key left behind, once another such call has
    been made. *)
Example default_parameters_shared :
  fst (RestRequest.get example_github two_page_server 5 example_rest
         "/repos/{owner}/{repo}/pulls/{page}" None 200 false example_world)
  = Raise (KeyError "page")
  /\ (let w1 := snd (RestRequest.get example_github two_page_server 5 example_rest
                       "/repos/{owner}/{repo}/pulls" None 200 false example_world) in
      map req_url
        (drop 2 (traffic (snd (RestRequest.get example_github two_page_server 5
                                 example_rest "/repos/{owner}/{repo}/pulls/{page}" None
                                 200 false w1))))
      = ["https://api.github.com/repos/A/B/pulls/2";
         "https://api.github.com/repos/A/B/pulls/2"]).
Proof. split; vm_compute; reflexivity. Qed.

(** ** The credential check *)

(** The header that [RestRequest.__init__] stores is never empty, with or
    without a token. *)
Lemma authorization_not_empty G : String.eqb (RestRequest.authorization G) "" = false.
Proof. reflexivity. Qed.

Lemma init_authorization G repository0 w :
  exists self w',
    RestRequest.init G repository0 w = (Ret self, w')
    /\ RestRequest.header_missing (headers w' (RestRequest.session self)) "Authorization"
       = false.
Proof.
  eexists _, _. split; [reflexivity|].
  unfold RestRequest.header_missing, headers. cbn [sessions set_sessions].
  rewrite lookup_insert_eq. cbn [default id].
  rewrite lookup_insert_ne, lookup_insert_ne, lookup_insert_eq by discriminate.
  apply authorization_not_empty.
Qed.

(** C3, the code at the failing input.  With no token configured, the
    instance built by [RestRequest.__init__] carries the header
    [Authorization: token None]; [get] with [authenticated = True] then
    passes its check, sends the request and returns the server's answer,
    and so does the decorated method [getAlerts], which is declared with
    [authenticated=True]. *)
Theorem token_check_passes_without_token :
  GitHub_token example_github = None
  /\ (let run := (self <- RestRequest.init example_github (Some example_repository) ;;
                  RestRequest.get example_github (constant_server 200 (Some (VList []))) 1
                    self "/orgs/{org}/code-scanning/alerts" None 200 true) fresh_world in
      fst run = Ret (VList [])
      /\ map req_url (traffic (snd run))
         = ["https://api.github.com/orgs/A/code-scanning/alerts"]
      /\ map (fun r => req_headers r !! "Authorization") (traffic (snd run))
         = [Some "token None"])
  /\ (let run := (self <- RestRequest.init example_github (Some example_repository) ;;
                  CodeScanning.getAlerts example_github
                    (constant_server 200 (Some (VList []))) 1 (CodeScanning.mk self)
                    [] ∅) fresh_world in
      fst run = Ret (VList [])
      /\ map req_url (traffic (snd run))
         = ["https://api.github.com/repos/A/B/code-scanning/alerts"]).
Proof. repeat split; vm_compute; reflexivity. Qed.

(** ** The decorator *)

(** The branch of the wrapper that reads [defaults] is guarded by
    [len(defaults) < 0] and never runs: the loop does the same with any
    defaults as with none. *)
Lemma wrap_loop_ignores_defaults fargs args defaults params :
  forall args_index response0 w,
    RestRequest.wrap_loop fargs args defaults params args_index response0 w
    = RestRequest.wrap_loop fargs args [] params args_index response0 w.
Proof.
  induction fargs as [|argv fargs IH]; intros args_index response0 w; [reflexivity|].
  cbn [RestRequest.wrap_loop]. destruct (String.eqb argv "self"); [apply IH|].
  replace (Z.of_nat (length defaults) <? 0) with false
    by (symmetry; apply Z.ltb_ge; lia).
  cbn [length Z.of_nat Z.ltb Z.compare]. rewrite !andb_false_r.
  unfold bind, ret, dict_set, modify. apply IH.
Qed.

(** C4, the code at the failing input.  Declared defaults never reach the
    parameter map: the wrapper behaves as if there were none.  [getAlerts]
    called without arguments sends [state = None], not the declared
    ["open"]; called with ["closed"] it builds the map of the
    specification's example, whose omitted parameters have [None] as
    declared default. *)
Theorem declared_defaults_unused :
  (forall fargs args defaults params args_index response0 w,
      RestRequest.wrap_loop fargs args defaults params args_index response0 w
      = RestRequest.wrap_loop fargs args [] params args_index response0 w)
  /\ func_defaults CodeScanning.getAlerts_func = [VStr "open"; VNone; VNone]
  /\ built_parameters CodeScanning.getAlerts_func []
     = <["state" := VNone]> (<["tool_name" := VNone]> (<["ref" := VNone]> ∅))
  /\ built_parameters CodeScanning.getAlerts_func [] !! "state" <> Some (VStr "open")
  /\ built_parameters CodeScanning.getAlerts_func [VStr "closed"]
     = <["state" := VStr "closed"]> (<["tool_name" := VNone]> (<["ref" := VNone]> ∅)).
Proof.
  split; [intros; apply wrap_loop_ignores_defaults|].
  split; [reflexivity|]. split; [vm_compute; reflexivity|].
  split; [vm_compute; discriminate|]. vm_compute; reflexivity.
Qed.

(** A method that declares [response] but neither [responce] nor
    [**kwargs] cannot be called the way the wrapper calls it. *)
Lemma call_method_responce func kwargs result w :
  "responce" ∉ func_args func ->
  func_varkw func = false ->
  call_method func (<["responce" := result]> kwargs) w = (Raise TypeError, w).
Proof.
  intros Hnot Hkw. unfold call_method.
  destruct (func_args func) as [|self_name named]; [reflexivity|].
  apply not_elem_of_cons in Hnot as [_ Hnamed].
  destruct (bool_decide _); [reflexivity|].
  rewrite Hkw. cbn [negb]. rewrite andb_true_r.
  rewrite bool_decide_eq_true_2; [reflexivity|].
  intros Hempty.
  assert (H : filter (fun kv : string * value => kv.1 ∉ named)
                (<["responce" := result]> kwargs) !! "responce" = Some result).
  { apply map_lookup_filter_Some. split; [apply lookup_insert_eq | exact Hnamed]. }
  rewrite Hempty, lookup_empty in H. discriminate.
Qed.

(** C5, the code at the failing input.  For a decorated method that
    declares [response], the wrapper performs the GET and then calls the
    method with the keyword [responce]: the call is a [TypeError] and the
    body does not run.  When the method also takes [**kwargs] and gives
    [response] a default, the body runs, but on that default and not on
    the result of the GET. *)
Theorem response_keyword_misspelt :
  (let run := RestRequest.restGet example_github (constant_server 200 (Some items_body)) 1
                "/repos/{owner}/{repo}/code-scanning/analyses" false reshaping_func
                (Some example_rest) [] ∅ example_world in
   fst run = Raise TypeError
   /\ length (traffic (snd run)) = 1%nat
   /\ func_body reshaping_func (<["response" := items_body]> ∅) ∅ example_world
      = (Ret (VList [VInt 1; VInt 2]), example_world))
  /\ (let run := RestRequest.restGet example_github (constant_server 200 (Some items_body)) 1
                   "/repos/{owner}/{repo}/code-scanning/analyses" false lenient_func
                   (Some example_rest) [] ∅ example_world in
      fst run = Ret VNone
      /\ length (traffic (snd run)) = 1%nat).
Proof. repeat split; vm_compute; reflexivity. Qed.

(** ** The SARIF download *)

(** [get] never touches the session headers. *)
Lemma get_sessions G srv fuel self path parameters expected authenticated w :
  sessions (snd (RestRequest.get G srv fuel self path parameters expected authenticated w))
  = sessions w.
Proof.
  unfold RestRequest.get. cbv zeta.
  destruct (RestRequest.or_else _ _) as [repo0|]; [|reflexivity].
  unfold bind at 1. unfold getw.
  destruct (if kwargs_clash _ _ then _ else _) as [e|url]; [reflexivity|].
  rewrite bind_lift_inr, bind_log.
  destruct (authenticated && _); [reflexivity|].
  unfold bind, dict_set, modify.
  destruct fuel as [|fuel]; [reflexivity|].
  match goal with
  | |- sessions (snd (RestRequest.get_loop ?srv ?f ?self ?url ?p ?e ?pg ?r ?w0)) = _ =>
      destruct (get_loop_footprint srv self url p e f pg r w0 ltac:(lia))
        as (n & _ & _ & Hs & _)
  end.
  rewrite Hs. reflexivity.
Qed.

Lemma downloadSARIF_unfold G srv writable fuel self output sarif_id w a :
  headers w (RestRequest.session (CodeScanning.rest self)) !! "Accept" = Some a ->
  CodeScanning.downloadSARIF G srv writable fuel self output sarif_id w
  = bind (RestRequest.get G srv fuel (CodeScanning.rest self) sarif_path
            (Some (sarif_params w)) 200 false)
      (fun result =>
         header_set (RestRequest.session (CodeScanning.rest self)) "Accept" a ;;;
         log DEBUG "Saving SARIF file to :: " (ArgStr output) ;;;
         CodeScanning.dump writable output result ;;;
         log DEBUG "Saved SARIF file" NoArg ;;;
         ret true)
      (sarif_world (RestRequest.session (CodeScanning.rest self)) sarif_id w).
Proof.
  intros Ha. unfold CodeScanning.downloadSARIF. cbv zeta.
  rewrite bind_log. unfold bind at 1. unfold header_pop.
  change (headers (set_logged _ w) ?s) with (headers w s). rewrite Ha.
  unfold bind at 1. unfold header_set, modify.
  unfold bind at 1. unfold new_dict. cbv zeta.
  match goal with
  | |- bind _ _ ?w1 = bind _ _ ?w2 => replace w1 with w2; [reflexivity|]
  end.
  unfold sarif_world, set_heap, set_sessions, set_logged, headers.
  cbn [heap sessions traffic logged files].
  rewrite lookup_insert_eq. reflexivity.
Qed.

(** When the GET raises, the exception leaves [downloadSARIF] at once and
    the session keeps the SARIF media type. *)
Lemma downloadSARIF_get_raises G srv writable fuel self output sarif_id w a e :
  let s := RestRequest.session (CodeScanning.rest self) in
  headers w s !! "Accept" = Some a ->
  fst (RestRequest.get G srv fuel (CodeScanning.rest self) sarif_path
         (Some (sarif_params w)) 200 false (sarif_world s sarif_id w)) = Raise e ->
  fst (CodeScanning.downloadSARIF G srv writable fuel self output sarif_id w) = Raise e
  /\ headers (snd (CodeScanning.downloadSARIF G srv writable fuel self output sarif_id w)) s
     !! "Accept" = Some sarif_accept.
Proof.
  intros s Ha Hget. rewrite (downloadSARIF_unfold _ _ _ _ _ _ _ _ _ Ha). fold s.
  pose proof (get_sessions G srv fuel (CodeScanning.rest self) sarif_path
                (Some (sarif_params w)) 200 false (sarif_world s sarif_id w)) as Hs.
  unfold bind. destruct (RestRequest.get _ _ _ _ _ _ _ _ _) as [o w4].
  cbn [fst snd] in *. subst o. cbn [fst snd]. split; [reflexivity|].
  unfold headers at 1. rewrite Hs. cbn [sessions sarif_world].
  rewrite lookup_insert_eq. cbn [default id]. apply lookup_insert_eq.
Qed.

(** When the GET returns, the headers are as before the call, whether or
    not the file can then be written. *)
Lemma downloadSARIF_get_returns G srv writable fuel self output sarif_id w a result :
  let s := RestRequest.session (CodeScanning.rest self) in
  headers w s !! "Accept" = Some a ->
  fst (RestRequest.get G srv fuel (CodeScanning.rest self) sarif_path
         (Some (sarif_params w)) 200 false (sarif_world s sarif_id w)) = Ret result ->
  headers (snd (CodeScanning.downloadSARIF G srv writable fuel self output sarif_id w)) s
  = headers w s.
Proof.
  intros s Ha Hget. rewrite (downloadSARIF_unfold _ _ _ _ _ _ _ _ _ Ha). fold s.
  pose proof (get_sessions G srv fuel (CodeScanning.rest self) sarif_path
                (Some (sarif_params w)) 200 false (sarif_world s sarif_id w)) as Hs.
  unfold bind at 1. destruct (RestRequest.get _ _ _ _ _ _ _ _ _) as [o w4].
  cbn [fst snd] in *. subst o.
  assert (Hh : headers w4 s = <["Accept" := sarif_accept]> (delete "Accept" (headers w s))).
  { unfold headers at 1. rewrite Hs. cbn [sessions sarif_world].
    now rewrite lookup_insert_eq. }
  unfold bind at 1. unfold header_set, modify.
  rewrite bind_log. unfold CodeScanning.dump.
  assert (Hfinal : forall w5, sessions w5
                     = <[s := <["Accept" := a]> (headers w4 s)]> (sessions w4) ->
                     headers w5 s = headers w s).
  { intros w5 H5. unfold headers at 1. rewrite H5, lookup_insert_eq. cbn [default id].
    rewrite Hh, insert_insert_eq, insert_delete_eq. now apply insert_id. }
  destruct (writable output); apply Hfinal; reflexivity.
Qed.

(** C9, the code at the failing input.  When the GET of [downloadSARIF]
    fails, here with status 404, the exception leaves the method before
    the line that puts the header back: the session keeps
    [Accept: application/sarif+json], and the next request on the same
    instance is sent with it.  When the GET succeeds the headers are as
    before. *)
Theorem accept_header_not_restored :
  (let run := CodeScanning.downloadSARIF example_github not_found_server (fun _ => true) 1
                (CodeScanning.mk example_rest) "out.sarif" 42 example_world in
   fst run = Raise (Exception "REST Request failed :: non-expected server error")
   /\ headers example_world 1%positive !! "Accept"
      = Some "application/vnd.github.v3+json"
   /\ headers (snd run) 1%positive !! "Accept" = Some "application/sarif+json"
   /\ map (fun r => req_headers r !! "Accept")
        (traffic (snd (RestRequest.get example_github not_found_server 1 example_rest
                         "/repos/{owner}/{repo}/code-scanning/alerts" None 200 false
                         (snd run))))
      = [Some "application/sarif+json"; Some "application/sarif+json"])
  /\ (let run := CodeScanning.downloadSARIF example_github sarif_server (fun _ => true) 1
                   (CodeScanning.mk example_rest) "out.sarif" 42 example_world in
      fst run = Ret true
      /\ headers (snd run) 1%positive = headers example_world 1%positive
      /\ map (fun r => req_headers r !! "Accept") (traffic (snd run))
         = [Some "application/sarif+json"]).
Proof. repeat split; vm_compute; reflexivity. Qed.

(** * Further properties of the engine *)

(** ** Single responses *)

Lemma page_requests_snoc url d hdrs page n :
  page_requests url d hdrs page n ++ [page_request url d hdrs (page + Z.of_nat n)]
  = page_requests url d hdrs page (S n).
Proof.
  revert page. induction n as [|n IH]; intros page.
  - cbn. now rewrite Z.add_0_r.
  - cbn [page_requests app]. f_equal.
    replace (page + Z.of_nat (S n)) with (page + 1 + Z.of_nat n) by lia.
    apply IH.
Qed.

(** After the checks and [k] full pages, [get] stands at the request for
    page [k + 1], in a world whose dictionary, headers and traffic are
    known. *)
Lemma get_reaches_page G srv fuel self path parameters expected authenticated w url pages :
  let params := default get_defaults parameters in
  let d := <["per_page" := VInt 100]> (deref w params) in
  let hdrs := headers w (RestRequest.session self) in
  passes_checks G self path params authenticated w url ->
  Forall (fun p => length p = 100%nat) pages ->
  serves srv url d hdrs expected 1 pages ->
  (length pages < fuel)%nat ->
  exists fuel' w1,
    RestRequest.get G srv fuel self path parameters expected authenticated w
    = RestRequest.get_loop srv (S fuel') self url params expected
        (1 + Z.of_nat (length pages)) (concat pages) w1
    /\ same_but_page (deref w1 params) d
    /\ headers w1 (RestRequest.session self) = hdrs
    /\ traffic w1 = traffic w ++ page_requests url d hdrs 1 (length pages).
Proof.
  intros params d hdrs Hchk Hfull Hsrv Hfuel.
  rewrite (get_enters_loop _ _ _ _ _ _ _ _ _ _ Hchk). fold params.
  destruct (get_loop_prefix srv self url params expected d hdrs pages
              (S (fuel - length pages - 1)) 1 [] (entered params url w))
    as (w1 & Heq & Hd & Hh & Ht & _); try assumption.
  - rewrite deref_entered. reflexivity.
  - reflexivity.
  - exists (fuel - length pages - 1)%nat, w1.
    replace fuel with (length pages + S (fuel - length pages - 1))%nat at 1 by lia.
    rewrite Heq. cbn [app]. auto.
Qed.

Lemma reached_step srv s params url d hdrs k w w1 :
  same_but_page (deref w1 params) d ->
  headers w1 s = hdrs ->
  traffic w1 = traffic w ++ page_requests url d hdrs 1 k ->
  answer srv s params url (1 + Z.of_nat k) w1
  = srv (traffic w1) (page_request url d hdrs (1 + Z.of_nat k))
  /\ traffic (after_request s params url (1 + Z.of_nat k) w1)
     = traffic w ++ page_requests url d hdrs 1 (S k).
Proof.
  intros Hd Hh Ht. split.
  - unfold answer. now rewrite Hh, (page_request_same _ _ _ _ _ Hd).
  - rewrite traffic_after_request, Hh, (page_request_same _ _ _ _ _ Hd), Ht.
    now rewrite <- app_assoc, page_requests_snoc.
Qed.

(** X1.  A response with the expected status that decodes to an object
    whose [errors] member is absent or false ends the call: [get] returns
    that object alone.  As the first response this takes exactly one
    request; after [k] full pages it takes [k + 1], and the elements
    accumulated from those pages are not part of the result. *)
Theorem get_single_object (G : GitHub) (srv : server) (fuel : nat)
    (self : RestRequest.t) (path : string) (parameters : option loc)
    (expected : Z) (authenticated : bool) (w : world) (url : string)
    (pages : list (list value)) (kvs : list (string * value)) :
  let params := default get_defaults parameters in
  let d := <["per_page" := VInt 100]> (deref w params) in
  let hdrs := headers w (RestRequest.session self) in
  passes_checks G self path params authenticated w url ->
  Forall (fun p => length p = 100%nat) pages ->
  serves srv url d hdrs expected 1 pages ->
  (forall hist,
      status_code (srv hist (page_request url d hdrs (1 + Z.of_nat (length pages))))
      = expected
      /\ json (srv hist (page_request url d hdrs (1 + Z.of_nat (length pages))))
         = Some (VDict kvs)) ->
  truthy (get_or_none "errors" kvs) = false ->
  (length pages < fuel)%nat ->
  exists w',
    RestRequest.get G srv fuel self path parameters expected authenticated w
    = (Ret (VDict kvs), w')
    /\ traffic w' = traffic w ++ page_requests url d hdrs 1 (S (length pages)).
Proof.
  intros params d hdrs Hchk Hfull Hsrv Hresp Herr Hfuel.
  destruct (get_reaches_page G srv fuel self path parameters expected authenticated w url
              pages Hchk Hfull Hsrv Hfuel) as (fuel' & w1 & -> & Hd & Hh & Ht).
  fold params d hdrs in Hd, Hh, Ht. fold params.
  destruct (reached_step srv _ _ url _ _ _ _ _ Hd Hh Ht) as [Ha Ht'].
  destruct (Hresp (traffic w1)) as [Hs Hj].
  rewrite get_loop_step. cbv zeta. rewrite Ha, Hj, Hs, Z.eqb_refl. cbn [negb].
  rewrite Herr. eexists. split; [reflexivity | exact Ht'].
Qed.

Lemma get_single_object_witness :
  exists w',
    RestRequest.get example_github (constant_server 200 (Some items_body)) 1 example_rest
      "/repos/{owner}/{repo}/code-scanning/alerts/7" None 200 false example_world
    = (Ret items_body, w')
    /\ traffic w'
       = traffic example_world
         ++ page_requests "https://api.github.com/repos/A/B/code-scanning/alerts/7"
              (<["per_page" := VInt 100]> ∅) example_headers 1 1.
Proof.
  refine (get_single_object example_github (constant_server 200 (Some items_body)) 1
            example_rest "/repos/{owner}/{repo}/code-scanning/alerts/7" None 200 false
            example_world "https://api.github.com/repos/A/B/code-scanning/alerts/7"
            [] [("items", VList [VInt 1; VInt 2])] _ _ _ _ _ _).
  - apply example_passes_checks. vm_compute; reflexivity.
  - constructor.
  - apply serves_nil.
  - intros hist. split; reflexivity.
  - reflexivity.
  - cbn. lia.
Defined.

(** X2.  A response whose status is neither the expected one nor in the
    status table (that is, not 401) makes [get] raise the generic
    non-expected-server-error exception, provided its body is a JSON
    document; nothing accumulated is returned.  The status and the body are
    logged as errors first. *)
Theorem get_unknown_status (G : GitHub) (srv : server) (fuel : nat)
    (self : RestRequest.t) (path : string) (parameters : option loc)
    (expected status : Z) (authenticated : bool) (w : world) (url : string)
    (pages : list (list value)) (body : value) :
  let params := default get_defaults parameters in
  let d := <["per_page" := VInt 100]> (deref w params) in
  let hdrs := headers w (RestRequest.session self) in
  passes_checks G self path params authenticated w url ->
  Forall (fun p => length p = 100%nat) pages ->
  serves srv url d hdrs expected 1 pages ->
  status <> expected ->
  status <> 401 ->
  (forall hist,
      status_code (srv hist (page_request url d hdrs (1 + Z.of_nat (length pages))))
      = status
      /\ json (srv hist (page_request url d hdrs (1 + Z.of_nat (length pages))))
         = Some body) ->
  (length pages < fuel)%nat ->
  exists w',
    RestRequest.get G srv fuel self path parameters expected authenticated w
    = (Raise (Exception "REST Request failed :: non-expected server error"), w')
    /\ traffic w' = traffic w ++ page_requests url d hdrs 1 (S (length pages))
    /\ exists earlier,
         logged w'
         = earlier ++ [mkLog ERROR "Error code from server :: " (ArgInt status);
                       mkLog ERROR "Content :: " (ArgValue body)].
Proof.
  intros params d hdrs Hchk Hfull Hsrv Hne H401 Hresp Hfuel.
  destruct (get_reaches_page G srv fuel self path parameters expected authenticated w url
              pages Hchk Hfull Hsrv Hfuel) as (fuel' & w1 & -> & Hd & Hh & Ht).
  fold params d hdrs in Hd, Hh, Ht. fold params.
  destruct (reached_step srv _ _ url _ _ _ _ _ Hd Hh Ht) as [Ha Ht'].
  destruct (Hresp (traffic w1)) as [Hs Hj].
  rewrite get_loop_step. cbv zeta. rewrite Ha, Hj, Hs.
  replace (status =? expected) with false by (symmetry; now apply Z.eqb_neq).
  cbn [negb]. rewrite !bind_log.
  unfold __OCTOKIT_ERRORS__. rewrite lookup_singleton_ne by congruence.
  eexists. split; [reflexivity|]. split; [exact Ht'|].
  eexists. cbn [logged set_logged]. rewrite <- app_assoc. reflexivity.
Qed.

Lemma get_unknown_status_witness :
  exists w',
    RestRequest.get example_github not_found_server 1 example_rest
      "/repos/{owner}/{repo}/code-scanning/alerts" None 200 false example_world
    = (Raise (Exception "REST Request failed :: non-expected server error"), w')
    /\ traffic w'
       = traffic example_world
         ++ page_requests "https://api.github.com/repos/A/B/code-scanning/alerts"
              (<["per_page" := VInt 100]> ∅) example_headers 1 1
    /\ exists earlier,
         logged w'
         = earlier ++ [mkLog ERROR "Error code from server :: " (ArgInt 404);
                       mkLog ERROR "Content :: "
                         (ArgValue (VDict [("message", VStr "Not Found")]))].
Proof.
  refine (get_unknown_status example_github not_found_server 1 example_rest
            "/repos/{owner}/{repo}/code-scanning/alerts" None 200 404 false example_world
            "https://api.github.com/repos/A/B/code-scanning/alerts" []
            (VDict [("message", VStr "Not Found")]) _ _ _ _ _ _ _).
  - apply example_passes_checks. vm_compute; reflexivity.
  - constructor.
  - apply serves_nil.
  - lia.
  - lia.
  - intros hist. split; reflexivity.
  - cbn. lia.
Defined.

(** X3.  A response with the expected status whose body decodes to
    [null], a boolean or a number is neither an object nor a sequence:
    [result.extend] fails and [get] raises [TypeError], after the request
    has been sent. *)
Theorem get_atom_body (G : GitHub) (srv : server) (fuel : nat)
    (self : RestRequest.t) (path : string) (parameters : option loc)
    (expected : Z) (authenticated : bool) (w : world) (url : string)
    (pages : list (list value)) (body : value) :
  let params := default get_defaults parameters in
  let d := <["per_page" := VInt 100]> (deref w params) in
  let hdrs := headers w (RestRequest.session self) in
  passes_checks G self path params authenticated w url ->
  Forall (fun p => length p = 100%nat) pages ->
  serves srv url d hdrs expected 1 pages ->
  is_atom body = true ->
  (forall hist,
      status_code (srv hist (page_request url d hdrs (1 + Z.of_nat (length pages))))
      = expected
      /\ json (srv hist (page_request url d hdrs (1 + Z.of_nat (length pages))))
         = Some body) ->
  (length pages < fuel)%nat ->
  exists w',
    RestRequest.get G srv fuel self path parameters expected authenticated w
    = (Raise TypeError, w')
    /\ traffic w' = traffic w ++ page_requests url d hdrs 1 (S (length pages)).
Proof.
  intros params d hdrs Hchk Hfull Hsrv Hatom Hresp Hfuel.
  destruct (get_reaches_page G srv fuel self path parameters expected authenticated w url
              pages Hchk Hfull Hsrv Hfuel) as (fuel' & w1 & -> & Hd & Hh & Ht).
  fold params d hdrs in Hd, Hh, Ht. fold params.
  destruct (reached_step srv _ _ url _ _ _ _ _ Hd Hh Ht) as [Ha Ht'].
  destruct (Hresp (traffic w1)) as [Hs Hj].
  rewrite get_loop_step. cbv zeta. rewrite Ha, Hj, Hs, Z.eqb_refl. cbn [negb].
  destruct body; try discriminate; (eexists; split; [reflexivity | exact Ht']).
Qed.

Lemma get_atom_body_witness :
  exists w',
    RestRequest.get example_github (constant_server 200 (Some VNone)) 1 example_rest
      "/repos/{owner}/{repo}/code-scanning/alerts" None 200 false example_world
    = (Raise TypeError, w')
    /\ traffic w'
       = traffic example_world
         ++ page_requests "https://api.github.com/repos/A/B/code-scanning/alerts"
              (<["per_page" := VInt 100]> ∅) example_headers 1 1.
Proof.
  refine (get_atom_body example_github (constant_server 200 (Some VNone)) 1 example_rest
            "/repos/{owner}/{repo}/code-scanning/alerts" None 200 false example_world
            "https://api.github.com/repos/A/B/code-scanning/alerts" [] VNone
            _ _ _ _ _ _).
  - apply example_passes_checks. vm_compute; reflexivity.
  - constructor.
  - apply serves_nil.
  - reflexivity.
  - intros hist. split; reflexivity.
  - cbn. lia.
Defined.

(** ** Refused calls, request sequences and frames *)

(** The test that [get] makes when it passes its parameters on is the one
    that [route] makes itself. *)
Lemma get_route_check G path repo0 options :
  (if kwargs_clash ["path"; "repository"; "rtype"] options then inl TypeError
   else Octokit.route G path repo0 "rest" options)
  = Octokit.route G path repo0 "rest" options.
Proof.
  unfold Octokit.route.
  destruct (kwargs_clash ["path"; "repository"; "rtype"] options); reflexivity.
Qed.

(** X4.  A call of [get] that is refused before the loop (no repository, a
    parameter name that collides with an argument of [route] or of
    [formatPath], a template that [str.format] rejects or a placeholder
    without a value, or the credential check) raises the exception of the
    check that stops it, sends no request and changes no dictionary,
    session or file. *)
Theorem get_refused_is_inert (G : GitHub) (srv : server) (fuel : nat)
    (self : RestRequest.t) (path : string) (parameters : option loc)
    (expected : Z) (authenticated : bool) (w : world) (e : exn) :
  let params := default get_defaults parameters in
  let run := RestRequest.get G srv fuel self path parameters expected authenticated w in
  refused G self path params authenticated w e ->
  fst run = Raise e
  /\ traffic (snd run) = traffic w
  /\ heap (snd run) = heap w
  /\ sessions (snd run) = sessions w
  /\ files (snd run) = files w.
Proof.
  intros params run Href.
  assert (H : exists w', run = (Raise e, w') /\ traffic w' = traffic w
                        /\ heap w' = heap w /\ sessions w' = sessions w
                        /\ files w' = files w).
  { subst run. unfold RestRequest.get. cbv zeta. fold params.
    destruct Href as [Hrepo|repo0 e Hrepo Hroute _|repo0 url Hrepo Hroute Hauth];
      rewrite Hrepo.
    - eexists. repeat split.
    - unfold bind at 1. unfold getw. rewrite get_route_check, Hroute.
      eexists. repeat split.
    - unfold bind at 1. unfold getw. rewrite get_route_check, Hroute.
      rewrite bind_lift_inr, bind_log, Hauth. eexists. repeat split. }
  destruct H as (w' & -> & Ht & Hh & Hs & Hf). cbn [fst snd]. auto.
Qed.

Lemma get_refused_is_inert_witness :
  fst (RestRequest.get example_github two_page_server 5 example_rest
         "/repos/{owner}/{repo}/code-scanning/alerts/{alert_number}"
         (Some 2%positive) 200 false caller_world) = Raise (KeyError "alert_number")
  /\ traffic (snd (RestRequest.get example_github two_page_server 5 example_rest
                     "/repos/{owner}/{repo}/code-scanning/alerts/{alert_number}"
                     (Some 2%positive) 200 false caller_world))
     = traffic caller_world
  /\ heap (snd (RestRequest.get example_github two_page_server 5 example_rest
                  "/repos/{owner}/{repo}/code-scanning/alerts/{alert_number}"
                  (Some 2%positive) 200 false caller_world))
     = heap caller_world
  /\ sessions (snd (RestRequest.get example_github two_page_server 5 example_rest
                      "/repos/{owner}/{repo}/code-scanning/alerts/{alert_number}"
                      (Some 2%positive) 200 false caller_world))
     = sessions caller_world
  /\ files (snd (RestRequest.get example_github two_page_server 5 example_rest
                   "/repos/{owner}/{repo}/code-scanning/alerts/{alert_number}"
                   (Some 2%positive) 200 false caller_world))
     = files caller_world.
Proof.
  refine (get_refused_is_inert example_github two_page_server 5 example_rest
            "/repos/{owner}/{repo}/code-scanning/alerts/{alert_number}"
            (Some 2%positive) 200 false caller_world (KeyError "alert_number") _).
  apply (refused_route _ _ _ _ _ _ example_repository).
  - reflexivity.
  - vm_compute; reflexivity.
  - discriminate.
Defined.

Lemma page_requests_same url d1 d2 hdrs page n :
  same_but_page d1 d2 ->
  page_requests url d1 hdrs page n = page_requests url d2 hdrs page n.
Proof.
  intros H. revert page. induction n as [|n IH]; intros page; [reflexivity|].
  cbn [page_requests]. now rewrite (page_request_same _ _ _ _ _ H), IH.
Qed.

Lemma page_requests_lookup url d hdrs page n (i : nat) r :
  page_requests url d hdrs page n !! i = Some r ->
  r = page_request url d hdrs (page + Z.of_nat i).
Proof.
  revert page i. induction n as [|n IH]; intros page i H; [discriminate|].
  destruct i as [|i]; cbn in H.
  - injection H as <-. now rewrite Z.add_0_r.
  - apply IH in H. subst r. f_equal. lia.
Qed.

(** The requests of the loop, whatever the server answers and however the
    loop ends: those for consecutive pages from [page] on. *)
Lemma get_loop_trace srv self url params expected fuel :
  forall page result w,
    (0 < fuel)%nat ->
    exists n : nat,
      (1 <= n)%nat
      /\ traffic (snd (RestRequest.get_loop srv fuel self url params expected page result w))
         = traffic w
           ++ page_requests url (deref w params) (headers w (RestRequest.session self))
                page n.
Proof.
  induction fuel as [|fuel IH]; intros page result w Hfuel; [lia|].
  rewrite get_loop_step. cbv zeta.
  set (s := RestRequest.session self).
  set (w1 := after_request s params url page w).
  assert (Hone : forall w', traffic w' = traffic w1 ->
             exists n : nat, (1 <= n)%nat
               /\ traffic w' = traffic w ++ page_requests url (deref w params) (headers w s) page n).
  { intros w' Hw'. exists 1%nat. split; [lia|]. rewrite Hw'. reflexivity. }
  assert (Hrec : forall result',
             exists n : nat, (1 <= n)%nat
               /\ traffic (snd (RestRequest.get_loop srv fuel self url params expected
                                  (page + 1) result' w1))
                  = traffic w ++ page_requests url (deref w params) (headers w s) page n).
  { intros result'. destruct fuel as [|fuel'].
    - apply Hone. reflexivity.
    - destruct (IH (page + 1) result' w1 ltac:(lia)) as (n & Hn & Ht).
      exists (S n). split; [lia|]. rewrite Ht.
      unfold w1 at 1 2 3. rewrite traffic_after_request, deref_after_request.
      change (headers (after_request s params url page w) (RestRequest.session self))
        with (headers w s).
      rewrite (page_requests_same url _ (deref w params))
        by (unfold same_but_page; apply delete_insert_eq).
      now rewrite <- app_assoc. }
  destruct (json (answer srv s params url page w)) as [j|]; [|now apply Hone].
  destruct (negb (status_code _ =? expected)).
  - rewrite !bind_log.
    destruct (__OCTOKIT_ERRORS__ !! _) as [known|]; [destruct (negb _)|];
      now apply Hone.
  - destruct j as [| b | z | str | l | kvs].
    + now apply Hone.
    + now apply Hone.
    + now apply Hone.
    + cbn [iterate py_len]. rewrite !bind_lift_inr.
      destruct (_ <? _); [now apply Hone | apply Hrec].
    + cbn [iterate py_len]. rewrite !bind_lift_inr.
      destruct (_ <? _); [now apply Hone | apply Hrec].
    + destruct (truthy _); [rewrite bind_log|]; now apply Hone.
Qed.

(** X5.  Whatever the server answers and however the call ends, a call of
    [get] that passes the checks sends at least one request, and its
    requests are GETs to the one resolved URL with the session's headers,
    carrying [per_page = 100], the page indices 1, 2, 3, ... in order, and
    the caller's other parameters unchanged. *)
Theorem get_request_sequence (G : GitHub) (srv : server) (fuel : nat)
    (self : RestRequest.t) (path : string) (parameters : option loc)
    (expected : Z) (authenticated : bool) (w : world) (url : string) :
  let params := default get_defaults parameters in
  let w' := snd (RestRequest.get G srv fuel self path parameters expected authenticated w) in
  passes_checks G self path params authenticated w url ->
  (0 < fuel)%nat ->
  exists sent : list request,
    traffic w' = traffic w ++ sent
    /\ (1 <= length sent)%nat
    /\ forall (i : nat) r,
        sent !! i = Some r ->
        req_method r = GET
        /\ req_url r = url
        /\ req_headers r = headers w (RestRequest.session self)
        /\ req_json r = None
        /\ req_params r !! "per_page" = Some (VInt 100)
        /\ req_params r !! "page" = Some (VInt (1 + Z.of_nat i))
        /\ forall key, key <> "page" -> key <> "per_page" ->
                       req_params r !! key = deref w params !! key.
Proof.
  intros params w' Hchk Hfuel. subst w'.
  rewrite (get_enters_loop _ _ _ _ _ _ _ _ _ _ Hchk). fold params.
  destruct (get_loop_trace srv self url params expected fuel 1 []
              (entered params url w) Hfuel) as (n & Hn & Ht).
  rewrite deref_entered in Ht.
  eexists. split; [exact Ht|]. split; [now rewrite length_page_requests|].
  intros i r Hi. apply page_requests_lookup in Hi. subst r.
  unfold page_request. cbn [req_method req_url req_headers req_json req_params].
  repeat split.
  - rewrite lookup_insert_ne, lookup_insert_eq by discriminate. reflexivity.
  - now rewrite lookup_insert_eq.
  - intros key Hp Hpp. now rewrite !lookup_insert_ne by congruence.
Qed.

Lemma get_request_sequence_witness :
  exists sent : list request,
    traffic (snd (RestRequest.get example_github two_page_server 5 example_rest
                    "/orgs/{org}/code-scanning/alerts" (Some 2%positive) 200 true
                    caller_world))
    = traffic caller_world ++ sent
    /\ (1 <= length sent)%nat
    /\ forall (i : nat) r,
        sent !! i = Some r ->
        req_method r = GET
        /\ req_url r = "https://api.github.com/orgs/A/code-scanning/alerts"
        /\ req_headers r = headers caller_world (RestRequest.session example_rest)
        /\ req_json r = None
        /\ req_params r !! "per_page" = Some (VInt 100)
        /\ req_params r !! "page" = Some (VInt (1 + Z.of_nat i))
        /\ forall key, key <> "page" -> key <> "per_page" ->
                       req_params r !! key = deref caller_world 2%positive !! key.
Proof.
  refine (get_request_sequence example_github two_page_server 5 example_rest
            "/orgs/{org}/code-scanning/alerts" (Some 2%positive) 200 true caller_world
            "https://api.github.com/orgs/A/code-scanning/alerts" _ _).
  - exists example_repository. repeat split; vm_compute; reflexivity.
  - lia.
Defined.

Lemma get_files G srv fuel self path parameters expected authenticated w :
  files (snd (RestRequest.get G srv fuel self path parameters expected authenticated w))
  = files w.
Proof.
  unfold RestRequest.get. cbv zeta.
  destruct (RestRequest.or_else _ _) as [repo0|]; [|reflexivity].
  unfold bind at 1. unfold getw.
  destruct (if kwargs_clash _ _ then _ else _) as [e|url]; [reflexivity|].
  rewrite bind_lift_inr, bind_log.
  destruct (authenticated && _); [reflexivity|].
  unfold bind, dict_set, modify.
  destruct fuel as [|fuel]; [reflexivity|].
  match goal with
  | |- files (snd (RestRequest.get_loop ?srv ?f ?self ?url ?p ?e ?pg ?r ?w0)) = _ =>
      destruct (get_loop_footprint srv self url p e f pg r w0 ltac:(lia))
        as (n & _ & _ & _ & _ & Hf)
  end.
  rewrite Hf. reflexivity.
Qed.

Lemma get_other_dicts G srv fuel self path parameters expected authenticated w l :
  l <> default get_defaults parameters ->
  heap (snd (RestRequest.get G srv fuel self path parameters expected authenticated w)) !! l
  = heap w !! l.
Proof.
  intros Hl. unfold RestRequest.get. cbv zeta.
  destruct (RestRequest.or_else _ _) as [repo0|]; [|reflexivity].
  unfold bind at 1. unfold getw.
  destruct (if kwargs_clash _ _ then _ else _) as [e|url]; [reflexivity|].
  rewrite bind_lift_inr, bind_log.
  destruct (authenticated && _); [reflexivity|].
  unfold bind, dict_set, modify.
  destruct fuel as [|fuel].
  - cbn. now rewrite lookup_insert_ne by congruence.
  - match goal with
    | |- heap (snd (RestRequest.get_loop ?srv ?f ?self ?url ?p ?e ?pg ?r ?w0)) !! _ = _ =>
        destruct (get_loop_footprint srv self url p e f pg r w0 ltac:(lia))
          as (n & _ & Hh & _)
    end.
    rewrite Hh, lookup_insert_ne by congruence. cbn.
    now rewrite lookup_insert_ne by congruence.
Qed.

(** X6.  No call of [get], however it ends, changes a session's headers,
    a file, or a dictionary other than the one passed as [parameters]. *)
Theorem get_frame (G : GitHub) (srv : server) (fuel : nat)
    (self : RestRequest.t) (path : string) (parameters : option loc)
    (expected : Z) (authenticated : bool) (w : world) :
  let params := default get_defaults parameters in
  let w' := snd (RestRequest.get G srv fuel self path parameters expected authenticated w) in
  sessions w' = sessions w
  /\ files w' = files w
  /\ forall l, l <> params -> heap w' !! l = heap w !! l.
Proof.
  intros params w'. split; [apply get_sessions|]. split; [apply get_files|].
  intros l Hl. now apply get_other_dicts.
Qed.

(** ** [postJson] and [query], case by case *)

(** X7.  Once a repository is available and the path resolves without
    caller-supplied names, [postJson] sends exactly one POST, with the data
    as JSON payload and no query parameters, and changes no dictionary or
    session.  It returns the decoded body when the status is the expected
    one (the decoding error when the body is not JSON); any other status
    raises, [Authentication Issue] for 401 and [Failed to post data]
    otherwise, without decoding the body. *)
Theorem postJson_outcome (G : GitHub) (srv : server) (self : RestRequest.t)
    (path : string) (data : value) (expected : Z) (w : world)
    (repo0 : Repository) (url : string) :
  let req := mkRequest POST url ∅ (headers w (RestRequest.session self)) (Some data) in
  let r := srv (traffic w) req in
  let run := RestRequest.postJson G srv self path data expected w in
  RestRequest.or_else (RestRequest.repository self) (GitHub_repository G) = Some repo0 ->
  Octokit.route G path repo0 "rest" ∅ = inr url ->
  traffic (snd run) = traffic w ++ [req]
  /\ heap (snd run) = heap w
  /\ sessions (snd run) = sessions w
  /\ fst run
     = if status_code r =? expected then
         match json r with
         | Some v => Ret v
         | None => Raise JSONDecodeError
         end
       else if status_code r =? 401 then Raise (Exception "Authentication Issue")
       else Raise (Exception "Failed to post data").
Proof.
  intros req r run Hrepo Hroute.
  assert (H : exists w', run
                = (if status_code r =? expected then
                     match json r with
                     | Some v => Ret v
                     | None => Raise JSONDecodeError
                     end
                   else if status_code r =? 401
                        then Raise (Exception "Authentication Issue")
                        else Raise (Exception "Failed to post data"), w')
                /\ traffic w' = traffic w ++ [req] /\ heap w' = heap w
                /\ sessions w' = sessions w).
  { subst run. unfold RestRequest.postJson. rewrite Hrepo, Hroute.
    rewrite bind_lift_inr, bind_log, bind_session_post.
    change (headers (set_logged _ w) (RestRequest.session self))
      with (headers w (RestRequest.session self)).
    cbn [traffic set_logged]. fold req. fold r.
    destruct (status_code r =? expected) eqn:Hs; cbn [negb].
    - unfold response_json. destruct (json r); eexists; repeat split.
    - rewrite bind_log. unfold __OCTOKIT_ERRORS__.
      destruct (status_code r =? 401) eqn:H401.
      + apply Z.eqb_eq in H401. rewrite H401, lookup_singleton_eq.
        eexists; repeat split.
      + apply Z.eqb_neq in H401. rewrite lookup_singleton_ne by congruence.
        eexists; repeat split. }
  destruct H as (w' & -> & Ht & Hh & Hss). cbn [fst snd]. auto.
Qed.

Lemma postJson_outcome_witness :
  traffic (snd (RestRequest.postJson example_github sarif_server example_rest
                  "/repos/{owner}/{repo}/code-scanning/sarifs" (VDict []) 200
                  example_world))
  = traffic example_world
    ++ [mkRequest POST "https://api.github.com/repos/A/B/code-scanning/sarifs" ∅
          (headers example_world (RestRequest.session example_rest)) (Some (VDict []))]
  /\ heap (snd (RestRequest.postJson example_github sarif_server example_rest
                  "/repos/{owner}/{repo}/code-scanning/sarifs" (VDict []) 200
                  example_world))
     = heap example_world
  /\ sessions (snd (RestRequest.postJson example_github sarif_server example_rest
                      "/repos/{owner}/{repo}/code-scanning/sarifs" (VDict []) 200
                      example_world))
     = sessions example_world
  /\ fst (RestRequest.postJson example_github sarif_server example_rest
            "/repos/{owner}/{repo}/code-scanning/sarifs" (VDict []) 200 example_world)
     = Ret (VDict [("version", VStr "2.1.0")]).
Proof.
  exact (postJson_outcome example_github sarif_server example_rest
           "/repos/{owner}/{repo}/code-scanning/sarifs" (VDict []) 200 example_world
           example_repository "https://api.github.com/repos/A/B/code-scanning/sarifs"
           eq_refl eq_refl).
Defined.

Lemma query_sends G srv substitute self name options w query_content q :
  GraphQLRequest.queries self !! name = Some query_content ->
  query_content <> "" ->
  kwargs_clash ["self"; "query"] options = false ->
  substitute query_content options = inr q ->
  GraphQLRequest.query G srv substitute self name options w
  = (let req := graphql_request G (headers w (GraphQLRequest.session self)) q in
     let r := srv (traffic w) req in
     if negb (status_code r =? 200) then
       log ERROR "GraphQL API Status :: " (ArgInt (status_code r)) ;;;
       log ERROR "GraphQL Content :: " (ArgStr (content r)) ;;;
       raise (Exception "Failed to get data from GraphQL API")
     else
       rjson <- response_json r ;;
       match rjson with
       | VDict kvs =>
           (if truthy (get_or_none "errors" kvs) then
              errs <- lift (iterate (get_or_none "errors" kvs)) ;;
              GraphQLRequest.warn_all errs
            else ret tt) ;;;
           ret rjson
       | _ => raise AttributeError
       end)
      (set_traffic
         (traffic w ++ [graphql_request G (headers w (GraphQLRequest.session self)) q]) w).
Proof.
  intros Hq Hne Hclash Hsub. unfold GraphQLRequest.query. rewrite Hq.
  apply String.eqb_neq in Hne. rewrite Hne.
  rewrite (formatQuery_substitutes _ _ _ _ Hclash Hsub).
  rewrite bind_lift_inr, bind_session_post. reflexivity.
Qed.

(** What stops [query] before the request: an option named as a parameter
    of [formatQuery], or a substitution that fails. *)
Lemma query_stops G srv substitute self name options w query_content e :
  GraphQLRequest.queries self !! name = Some query_content ->
  query_content <> "" ->
  GraphQLRequest.formatQuery substitute query_content options = inl e ->
  GraphQLRequest.query G srv substitute self name options w = (Raise e, w).
Proof.
  intros Hq Hne Hf. unfold GraphQLRequest.query. rewrite Hq.
  apply String.eqb_neq in Hne. rewrite Hne, Hf. reflexivity.
Qed.

(** X8.  For a loaded query: an option named [self] or [query] makes
    [query] raise [TypeError], and a failing substitution its own
    exception, both before anything is sent.  When the options name
    neither and substitute, [query] posts the query text once to the
    GraphQL origin.  A status other than 200 raises the
    failed-to-get-data exception after logging the status and the raw
    content as errors; a 200 body that is not JSON raises the decoding
    error; a 200 body that decodes to something other than an object
    raises [AttributeError]; a 200 object whose [errors] member is absent
    or false is returned as it is, with nothing logged. *)
Theorem query_outcomes (G : GitHub) (srv : server)
    (substitute : string -> gmap string value -> exn + string)
    (self : GraphQLRequest.t) (name : string) (options : gmap string value)
    (w : world) (query_content q : string) :
  let req := graphql_request G (headers w (GraphQLRequest.session self)) q in
  let r := srv (traffic w) req in
  let sent := set_traffic (traffic w ++ [req]) w in
  let run := GraphQLRequest.query G srv substitute self name options w in
  GraphQLRequest.queries self !! name = Some query_content ->
  query_content <> "" ->
  (kwargs_clash ["self"; "query"] options = true -> run = (Raise TypeError, w))
  /\ (forall e,
         kwargs_clash ["self"; "query"] options = false ->
         substitute query_content options = inl e ->
         run = (Raise e, w))
  /\ (kwargs_clash ["self"; "query"] options = false ->
      substitute query_content options = inr q ->
      (status_code r <> 200 ->
       run = (Raise (Exception "Failed to get data from GraphQL API"),
              set_logged
                (logged w ++ [mkLog ERROR "GraphQL API Status :: " (ArgInt (status_code r));
                              mkLog ERROR "GraphQL Content :: " (ArgStr (content r))])
                sent))
      /\ (status_code r = 200 -> json r = None -> run = (Raise JSONDecodeError, sent))
      /\ (forall body,
             status_code r = 200 -> json r = Some body -> is_dict body = false ->
             run = (Raise AttributeError, sent))
      /\ (forall kvs,
             status_code r = 200 -> json r = Some (VDict kvs) ->
             truthy (get_or_none "errors" kvs) = false ->
             run = (Ret (VDict kvs), sent))).
Proof.
  intros req r sent run Hq Hne. subst run.
  split; [|split].
  { intros Hclash. apply (query_stops _ _ _ _ _ _ _ _ _ Hq Hne).
    unfold GraphQLRequest.formatQuery. now rewrite Hclash. }
  { intros e Hclash Hsub. apply (query_stops _ _ _ _ _ _ _ _ _ Hq Hne).
    unfold GraphQLRequest.formatQuery. now rewrite Hclash. }
  intros Hclash Hsub.
  rewrite (query_sends _ _ _ _ _ _ _ _ _ Hq Hne Hclash Hsub). cbv zeta.
  fold req. fold r. fold sent.
  split; [|split; [|split]].
  - intros Hs. replace (status_code r =? 200) with false
      by (symmetry; now apply Z.eqb_neq).
    cbn [negb]. rewrite !bind_log. unfold raise, sent.
    cbn [logged set_logged set_traffic traffic heap sessions files].
    now rewrite <- app_assoc.
  - intros Hs Hj. rewrite Hs. cbn [Z.eqb Pos.eqb negb].
    now rewrite bind_response_json, Hj.
  - intros body Hs Hj Hd. rewrite Hs. cbn [Z.eqb Pos.eqb negb].
    rewrite bind_response_json, Hj. destruct body; try discriminate; reflexivity.
  - intros kvs Hs Hj He. rewrite Hs. cbn [Z.eqb Pos.eqb negb].
    rewrite bind_response_json, Hj, He. reflexivity.
Qed.

Lemma query_outcomes_witness :
  GraphQLRequest.query example_github not_found_server (fun q _ => inr q)
    example_graphql "GetAlerts" ∅ example_world
  = (Raise (Exception "Failed to get data from GraphQL API"),
     set_logged
       (logged example_world
        ++ [mkLog ERROR "GraphQL API Status :: " (ArgInt 404);
            mkLog ERROR "GraphQL Content :: " (ArgStr "")])
       (set_traffic
          (traffic example_world
           ++ [graphql_request example_github example_headers "query { repository }"])
          example_world))
  /\ GraphQLRequest.query example_github
       (constant_server 200 (Some (VDict [("data", VDict [])]))) (fun q _ => inr q)
       example_graphql "GetAlerts" ∅ example_world
     = (Ret (VDict [("data", VDict [])]),
        set_traffic
          (traffic example_world
           ++ [graphql_request example_github example_headers "query { repository }"])
          example_world)
  /\ GraphQLRequest.query example_github not_found_server (fun q _ => inr q)
       example_graphql "GetAlerts" (<["query" := VStr "x"]> ∅) example_world
     = (Raise TypeError, example_world).
Proof.
  split; [|split].
  - refine (proj1 (proj2 (proj2
              (query_outcomes example_github not_found_server (fun q _ => inr q)
                 example_graphql "GetAlerts" ∅ example_world
                 "query { repository }" "query { repository }" _ _)) _ _) _).
    + vm_compute; reflexivity.
    + discriminate.
    + reflexivity.
    + reflexivity.
    + cbn. lia.
  - refine (proj2 (proj2 (proj2
              (proj2 (proj2
                 (query_outcomes example_github
                    (constant_server 200 (Some (VDict [("data", VDict [])])))
                    (fun q _ => inr q) example_graphql "GetAlerts" ∅ example_world
                    "query { repository }" "query { repository }" _ _)) _ _)))
              [("data", VDict [])] _ _ _).
    + vm_compute; reflexivity.
    + discriminate.
    + reflexivity.
    + reflexivity.
    + reflexivity.
    + reflexivity.
    + reflexivity.
  - refine (proj1 (query_outcomes example_github not_found_server (fun q _ => inr q)
                     example_graphql "GetAlerts" (<["query" := VStr "x"]> ∅)
                     example_world "query { repository }" "query { repository }" _ _) _).
    + vm_compute; reflexivity.
    + discriminate.
    + vm_compute; reflexivity.
Defined.

Lemma warn_all_stops pre bad post w :
  forallb is_dict pre = true ->
  is_dict bad = false ->
  GraphQLRequest.warn_all (pre ++ bad :: post) w
  = (Raise AttributeError, set_logged (logged w ++ map warning_of pre) w).
Proof.
  revert w. induction pre as [|err pre IH]; intros w Hpre Hbad.
  - cbn [app map GraphQLRequest.warn_all]. rewrite app_nil_r.
    destruct bad; try discriminate; now destruct w.
  - cbn [forallb] in Hpre. apply andb_true_iff in Hpre as [He Hr].
    destruct err; try discriminate.
    cbn [app GraphQLRequest.warn_all]. rewrite bind_log, (IH _ Hr Hbad).
    cbn. now rewrite <- app_assoc.
Qed.

(** X9.  For a loaded query whose options name neither [self] nor [query]
    and substitute: when the [errors] array of the 200 response holds an
    element that is not an object, [query] raises [AttributeError] at that
    element and returns no body; the warnings for the elements before it
    have been logged, none for those after it. *)
Theorem query_error_not_object (G : GitHub) (srv : server)
    (substitute : string -> gmap string value -> exn + string)
    (self : GraphQLRequest.t) (name : string) (options : gmap string value)
    (w : world) (query_content q : string) (kvs : list (string * value))
    (pre post : list value) (bad : value) :
  let req := graphql_request G (headers w (GraphQLRequest.session self)) q in
  GraphQLRequest.queries self !! name = Some query_content ->
  query_content <> "" ->
  kwargs_clash ["self"; "query"] options = false ->
  substitute query_content options = inr q ->
  status_code (srv (traffic w) req) = 200 ->
  json (srv (traffic w) req) = Some (VDict kvs) ->
  get_or_none "errors" kvs = VList (pre ++ bad :: post) ->
  forallb is_dict pre = true ->
  is_dict bad = false ->
  GraphQLRequest.query G srv substitute self name options w
  = (Raise AttributeError,
     set_logged (logged w ++ map warning_of pre) (set_traffic (traffic w ++ [req]) w)).
Proof.
  intros req Hq Hne Hclash Hsub Hs Hj He Hpre Hbad.
  rewrite (query_sends _ _ _ _ _ _ _ _ _ Hq Hne Hclash Hsub). cbv zeta. fold req.
  rewrite Hs. cbn [Z.eqb Pos.eqb negb].
  rewrite bind_response_json, Hj, He.
  replace (truthy (VList (pre ++ bad :: post))) with true by (now destruct pre).
  cbn [iterate]. rewrite bind_bind, bind_lift_inr.
  unfold bind. rewrite (warn_all_stops _ _ _ _ Hpre Hbad). reflexivity.
Qed.

Lemma query_error_not_object_witness :
  GraphQLRequest.query example_github
    (constant_server 200
       (Some (VDict [("errors", VList [VDict [("message", VStr "first")];
                                       VStr "second";
                                       VDict [("message", VStr "third")]])])))
    (fun q _ => inr q) example_graphql "GetAlerts" ∅ example_world
  = (Raise AttributeError,
     set_logged
       (logged example_world ++ map warning_of [VDict [("message", VStr "first")]])
       (set_traffic
          (traffic example_world
           ++ [graphql_request example_github example_headers "query { repository }"])
          example_world)).
Proof.
  refine (query_error_not_object example_github _ (fun q _ => inr q) example_graphql
            "GetAlerts" ∅ example_world "query { repository }" "query { repository }"
            [("errors", VList [VDict [("message", VStr "first")];
                               VStr "second";
                               VDict [("message", VStr "third")]])]
            [VDict [("message", VStr "first")]] [VDict [("message", VStr "third")]]
            (VStr "second") _ _ _ _ _ _ _ _ _).
  - vm_compute; reflexivity.
  - discriminate.
  - reflexivity.
  - reflexivity.
  - reflexivity.
  - reflexivity.
  - reflexivity.
  - reflexivity.
  - reflexivity.
Defined.

(** ** Loading GraphQL queries *)

Lemma split_last_dot_join file before after :
  GraphQLRequest.split_last_dot file = Some (before, after) ->
  file = before +:+ String "." after.
Proof.
  revert before after. induction file as [|c file IH]; intros before after H;
    [discriminate|].
  cbn [GraphQLRequest.split_last_dot] in H.
  destruct (GraphQLRequest.split_last_dot file) as [[b a]|].
  - injection H as <- <-. rewrite append_cons. f_equal. now apply IH.
  - destruct (Ascii.eqb c ".") eqn:Hc; [|discriminate].
    injection H as <- <-. apply Ascii.eqb_eq in Hc. now subst c.
Qed.

Lemma split_last_dot_graphql name :
  GraphQLRequest.split_last_dot (name +:+ ".graphql") = Some (name, "graphql").
Proof.
  induction name as [|c name IH]; [reflexivity|].
  rewrite append_cons. cbn [GraphQLRequest.split_last_dot]. now rewrite IH.
Qed.

(** X10.  [loadQueries] recognises a file exactly when its name is a key
    followed by [.graphql], where the key does not consist of dots only
    (so a file named just [.graphql] is passed over); that key, the name
    without its last extension, is the name of the query. *)
Theorem splitext_graphql (file name : string) :
  GraphQLRequest.splitext file = (name, ".graphql")
  <-> file = name +:+ ".graphql" /\ GraphQLRequest.only_dots name = false.
Proof.
  unfold GraphQLRequest.splitext. split.
  - destruct (GraphQLRequest.split_last_dot file) as [[b a]|] eqn:Hs;
      [|intros H; discriminate].
    destruct (GraphQLRequest.only_dots b) eqn:Hd; [intros H; discriminate|].
    intros H. injection H as <- <-. split; [|exact Hd].
    now apply split_last_dot_join.
  - intros [-> Hd]. now rewrite split_last_dot_graphql, Hd.
Qed.

Lemma bind_Ret_inv {A B} (m : M A) (k : A -> M B) w b :
  fst (bind m k w) = Ret b ->
  exists a w1, m w = (Ret a, w1) /\ fst (k a w1) = Ret b.
Proof.
  unfold bind. destruct (m w) as [[a|e|] w1]; cbn; intros H; try discriminate.
  eauto.
Qed.

Lemma bind_ext {A B} (m : M A) (k k' : A -> M B) w :
  (forall a w1, k a w1 = k' a w1) -> bind m k w = bind m k' w.
Proof. intros H. unfold bind. destruct (m w) as [[a|e|] w1]; auto. Qed.

Section FileSystem.

Variable isdir : string -> bool.
Variable listdir : string -> exn + list string.
Variable read : string -> exn + string.

Lemma loadQueries_app pre post :
  forall q w,
    GraphQLRequest.loadQueries isdir listdir read q (pre ++ post) w
    = bind (GraphQLRequest.loadQueries isdir listdir read q pre)
        (fun q1 => GraphQLRequest.loadQueries isdir listdir read q1 post) w.
Proof.
  induction pre as [|p pre IH]; intros q w; [reflexivity|].
  cbn [app GraphQLRequest.loadQueries].
  destruct (negb (isdir p)); [apply IH|].
  rewrite bind_bind. apply bind_ext. intros fs w1.
  rewrite bind_bind. apply bind_ext. intros q1 w2. apply IH.
Qed.

(** Files that do not carry the key leave its entry alone. *)
Lemma load_files_preserves path name :
  forall files0 q w q',
    fst (GraphQLRequest.load_files read path files0 q w) = Ret q' ->
    (forall f, f ∈ files0 -> GraphQLRequest.splitext f <> (name, ".graphql")) ->
    q' !! name = q !! name.
Proof.
  induction files0 as [|file rest IH]; intros q w q' Hrun Hother.
  - cbn in Hrun. now injection Hrun as <-.
  - cbn [GraphQLRequest.load_files] in Hrun.
    assert (Hhead := Hother file ltac:(left)).
    assert (Hrest : forall f, f ∈ rest -> GraphQLRequest.splitext f <> (name, ".graphql"))
      by (intros f Hf; apply Hother; now right).
    destruct (GraphQLRequest.splitext file) as [n e].
    destruct (String.eqb e ".graphql") eqn:He; cbn [negb] in Hrun.
    + apply String.eqb_eq in He. subst e.
      destruct (read (GraphQLRequest.join path file)) as [err|data];
        [cbn in Hrun; discriminate|].
      rewrite bind_lift_inr, bind_log in Hrun.
      rewrite (IH _ _ _ Hrun Hrest). apply lookup_insert_ne. congruence.
    + exact (IH _ _ _ Hrun Hrest).
Qed.

(** In a listing without repetition, the file of a key decides its
    entry. *)
Lemma load_files_sets path name data :
  forall files0 q w q',
    fst (GraphQLRequest.load_files read path files0 q w) = Ret q' ->
    NoDup files0 ->
    name +:+ ".graphql" ∈ files0 ->
    GraphQLRequest.only_dots name = false ->
    read (GraphQLRequest.join path (name +:+ ".graphql")) = inr data ->
    q' !! name = Some data.
Proof.
  induction files0 as [|file rest IH]; intros q w q' Hrun Hnd Hin Hdots Hread.
  - now apply elem_of_nil in Hin.
  - apply NoDup_cons in Hnd as [Hnotin Hnd].
    cbn [GraphQLRequest.load_files] in Hrun.
    destruct (decide (file = name +:+ ".graphql")) as [->|Hne].
    + rewrite (proj2 (splitext_graphql _ name) (conj eq_refl Hdots)) in Hrun.
      change (negb (String.eqb ".graphql" ".graphql")) with false in Hrun.
      cbv iota beta in Hrun.
      rewrite Hread, bind_lift_inr, bind_log in Hrun.
      rewrite (load_files_preserves _ name _ _ _ _ Hrun).
      * apply lookup_insert_eq.
      * intros f Hf Hsplit. apply splitext_graphql in Hsplit as [-> _]. contradiction.
    + apply elem_of_cons in Hin as [Heq|Hin]; [congruence|].
      destruct (GraphQLRequest.splitext file) as [n e].
      destruct (negb (String.eqb e ".graphql")); [now apply (IH _ _ _ Hrun)|].
      destruct (read (GraphQLRequest.join path file)) as [err|data'];
        [cbn in Hrun; discriminate|].
      rewrite bind_lift_inr, bind_log in Hrun. now apply (IH _ _ _ Hrun).
Qed.

(** X11.  When the same query name is found in several directories, the
    last directory of [paths] wins: after a load that succeeds, the entry
    of a key is the content of its file in the last directory, whatever
    the earlier directories held. *)
Theorem loadQueries_last_wins (pre : list string) (dir : string)
    (files0 : list string) (name data : string)
    (q q' : gmap string string) (w : world) :
  fst (GraphQLRequest.loadQueries isdir listdir read q (pre ++ [dir]) w) = Ret q' ->
  isdir dir = true ->
  listdir dir = inr files0 ->
  NoDup files0 ->
  name +:+ ".graphql" ∈ files0 ->
  GraphQLRequest.only_dots name = false ->
  read (GraphQLRequest.join dir (name +:+ ".graphql")) = inr data ->
  q' !! name = Some data.
Proof.
  intros Hrun Hdir Hlist Hnd Hin Hdots Hread.
  rewrite loadQueries_app in Hrun.
  apply bind_Ret_inv in Hrun as (q1 & w1 & _ & Hrun).
  cbn [GraphQLRequest.loadQueries] in Hrun. rewrite Hdir, Hlist in Hrun.
  cbn [negb] in Hrun. rewrite bind_lift_inr in Hrun.
  apply bind_Ret_inv in Hrun as (q2 & w2 & Hload & Hret).
  cbn in Hret. injection Hret as <-.
  apply (load_files_sets dir name data files0 q1 w1); try assumption.
  now rewrite Hload.
Qed.

(** X12.  An instance built while the default query directory does not
    exist has no query: [query] then returns the empty object for every
    name, and nothing is sent. *)
Theorem query_without_directory (G : GitHub) (srv : server)
    (substitute : string -> gmap string value -> exn + string)
    (octokit_path : string) (repository0 : option Repository)
    (name : string) (options : gmap string value) (w : world) :
  let run := (self <- GraphQLRequest.init isdir listdir read G octokit_path repository0 ;;
              GraphQLRequest.query G srv substitute self name options) w in
  isdir (GraphQLRequest.join octokit_path "graphql") = false ->
  fst run = Ret (VDict []) /\ traffic (snd run) = traffic w.
Proof.
  intros run Hdir. subst run. unfold GraphQLRequest.init.
  rewrite bind_bind. unfold bind at 1. unfold new_session.
  cbn [GraphQLRequest.loadQueries]. rewrite Hdir. cbn [negb].
  rewrite bind_bind, !bind_ret.
  unfold GraphQLRequest.query. cbn [GraphQLRequest.queries].
  rewrite lookup_empty. split; reflexivity.
Qed.

End FileSystem.

(** A file system with two query directories that both hold
    [GetAlerts.graphql]. *)
Lemma loadQueries_last_wins_witness :
  fst (GraphQLRequest.loadQueries two_dirs_isdir two_dirs_listdir two_dirs_read ∅
         ["/a"; "/b"] example_world)
  = Ret (<["GetAlerts" := "query B"]> (<["Other" := "query O"]> ∅))
  /\ (<["GetAlerts" := "query B"]> (<["Other" := "query O"]> ∅) : gmap string string)
     !! "GetAlerts" = Some "query B".
Proof.
  split; [vm_compute; reflexivity|].
  refine (loadQueries_last_wins two_dirs_isdir two_dirs_listdir two_dirs_read
            ["/a"] "/b" [".graphql"; "GetAlerts.graphql"; "notes.txt"] "GetAlerts"
            "query B" ∅ _ example_world _ _ _ _ _ _ _).
  - vm_compute; reflexivity.
  - reflexivity.
  - reflexivity.
  - apply (bool_decide_unpack _). vm_compute. exact I.
  - apply (bool_decide_unpack _). vm_compute. exact I.
  - reflexivity.
  - reflexivity.
Defined.

Lemma query_without_directory_witness :
  fst ((self <- GraphQLRequest.init (fun _ => false) two_dirs_listdir two_dirs_read
                  example_github "/opt/ghastoolkit/octokit" None ;;
        GraphQLRequest.query example_github sarif_server (fun q _ => inr q) self
          "GetAlerts" ∅) example_world)
  = Ret (VDict [])
  /\ traffic (snd ((self <- GraphQLRequest.init (fun _ => false) two_dirs_listdir
                              two_dirs_read example_github "/opt/ghastoolkit/octokit" None ;;
                    GraphQLRequest.query example_github sarif_server (fun q _ => inr q)
                      self "GetAlerts" ∅) example_world))
     = traffic example_world.
Proof.
  exact (query_without_directory (fun _ => false) two_dirs_listdir two_dirs_read
           example_github sarif_server (fun q _ => inr q) "/opt/ghastoolkit/octokit"
           None "GetAlerts" ∅ example_world eq_refl).
Defined.

(** ** SARIF identifiers *)

Lemma digit_not_slash c : is_digit c = true -> Ascii.eqb c "/" = false.
Proof.
  intros H. destruct (Ascii.eqb_spec c "/") as [->|]; [discriminate | reflexivity].
Qed.

Lemma digits_no_slash ds :
  all_digits ds = true -> CodeScanning.after_last_slash ds = None.
Proof.
  induction ds as [|c ds IH]; [reflexivity|].
  cbn [all_digits CodeScanning.after_last_slash]. intros H.
  apply andb_true_iff in H as [Hc Hds]. now rewrite (IH Hds), (digit_not_slash _ Hc).
Qed.

Lemma no_slash_after s :
  string_any (fun c => Ascii.eqb c "/") s = false ->
  CodeScanning.after_last_slash s = None.
Proof.
  induction s as [|c s IH]; [reflexivity|].
  cbn [string_any CodeScanning.after_last_slash]. intros H.
  apply orb_false_iff in H as [Hc Hs]. now rewrite (IH Hs), Hc.
Qed.

Lemma after_last_slash_app prefix t :
  CodeScanning.after_last_slash t = None ->
  CodeScanning.after_last_slash (prefix +:+ String "/" t) = Some t.
Proof.
  intros Ht. induction prefix as [|c prefix IH].
  - change ("" +:+ String "/" t) with (String "/" t).
    cbn [CodeScanning.after_last_slash]. now rewrite Ht.
  - rewrite append_cons. cbn [CodeScanning.after_last_slash]. now rewrite IH.
Qed.

Lemma append_slash_not_empty prefix t : String.eqb (prefix +:+ String "/" t) "" = false.
Proof. destruct prefix; reflexivity. Qed.

(** X13.  [getSarifId] reads the identifier from the text after the last
    slash of the URL: a URL without a slash (the empty one included) gives
    [-1]; a URL that ends, after a slash, in ASCII digits gives their
    decimal value, leading zeros allowed; a URL that ends in a slash raises
    [ValueError], as [int] is applied to the empty text. *)
Theorem getSarifId_reads_last_segment :
  (forall url,
      string_any (fun c => Ascii.eqb c "/") url = false ->
      CodeScanning.getSarifId url = inr (-1))
  /\ (forall prefix ds,
         ds <> "" ->
         all_digits ds = true ->
         (String.length ds <= 4300)%nat ->
         CodeScanning.getSarifId (prefix +:+ String "/" ds)
         = inr (CodeScanning.digits_value 0 ds))
  /\ (forall prefix,
         CodeScanning.getSarifId (prefix +:+ "/")
         = inl (ValueError "invalid literal for int() with base 10")).
Proof.
  split; [|split].
  - intros url H. unfold CodeScanning.getSarifId.
    rewrite (no_slash_after _ H). now destruct (negb _).
  - intros prefix ds Hne Hd Hlen. unfold CodeScanning.getSarifId.
    rewrite append_slash_not_empty. cbn [negb].
    rewrite (after_last_slash_app _ _ (digits_no_slash _ Hd)).
    unfold CodeScanning.py_int. apply String.eqb_neq in Hne. rewrite Hne, Hd.
    apply Nat.leb_le in Hlen. now rewrite Hlen.
  - intros prefix. unfold CodeScanning.getSarifId.
    rewrite append_slash_not_empty. cbn [negb].
    now rewrite (after_last_slash_app prefix "" eq_refl).
Qed.

Lemma getSarifId_reads_last_segment_witness :
  CodeScanning.getSarifId "not-a-url" = inr (-1)
  /\ CodeScanning.getSarifId "https://api.github.com/repos/A/B/code-scanning/analyses/0201"
     = inr 201.
Proof.
  split.
  - exact (proj1 getSarifId_reads_last_segment "not-a-url" eq_refl).
  - refine (proj1 (proj2 getSarifId_reads_last_segment)
              "https://api.github.com/repos/A/B/code-scanning/analyses" "0201" _ _ _).
    + discriminate.
    + reflexivity.
    + cbn. lia.
Defined.

(** ** The latest analysis of every tool *)

Lemma key_eqb_set_key a b :
  CodeScanning.hashable a = true ->
  CodeScanning.hashable b = true ->
  CodeScanning.key_eqb a b = true <-> CodeScanning.set_key a = CodeScanning.set_key b.
Proof.
  intros Ha Hb. unfold CodeScanning.key_eqb.
  destruct a as [|[]| | | |], b as [|[]| | | |]; try discriminate;
    cbn [CodeScanning.set_key];
    first [ rewrite Z.eqb_eq; split; [intros ->; reflexivity | intros [=]; assumption]
          | rewrite String.eqb_eq; split; [intros ->; reflexivity | intros [=]; assumption]
          | split; intros H; first [reflexivity | discriminate] ].
Qed.

Lemma existsb_key name tools :
  CodeScanning.hashable name = true ->
  Forall (fun t => CodeScanning.hashable t = true) tools ->
  existsb (CodeScanning.key_eqb name) tools = true
  <-> CodeScanning.set_key name ∈ map CodeScanning.set_key tools.
Proof.
  intros Hn. induction 1 as [|t tools Ht _ IH]; cbn [existsb map].
  - split; [discriminate | intros H; now apply elem_of_nil in H].
  - rewrite orb_true_iff, elem_of_cons, (key_eqb_set_key _ _ Hn Ht), IH. reflexivity.
Qed.

(** The loop of [getLatestAnalyses], from any state in which [tools]
    holds the names of [results]. *)
Lemma latest_loop_inv analyses :
  forall tools results res,
    CodeScanning.latest_loop analyses tools results = inr res ->
    Forall (fun t => CodeScanning.hashable t = true) tools ->
    map CodeScanning.set_key tools = map analysis_name results ->
    NoDup (map analysis_name results) ->
    (exists added, res = results ++ added /\ sublist added analyses)
    /\ NoDup (map analysis_name res)
    /\ forall a, a ∈ analyses -> analysis_name a ∈ map analysis_name res.
Proof.
  induction analyses as [|analysis rest IH]; intros tools results res Hrun Hh Hnames Hnd.
  - cbn in Hrun. injection Hrun as <-. split; [|split].
    + exists []. now rewrite app_nil_r.
    + exact Hnd.
    + intros a Ha. now apply elem_of_nil in Ha.
  - cbn [CodeScanning.latest_loop] in Hrun.
    destruct analysis as [| | | | |kvs]; try discriminate.
    destruct (default (VDict []) (dict_get "tool" kvs)) as [| | | | |tool] eqn:Htool;
      try discriminate.
    set (name := get_or_none "name" tool) in *.
    assert (Hname : analysis_name (VDict kvs) = CodeScanning.set_key name).
    { unfold analysis_name. now rewrite Htool. }
    destruct (CodeScanning.hashable name) eqn:Hhash; cbn [negb] in Hrun;
      [|discriminate].
    destruct (existsb (CodeScanning.key_eqb name) tools) eqn:Hseen.
    + destruct (IH _ _ _ Hrun Hh Hnames Hnd) as ((added & -> & Hsub) & Hnd' & Hall).
      split; [|split].
      * exists added. split; [reflexivity | now apply sublist_cons].
      * exact Hnd'.
      * intros a Ha. apply elem_of_cons in Ha as [->|Ha]; [|now apply Hall].
        rewrite Hname, map_app. apply elem_of_app. left. rewrite <- Hnames.
        now apply existsb_key.
    + assert (Hfresh : CodeScanning.set_key name ∉ map CodeScanning.set_key tools).
      { intros Hin. apply (existsb_key _ _ Hhash Hh) in Hin. congruence. }
      destruct (IH (tools ++ [name]) (results ++ [VDict kvs]) res Hrun)
        as ((added & -> & Hsub) & Hnd' & Hall).
      * apply Forall_app. split; [exact Hh | now repeat constructor].
      * rewrite !map_app, Hnames. cbn [map]. now rewrite Hname.
      * rewrite map_app. cbn [map]. apply NoDup_app. split; [exact Hnd|].
        split; [|apply NoDup_singleton].
        intros x Hx Hx'. apply list_elem_of_singleton in Hx'. subst x.
        rewrite Hname, <- Hnames in Hx. contradiction.
      * split; [|split].
        -- exists (VDict kvs :: added). split; [now rewrite <- app_assoc|].
           now apply sublist_skip.
        -- exact Hnd'.
        -- intros a Ha. apply elem_of_cons in Ha as [->|Ha]; [|now apply Hall].
           rewrite !map_app. apply elem_of_app. left. apply elem_of_app. right.
           cbn [map]. apply list_elem_of_singleton. reflexivity.
Qed.

(** X14.  When the loop of [getLatestAnalyses] runs through, its result
    is a selection of the analyses in their original order, no two of
    which have the same tool name, and every tool name of the input is the
    name of a selected analysis.  (Names are compared as a Python set
    does; an analysis without [tool] or [name] has the name [None].) *)
Theorem latest_one_per_tool (analyses results : list value) :
  CodeScanning.latest_loop analyses [] [] = inr results ->
  sublist results analyses
  /\ NoDup (map analysis_name results)
  /\ forall a, a ∈ analyses -> analysis_name a ∈ map analysis_name results.
Proof.
  intros Hrun.
  destruct (latest_loop_inv analyses [] [] results Hrun)
    as ((added & -> & Hsub) & Hnd & Hall).
  - constructor.
  - reflexivity.
  - constructor.
  - auto.
Qed.

Lemma latest_one_per_tool_witness :
  sublist [analysis_of "CodeQL" 3; analysis_of "ESLint" 2]
    [analysis_of "CodeQL" 3; analysis_of "ESLint" 2; analysis_of "CodeQL" 1]
  /\ NoDup (map analysis_name [analysis_of "CodeQL" 3; analysis_of "ESLint" 2])
  /\ forall a,
      a ∈ [analysis_of "CodeQL" 3; analysis_of "ESLint" 2; analysis_of "CodeQL" 1] ->
      analysis_name a ∈ map analysis_name [analysis_of "CodeQL" 3; analysis_of "ESLint" 2].
Proof.
  exact (latest_one_per_tool
           [analysis_of "CodeQL" 3; analysis_of "ESLint" 2; analysis_of "CodeQL" 1]
           [analysis_of "CodeQL" 3; analysis_of "ESLint" 2] eq_refl).
Defined.

(** ** The analyses endpoint *)

Lemma get_trace G srv fuel self path parameters expected authenticated w url :
  passes_checks G self path (default get_defaults parameters) authenticated w url ->
  (0 < fuel)%nat ->
  exists n : nat,
    (1 <= n)%nat
    /\ traffic (snd (RestRequest.get G srv fuel self path parameters expected
                       authenticated w))
       = traffic w
         ++ page_requests url
              (<["per_page" := VInt 100]> (deref w (default get_defaults parameters)))
              (headers w (RestRequest.session self)) 1 n.
Proof.
  intros Hchk Hfuel. rewrite (get_enters_loop _ _ _ _ _ _ _ _ _ _ Hchk).
  destruct (get_loop_trace srv self url (default get_defaults parameters) expected fuel
              1 [] (entered (default get_defaults parameters) url w) Hfuel)
    as (n & Hn & Ht).
  rewrite deref_entered in Ht. eauto.
Qed.

Lemma bind_snd_pure {A B} (m : M A) (k : A -> M B) w :
  (forall a w1, snd (k a w1) = w1) -> snd (bind m k w) = snd (m w).
Proof. intros H. unfold bind. destruct (m w) as [[a|e|] w1]; cbn; auto. Qed.

(** The analyses route resolves for every repository and every pair of
    values for [tool_name] and [ref]. *)
Lemma analyses_route G r tool ref :
  Octokit.route G "/repos/{org}/{repo}/code-scanning/analyses" r "rest"
    (<["tool_name" := tool]> (<["ref" := ref]> ∅))
  = inr (GitHub_api_rest G +:+ "/repos/" +:+ owner r +:+ "/" +:+ repo r
         +:+ "/code-scanning/analyses").
Proof.
  rewrite route_unfold by (vm_compute; reflexivity).
  change "/repos/{org}/{repo}/code-scanning/analyses" with (template_of analyses_template).
  rewrite (format_substituted _ _
             ("/repos/" +:+ owner r +:+ "/" +:+ repo r +:+ "/code-scanning/analyses" +:+ ""))
    by (first [reflexivity
              | unfold analyses_template;
                repeat first
                  [ apply subst_nil
                  | apply subst_text
                  | apply subst_placeholder;
                    [eexists; split; [vm_compute; reflexivity | reflexivity]|] ]]).
  rewrite append_empty_r. reflexivity.
Qed.

(** X15.  [getAnalyses] asks the analyses endpoint of the instance's
    repository: every request it sends goes to
    [/repos/<owner>/<repo>/code-scanning/analyses] under the REST origin
    and carries [tool_name], and as [ref] the reference given by the caller
    when that is true in the Python sense, the repository's own reference
    otherwise ([None] when it has none).  Whatever the server answers, the
    method never returns anything but a list. *)
Theorem getAnalyses_request (G : GitHub) (srv : server)
    (reference_of : Repository -> option string) (fuel : nat)
    (self : CodeScanning.t) (reference tool : value) (w : world) (r : Repository) :
  let ref := if truthy reference then reference
             else CodeScanning.opt_value (reference_of r) in
  let run := CodeScanning.getAnalyses G srv reference_of fuel self reference tool w in
  RestRequest.repository (CodeScanning.rest self) = Some r ->
  (0 < fuel)%nat ->
  (exists sent : list request,
      traffic (snd run) = traffic w ++ sent
      /\ (1 <= length sent)%nat
      /\ forall (i : nat) req,
          sent !! i = Some req ->
          req_url req
          = GitHub_api_rest G +:+ "/repos/" +:+ owner r +:+ "/" +:+ repo r
            +:+ "/code-scanning/analyses"
          /\ req_params req !! "ref" = Some ref
          /\ req_params req !! "tool_name" = Some tool
          /\ req_params req !! "page" = Some (VInt (1 + Z.of_nat i)))
  /\ match fst run with
     | Ret v => exists l, v = VList l
     | _ => True
     end.
Proof.
  intros ref run Hrepo Hfuel. subst run. unfold CodeScanning.getAnalyses.
  rewrite Hrepo.
  replace (if truthy reference then ret reference
           else ret (CodeScanning.opt_value (reference_of r)))
    with (@ret value ref) by (unfold ref; now destruct (truthy reference)).
  rewrite bind_ret. unfold bind at 1 3. unfold new_dict. cbv zeta.
  set (l := fresh _). set (w1 := set_heap _ w).
  assert (Hd : deref w1 l = <["tool_name" := tool]> (<["ref" := ref]> ∅)).
  { unfold deref, w1. cbn [heap set_heap]. now rewrite lookup_insert_eq. }
  split.
  - rewrite bind_snd_pure by (intros [] w2; reflexivity).
    destruct (get_trace G srv fuel (CodeScanning.rest self)
                "/repos/{org}/{repo}/code-scanning/analyses" (Some l) 200 false w1
                (GitHub_api_rest G +:+ "/repos/" +:+ owner r +:+ "/" +:+ repo r
                 +:+ "/code-scanning/analyses")) as (n & Hn & Ht).
    + exists r. change (default get_defaults (Some l)) with l.
      rewrite Hd, Hrepo.
      split; [reflexivity|]. split; [vm_compute; reflexivity|].
      split; [apply analyses_route | reflexivity].
    + exact Hfuel.
    + change (default get_defaults (Some l)) with l in Ht. rewrite Hd in Ht.
      eexists. split; [exact Ht|]. split; [now rewrite length_page_requests|].
      intros i req Hi. apply page_requests_lookup in Hi. subst req.
      unfold page_request. cbn [req_url req_params].
      split; [reflexivity|].
      split; [now rewrite !lookup_insert_ne, lookup_insert_eq by discriminate|].
      split; [now rewrite !lookup_insert_ne, lookup_insert_eq by discriminate|].
      now rewrite lookup_insert_eq.
  - unfold bind. destruct (RestRequest.get _ _ _ _ _ _ _ _ _) as [[v|e|] w2]; cbn; auto.
    destruct v; cbn; eauto.
Qed.

Lemma getAnalyses_request_witness :
  (exists sent : list request,
      traffic (snd (CodeScanning.getAnalyses example_github two_page_server no_reference 5
                      (CodeScanning.mk example_rest) (VStr "refs/heads/main")
                      (VStr "CodeQL") example_world))
      = traffic example_world ++ sent
      /\ (1 <= length sent)%nat
      /\ forall (i : nat) req,
          sent !! i = Some req ->
          req_url req
          = GitHub_api_rest example_github +:+ "/repos/" +:+ owner example_repository
            +:+ "/" +:+ repo example_repository +:+ "/code-scanning/analyses"
          /\ req_params req !! "ref" = Some (VStr "refs/heads/main")
          /\ req_params req !! "tool_name" = Some (VStr "CodeQL")
          /\ req_params req !! "page" = Some (VInt (1 + Z.of_nat i)))
  /\ match fst (CodeScanning.getAnalyses example_github two_page_server no_reference 5
                  (CodeScanning.mk example_rest) (VStr "refs/heads/main") (VStr "CodeQL")
                  example_world) with
     | Ret v => exists l, v = VList l
     | _ => True
     end.
Proof.
  refine (getAnalyses_request example_github two_page_server no_reference 5
            (CodeScanning.mk example_rest) (VStr "refs/heads/main") (VStr "CodeQL")
            example_world example_repository _ _).
  - reflexivity.
  - lia.
Defined.

(** ** Building an instance *)

(** X16.  [CodeScanning.__init__] fails when neither the argument nor the
    configuration gives a repository, and changes nothing then.  Otherwise
    the instance's executor has that repository and a session of its own:
    a new one carrying the three REST headers, while every existing session
    and every dictionary is left as it was and nothing is sent. *)
Theorem init_makes_own_session (G : GitHub) (repository0 : option Repository)
    (w : world) :
  (RestRequest.or_else repository0 (GitHub_repository G) = None ->
   CodeScanning.init G repository0 w
   = (Raise (Exception "CodeScanning requires Repository to be set"), w))
  /\ (forall r,
         RestRequest.or_else repository0 (GitHub_repository G) = Some r ->
         exists self w',
           CodeScanning.init G repository0 w = (Ret self, w')
           /\ RestRequest.repository (CodeScanning.rest self) = Some r
           /\ sessions w !! RestRequest.session (CodeScanning.rest self) = None
           /\ headers w' (RestRequest.session (CodeScanning.rest self))
              = <["Accept" := "application/vnd.github.v3+json"]>
                  (<["X-GitHub-Api-Version" := "2022-11-28"]>
                     (<["Authorization" := RestRequest.authorization G]> ∅))
           /\ (forall s, s <> RestRequest.session (CodeScanning.rest self) ->
                         sessions w' !! s = sessions w !! s)
           /\ heap w' = heap w
           /\ traffic w' = traffic w).
Proof.
  split.
  - intros H. unfold CodeScanning.init. now rewrite H.
  - intros r H. unfold CodeScanning.init. rewrite H.
    eexists _, _. split; [reflexivity|].
    cbn [CodeScanning.rest RestRequest.repository RestRequest.session RestRequest.or_else].
    split; [reflexivity|]. split; [|split; [|split; [|split]]].
    + apply not_elem_of_dom, is_fresh.
    + unfold headers. cbn [sessions set_sessions]. now rewrite lookup_insert_eq.
    + intros s Hs. cbn [sessions set_sessions]. now rewrite lookup_insert_ne.
    + reflexivity.
    + reflexivity.
Qed.

Lemma init_makes_own_session_witness :
  CodeScanning.init example_github None example_world
  = (Raise (Exception "CodeScanning requires Repository to be set"), example_world)
  /\ exists self w',
      CodeScanning.init example_github (Some example_repository) example_world
      = (Ret self, w')
      /\ RestRequest.repository (CodeScanning.rest self) = Some example_repository
      /\ sessions example_world !! RestRequest.session (CodeScanning.rest self) = None
      /\ headers w' (RestRequest.session (CodeScanning.rest self))
         = <["Accept" := "application/vnd.github.v3+json"]>
             (<["X-GitHub-Api-Version" := "2022-11-28"]>
                (<["Authorization" := RestRequest.authorization example_github]> ∅))
      /\ (forall s, s <> RestRequest.session (CodeScanning.rest self) ->
                    sessions w' !! s = sessions example_world !! s)
      /\ heap w' = heap example_world
      /\ traffic w' = traffic example_world.
Proof.
  split.
  - exact (proj1 (init_makes_own_session example_github None example_world) eq_refl).
  - exact (proj2 (init_makes_own_session example_github (Some example_repository)
                    example_world) example_repository eq_refl).
Defined.

(** ** The decorator, in general *)

(** The guard [len(defaults) < 0] is false. *)
Ltac dead_branch :=
  replace (Z.of_nat (length _) <? 0) with false by (symmetry; apply Z.ltb_ge; lia);
  rewrite andb_false_r.

(** The loop of the wrapper always runs through, and its flag tells
    whether a parameter named [response] is declared. *)
Lemma wrap_loop_returns fargs args defaults params :
  forall args_index response0 w,
    exists w',
      RestRequest.wrap_loop fargs args defaults params args_index response0 w
      = (Ret (response0 || existsb (String.eqb "response") fargs), w').
Proof.
  induction fargs as [|argv fargs IH]; intros args_index response0 w.
  - exists w. cbn. now rewrite orb_false_r.
  - cbn [RestRequest.wrap_loop existsb].
    destruct (String.eqb argv "self") eqn:Hself.
    + apply String.eqb_eq in Hself. subst argv.
      change (String.eqb "response" "self") with false. cbn [orb].
      apply IH.
    + dead_branch.
      rewrite bind_ret. unfold bind at 1. unfold dict_set, modify.
      match goal with
      | |- context [RestRequest.wrap_loop _ _ _ _ ?i ?r ?w0] =>
          destruct (IH i r w0) as (w' & ->)
      end.
      exists w'. f_equal. f_equal. rewrite (String.eqb_sym "response" argv).
      destruct (String.eqb argv "response"); cbn [orb]; [now rewrite orb_true_r | reflexivity].
Qed.

Lemma kwargs_clash_self (kwargs : gmap string value) :
  kwargs_clash ["self"] kwargs = bool_decide (is_Some (kwargs !! "self")).
Proof. unfold kwargs_clash. cbn [existsb]. apply orb_false_r. Qed.

(** X17.  The wrapper names its receiver [self]: a call with a keyword
    argument [self] is refused with [TypeError] before anything is done.
    For a decorated method that declares no parameter named [response],
    the other keyword arguments of the call have no effect at all: they
    reach neither the request nor the result.  (A call such as
    [getAlerts("open", ref=...)] therefore sends [ref = None].) *)
Theorem restGet_ignores_keywords (G : GitHub) (srv : server) (fuel : nat)
    (url : string) (authenticated : bool) (func : pyfunc)
    (self_rest : option RestRequest.t) (args : list value)
    (kwargs : gmap string value) (w : world) :
  (is_Some (kwargs !! "self") ->
   RestRequest.restGet G srv fuel url authenticated func self_rest args kwargs w
   = (Raise TypeError, w))
  /\ (existsb (String.eqb "response") (func_args func) = false ->
      kwargs !! "self" = None ->
      RestRequest.restGet G srv fuel url authenticated func self_rest args kwargs w
      = RestRequest.restGet G srv fuel url authenticated func self_rest args ∅ w).
Proof.
  split.
  - intros Hself. unfold RestRequest.restGet.
    rewrite kwargs_clash_self, (bool_decide_eq_true_2 _ Hself). reflexivity.
  - intros Hno Hself. unfold RestRequest.restGet.
    rewrite !kwargs_clash_self, Hself, lookup_empty.
    rewrite (bool_decide_eq_false_2 _ is_Some_None).
    apply bind_ext. intros rest w1. apply bind_ext. intros params w2.
    destruct (wrap_loop_returns (func_args func) args (func_defaults func) params
                0%nat false w2) as (w3 & Hwrap).
    unfold bind. rewrite Hwrap, Hno. cbn [orb].
    destruct (RestRequest.get _ _ _ _ _ _ _ _ _) as [[v|e|] w4]; reflexivity.
Qed.

Lemma restGet_ignores_keywords_witness :
  CodeScanning.getAlerts example_github two_page_server 5 (CodeScanning.mk example_rest)
    [VStr "open"] (<["self" := VNone]> ∅) example_world
  = (Raise TypeError, example_world)
  /\ CodeScanning.getAlerts example_github two_page_server 5 (CodeScanning.mk example_rest)
       [VStr "open"] (<["ref" := VStr "refs/pull/1/merge"]> ∅) example_world
     = CodeScanning.getAlerts example_github two_page_server 5
         (CodeScanning.mk example_rest) [VStr "open"] ∅ example_world.
Proof.
  split.
  - refine (proj1 (restGet_ignores_keywords example_github two_page_server 5
                     "/repos/{owner}/{repo}/code-scanning/alerts" true
                     CodeScanning.getAlerts_func (Some example_rest) [VStr "open"]
                     (<["self" := VNone]> ∅) example_world) _).
    exists VNone. vm_compute; reflexivity.
  - refine (proj2 (restGet_ignores_keywords example_github two_page_server 5
                     "/repos/{owner}/{repo}/code-scanning/alerts" true
                     CodeScanning.getAlerts_func (Some example_rest) [VStr "open"]
                     (<["ref" := VStr "refs/pull/1/merge"]> ∅) example_world) _ _).
    + reflexivity.
    + vm_compute; reflexivity.
Defined.

(** X18.  A decorated method that declares [response], does not declare
    [responce] and takes no [**kwargs] never returns a value through the
    wrapper: whatever the arguments and whatever the server answers, the
    call ends in an exception (or is still paging). *)
Theorem restGet_response_never_returns (G : GitHub) (srv : server) (fuel : nat)
    (url : string) (authenticated : bool) (func : pyfunc)
    (self_rest : option RestRequest.t) (args : list value)
    (kwargs : gmap string value) (w : world) (v : value) :
  existsb (String.eqb "response") (func_args func) = true ->
  "responce" ∉ func_args func ->
  func_varkw func = false ->
  fst (RestRequest.restGet G srv fuel url authenticated func self_rest args kwargs w)
  <> Ret v.
Proof.
  intros Hresp Hnot Hkw Hrun. unfold RestRequest.restGet in Hrun.
  destruct (kwargs_clash ["self"] kwargs); [discriminate|].
  apply bind_Ret_inv in Hrun as (rest & w1 & _ & Hrun).
  apply bind_Ret_inv in Hrun as (params & w2 & _ & Hrun).
  apply bind_Ret_inv in Hrun as (flag & w3 & Hwrap & Hrun).
  destruct (wrap_loop_returns (func_args func) args (func_defaults func) params
              0%nat false w2) as (w3' & Hwrap').
  rewrite Hresp in Hwrap'. cbn [orb] in Hwrap'.
  rewrite Hwrap' in Hwrap. injection Hwrap as <- <-.
  apply bind_Ret_inv in Hrun as (result & w4 & _ & Hrun).
  destruct (bool_decide _); [discriminate|].
  rewrite (call_method_responce _ _ _ _ Hnot Hkw) in Hrun. discriminate.
Qed.

Lemma restGet_response_never_returns_witness :
  fst (RestRequest.restGet example_github (constant_server 200 (Some items_body)) 1
         "/repos/{owner}/{repo}/code-scanning/analyses" false reshaping_func
         (Some example_rest) [] ∅ example_world)
  <> Ret (VList [VInt 1; VInt 2]).
Proof.
  refine (restGet_response_never_returns example_github
            (constant_server 200 (Some items_body)) 1
            "/repos/{owner}/{repo}/code-scanning/analyses" false reshaping_func
            (Some example_rest) [] ∅ example_world (VList [VInt 1; VInt 2]) _ _ _).
  - reflexivity.
  - intros H. apply (bool_decide_pack _) in H. vm_compute in H. exact H.
  - reflexivity.
Defined.

Lemma wrap_loop_other fargs args defaults params k :
  k ∉ fargs ->
  forall args_index response0 w,
    deref (snd (RestRequest.wrap_loop fargs args defaults params args_index response0 w))
      params !! k
    = deref w params !! k.
Proof.
  induction fargs as [|argv fargs IH]; intros Hk args_index response0 w; [reflexivity|].
  apply not_elem_of_cons in Hk as [Hne Hk].
  cbn [RestRequest.wrap_loop].
  destruct (String.eqb argv "self").
  - now apply IH.
  - dead_branch.
    rewrite bind_ret. unfold bind at 1. unfold dict_set, modify.
    rewrite (IH Hk).
    unfold deref at 1. cbn [heap set_heap]. rewrite lookup_insert_eq.
    cbn [default id]. now apply lookup_insert_ne.
Qed.

Lemma wrap_loop_positional fargs args defaults params :
  NoDup fargs ->
  "self" ∉ fargs ->
  forall args_index response0 w (i : nat) n,
    fargs !! i = Some n ->
    deref (snd (RestRequest.wrap_loop fargs args defaults params args_index response0 w))
      params !! n
    = Some (default VNone (args !! (args_index + i)%nat)).
Proof.
  induction fargs as [|argv fargs IH]; intros Hnd Hself args_index response0 w i n Hi;
    [discriminate|].
  apply NoDup_cons in Hnd as [Hnotin Hnd].
  apply not_elem_of_cons in Hself as [Hne Hself].
  cbn [RestRequest.wrap_loop].
  replace (String.eqb argv "self") with false
    by (symmetry; apply String.eqb_neq; congruence).
  dead_branch.
  rewrite bind_ret. unfold bind at 1. unfold dict_set, modify.
  destruct i as [|i]; cbn in Hi.
  - injection Hi as <-. rewrite (wrap_loop_other _ _ _ _ _ Hnotin).
    unfold deref at 1. cbn [heap set_heap]. rewrite lookup_insert_eq.
    cbn [default id]. rewrite lookup_insert_eq, Nat.add_0_r. f_equal.
    destruct (args_index <? length args)%nat eqn:Hlt; [reflexivity|].
    apply Nat.ltb_ge in Hlt. now rewrite (lookup_ge_None_2 _ _ Hlt).
  - rewrite (IH Hnd Hself (S args_index) _ _ i n Hi). do 3 f_equal. lia.
Qed.

(** X19.  For a declaration [(self, p1, ..., pn)] with distinct parameter
    names, the wrapper builds the parameter map by position: [pi] receives
    the [i]-th positional argument of the call, or [None] when the call
    has fewer arguments; arguments beyond the [n]-th are ignored, and the
    map has no other key. *)
Theorem wrapper_maps_by_position (func : pyfunc) (names : list string)
    (args : list value) :
  func_args func = "self" :: names ->
  NoDup names ->
  "self" ∉ names ->
  (forall (i : nat) n,
      names !! i = Some n ->
      built_parameters func args !! n = Some (default VNone (args !! i)))
  /\ (forall k, k ∉ names -> built_parameters func args !! k = None).
Proof.
  intros Hargs Hnd Hself. unfold built_parameters. cbv zeta.
  rewrite Hargs. unfold bind at 1 3 5 7. unfold new_dict. cbv zeta.
  set (l := fresh _). set (w1 := set_heap _ fresh_world).
  assert (Hd : deref w1 l = ∅).
  { unfold deref, w1. cbn [heap set_heap]. now rewrite lookup_insert_eq. }
  cbn [RestRequest.wrap_loop String.eqb Ascii.eqb Bool.eqb].
  destruct (wrap_loop_returns names args (func_defaults func) l 0%nat false w1)
    as (w2 & Hwrap).
  assert (Hw2 : w2 = snd (RestRequest.wrap_loop names args (func_defaults func) l 0 false w1))
    by now rewrite Hwrap.
  unfold bind. rewrite Hwrap. cbn [fst snd ret]. split.
  - intros i n Hi. rewrite Hw2.
    now rewrite (wrap_loop_positional _ _ _ _ Hnd Hself 0%nat false w1 i n Hi).
  - intros k Hk. rewrite Hw2, (wrap_loop_other _ _ _ _ _ Hk), Hd. apply lookup_empty.
Qed.

Lemma wrapper_maps_by_position_witness :
  (forall (i : nat) n,
      ["state"; "tool_name"; "ref"] !! i = Some n ->
      built_parameters CodeScanning.getAlerts_func [VStr "closed"; VStr "CodeQL"] !! n
      = Some (default VNone ([VStr "closed"; VStr "CodeQL"] !! i)))
  /\ (forall k, k ∉ ["state"; "tool_name"; "ref"] ->
                built_parameters CodeScanning.getAlerts_func [VStr "closed"; VStr "CodeQL"]
                !! k = None).
Proof.
  refine (wrapper_maps_by_position CodeScanning.getAlerts_func
            ["state"; "tool_name"; "ref"] [VStr "closed"; VStr "CodeQL"] eq_refl _ _).
  - apply (bool_decide_unpack _). vm_compute. exact I.
  - intros H. apply (bool_decide_pack _) in H. vm_compute in H. exact H.
Defined.

(** ** The SARIF download, in general *)

(** What [downloadSARIF] does once the GET has returned [result]. *)
Lemma sarif_tail writable s a output result w4 :
  exists w5,
    (header_set s "Accept" a ;;;
     log DEBUG "Saving SARIF file to :: " (ArgStr output) ;;;
     CodeScanning.dump writable output result ;;;
     log DEBUG "Saved SARIF file" NoArg ;;;
     ret true) w4
    = (if writable output then Ret true else Raise OSError, w5)
    /\ files w5 = if writable output then <[output := result]> (files w4) else files w4.
Proof.
  unfold bind, header_set, modify, log, CodeScanning.dump.
  destruct (writable output); eexists; split; reflexivity.
Qed.

(** X20.  When the session has an [Accept] header and the GET of
    [downloadSARIF] returns a result, the headers are afterwards exactly
    as before the call.  If the output file can be opened the method
    returns [True] and the file holds the result; if it cannot, the method
    raises [OSError] and no file is changed. *)
Theorem downloadSARIF_after_get (G : GitHub) (srv : server)
    (writable : string -> bool) (fuel : nat) (self : CodeScanning.t)
    (output : string) (sarif_id : Z) (w : world) (a : string) (result : value) :
  let s := RestRequest.session (CodeScanning.rest self) in
  let run := CodeScanning.downloadSARIF G srv writable fuel self output sarif_id w in
  headers w s !! "Accept" = Some a ->
  fst (RestRequest.get G srv fuel (CodeScanning.rest self) sarif_path
         (Some (sarif_params w)) 200 false (sarif_world s sarif_id w)) = Ret result ->
  headers (snd run) s = headers w s
  /\ (writable output = true ->
      fst run = Ret true /\ files (snd run) = <[output := result]> (files w))
  /\ (writable output = false ->
      fst run = Raise OSError /\ files (snd run) = files w).
Proof.
  intros s run Ha Hget. split.
  - exact (downloadSARIF_get_returns G srv writable fuel self output sarif_id w a result
             Ha Hget).
  - assert (H : exists w5,
               run = (if writable output then Ret true else Raise OSError, w5)
               /\ files w5 = if writable output then <[output := result]> (files w)
                             else files w).
    { subst run. rewrite (downloadSARIF_unfold _ _ _ _ _ _ _ _ _ Ha). fold s.
      pose proof (get_files G srv fuel (CodeScanning.rest self) sarif_path
                    (Some (sarif_params w)) 200 false (sarif_world s sarif_id w)) as Hf.
      unfold bind at 1.
      destruct (RestRequest.get _ _ _ _ _ _ _ _ _) as [o w4].
      cbn [fst snd] in Hget, Hf. subst o. cbn [files sarif_world] in Hf.
      destruct (sarif_tail writable s a output result w4) as (w5 & -> & Hf5).
      exists w5. split; [reflexivity|]. now rewrite Hf5, Hf. }
    destruct H as (w5 & -> & Hf5). cbn [fst snd].
    split; intros Hw; rewrite Hw in *; auto.
Qed.

Lemma downloadSARIF_after_get_witness :
  headers (snd (CodeScanning.downloadSARIF example_github sarif_server (fun _ => true) 1
                  (CodeScanning.mk example_rest) "out.sarif" 42 example_world))
    (RestRequest.session example_rest)
  = headers example_world (RestRequest.session example_rest)
  /\ ((fun _ : string => true) "out.sarif" = true ->
      fst (CodeScanning.downloadSARIF example_github sarif_server (fun _ => true) 1
             (CodeScanning.mk example_rest) "out.sarif" 42 example_world) = Ret true
      /\ files (snd (CodeScanning.downloadSARIF example_github sarif_server
                       (fun _ => true) 1 (CodeScanning.mk example_rest) "out.sarif" 42
                       example_world))
         = <["out.sarif" := VDict [("version", VStr "2.1.0")]]> (files example_world))
  /\ ((fun _ : string => true) "out.sarif" = false ->
      fst (CodeScanning.downloadSARIF example_github sarif_server (fun _ => true) 1
             (CodeScanning.mk example_rest) "out.sarif" 42 example_world)
      = Raise OSError
      /\ files (snd (CodeScanning.downloadSARIF example_github sarif_server
                       (fun _ => true) 1 (CodeScanning.mk example_rest) "out.sarif" 42
                       example_world))
         = files example_world).
Proof.
  refine (downloadSARIF_after_get example_github sarif_server (fun _ => true) 1
            (CodeScanning.mk example_rest) "out.sarif" 42 example_world
            "application/vnd.github.v3+json" (VDict [("version", VStr "2.1.0")]) _ _).
  - vm_compute; reflexivity.
  - vm_compute; reflexivity.
Defined.

(** X21.  When the session has no [Accept] header, [downloadSARIF] raises
    [KeyError] at the [pop]: no header is set, no request is sent and no
    file is written. *)
Theorem downloadSARIF_without_accept (G : GitHub) (srv : server)
    (writable : string -> bool) (fuel : nat) (self : CodeScanning.t)
    (output : string) (sarif_id : Z) (w : world) :
  headers w (RestRequest.session (CodeScanning.rest self)) !! "Accept" = None ->
  CodeScanning.downloadSARIF G srv writable fuel self output sarif_id w
  = (Raise (KeyError "Accept"),
     set_logged (logged w ++ [mkLog DEBUG "Downloading SARIF file :: " (ArgInt sarif_id)])
       w).
Proof.
  intros Ha. unfold CodeScanning.downloadSARIF. cbv zeta.
  rewrite bind_log. unfold bind at 1. unfold header_pop.
  change (headers (set_logged _ w) ?s) with (headers w s). now rewrite Ha.
Qed.

Lemma downloadSARIF_without_accept_witness :
  CodeScanning.downloadSARIF example_github sarif_server (fun _ => true) 1
    (CodeScanning.mk (RestRequest.mk (Some example_repository) 7%positive)) "out.sarif" 42
    example_world
  = (Raise (KeyError "Accept"),
     set_logged
       (logged example_world ++ [mkLog DEBUG "Downloading SARIF file :: " (ArgInt 42)])
       example_world).
Proof.
  exact (downloadSARIF_without_accept example_github sarif_server (fun _ => true) 1
           (CodeScanning.mk (RestRequest.mk (Some example_repository) 7%positive))
           "out.sarif" 42 example_world eq_refl).
Defined.

(** ** The credential check, where it does fire *)

Lemma organization_route G r state :
  Octokit.route G "/orgs/{org}/code-scanning/alerts" r "rest" (<["state" := state]> ∅)
  = inr (GitHub_api_rest G +:+ "/orgs/" +:+ owner r +:+ "/code-scanning/alerts").
Proof.
  rewrite route_unfold by (vm_compute; reflexivity).
  change "/orgs/{org}/code-scanning/alerts" with (template_of organization_template).
  rewrite (format_substituted _ _ ("/orgs/" +:+ owner r +:+ "/code-scanning/alerts" +:+ ""))
    by (first [reflexivity
              | unfold organization_template;
                repeat first
                  [ apply subst_nil
                  | apply subst_text
                  | apply subst_placeholder;
                    [eexists; split; [vm_compute; reflexivity | reflexivity]|] ]]).
  rewrite append_empty_r. reflexivity.
Qed.

(** X22.  [getOrganizationAlerts] asks for an authenticated GET: on a
    session whose headers have no [Authorization] entry, or an empty one,
    it raises the token-required exception after resolving the route, and
    sends nothing. *)
Theorem getOrganizationAlerts_requires_header (G : GitHub) (srv : server)
    (fuel : nat) (self : CodeScanning.t) (state : value) (w : world)
    (r : Repository) :
  let run := CodeScanning.getOrganizationAlerts G srv fuel self state w in
  RestRequest.repository (CodeScanning.rest self) = Some r ->
  RestRequest.header_missing
    (headers w (RestRequest.session (CodeScanning.rest self))) "Authorization" = true ->
  fst run = Raise (Exception "GitHub Token required for this request")
  /\ traffic (snd run) = traffic w
  /\ exists earlier,
      logged (snd run)
      = earlier ++ [mkLog DEBUG "Fetching content from URL :: "
                      (ArgStr (GitHub_api_rest G +:+ "/orgs/" +:+ owner r
                               +:+ "/code-scanning/alerts"))].
Proof.
  intros run Hrepo Hmiss.
  assert (H : run = (Raise (Exception "GitHub Token required for this request"),
                     set_logged
                       (logged w
                        ++ [mkLog DEBUG "Fetching content from URL :: "
                              (ArgStr (GitHub_api_rest G +:+ "/orgs/" +:+ owner r
                                       +:+ "/code-scanning/alerts"))])
                       (set_heap
                          (<[fresh ({[get_defaults]} ∪ dom (heap w))
                             := <["state" := state]> ∅]> (heap w)) w))).
  { subst run. unfold CodeScanning.getOrganizationAlerts.
    unfold bind at 1. unfold new_dict. cbv zeta.
    set (l := fresh _). set (w1 := set_heap _ w).
    assert (Hd : deref w1 l = <["state" := state]> ∅).
    { unfold deref, w1. cbn [heap set_heap]. now rewrite lookup_insert_eq. }
    unfold bind at 1. unfold RestRequest.get. cbv zeta.
    change (default get_defaults (Some l)) with l.
    rewrite Hrepo. cbn [RestRequest.or_else].
    unfold bind at 1. unfold getw. rewrite Hd.
    replace (kwargs_clash ["path"; "repository"; "rtype"] (<["state" := state]> ∅))
      with false by (vm_compute; reflexivity).
    rewrite organization_route, bind_lift_inr, bind_log.
    change (headers w1 ?s) with (headers w s). rewrite Hmiss. reflexivity. }
  rewrite H. cbn [fst snd traffic logged set_logged set_heap]. eauto.
Qed.

Lemma getOrganizationAlerts_requires_header_witness :
  fst (CodeScanning.getOrganizationAlerts example_github two_page_server 5
         (CodeScanning.mk (RestRequest.mk (Some example_repository) 7%positive))
         (VStr "open") example_world)
  = Raise (Exception "GitHub Token required for this request")
  /\ traffic (snd (CodeScanning.getOrganizationAlerts example_github two_page_server 5
                     (CodeScanning.mk (RestRequest.mk (Some example_repository) 7%positive))
                     (VStr "open") example_world))
     = traffic example_world
  /\ exists earlier,
      logged (snd (CodeScanning.getOrganizationAlerts example_github two_page_server 5
                     (CodeScanning.mk (RestRequest.mk (Some example_repository) 7%positive))
                     (VStr "open") example_world))
      = earlier ++ [mkLog DEBUG "Fetching content from URL :: "
                      (ArgStr (GitHub_api_rest example_github +:+ "/orgs/"
                               +:+ owner example_repository +:+ "/code-scanning/alerts"))].
Proof.
  exact (getOrganizationAlerts_requires_header example_github two_page_server
           5 (CodeScanning.mk (RestRequest.mk (Some example_repository) 7%positive))
           (VStr "open") example_world example_repository eq_refl eq_refl).
Defined.
